(** * Blog backend: articles, comments, likes and login

    A shallow embedding of the Mongoose models ([Article], [Comment],
    [User], [Like]) and of the Express controllers built on them.

    The document store is a record of collections; every collection is the
    list of its documents in insertion order, which is the order [findOne]
    scans.  An [async] function is a value of [Proc]: a tree whose nodes are
    the [await]ed store operations.  The code between two [await]s runs
    without interruption on the Node event loop, so a node is one atomic
    step; [run] executes a request alone, [interleave] executes two requests
    under a schedule that says whose step comes next.

    Conventions.  Identifiers that a request carries ([commentId],
    [parentCommentId]) are taken after their cast to [ObjectId]; an absent
    or falsy optional field of a request body is [None] or the empty
    string.  Time stamps other than [lastLogin] are left out.  A counter is
    an integer: [likesCount], [viewsCount] and [commentsCount] are in [Z].
    The argument [dev] of a controller is
    [process.env.NODE_ENV === 'development']. *)

From Stdlib Require Import List String Ascii ZArith NArith Bool Lia.
Import ListNotations.

Set Implicit Arguments.
Local Open Scope string_scope.
Local Open Scope list_scope.

(** ** JavaScript values and string built-ins

    Strings are byte strings; the built-ins below are given on ASCII, where
    they agree with [String.prototype.trim], [toLowerCase] and [RegExp.test]. *)

Module Js.
(** What a JSON request body can hold under a key. *)
Inductive Value : Type :=
| Null
| Bool (b : bool)
| Num (z : Z)
| Str (s : string)
| Obj.

(** [v === lit] for a string literal [lit]. *)
Definition strict_eq_str (v : Value) (lit : string) : bool :=
  match v with Str s => String.eqb s lit | _ => false end.

Definition in_range (lo hi : nat) (c : ascii) : bool :=
  let n := nat_of_ascii c in Nat.leb lo n && Nat.leb n hi.

Definition is_space (c : ascii) : bool :=
  let n := nat_of_ascii c in in_range 9 13 c || Nat.eqb n 32.

Fixpoint trimStart (s : string) : string :=
  match s with
  | String c t => if is_space c then trimStart t else s
  | EmptyString => EmptyString
  end.

Fixpoint rev_onto (s acc : string) : string :=
  match s with
  | String c t => rev_onto t (String c acc)
  | EmptyString => acc
  end.

Definition trim (s : string) : string :=
  rev_onto (trimStart (rev_onto (trimStart s) "")) "".

Definition lower (c : ascii) : ascii :=
  if in_range 65 90 c then ascii_of_nat (nat_of_ascii c + 32) else c.

Fixpoint toLowerCase (s : string) : string :=
  match s with
  | String c t => String (lower c) (toLowerCase t)
  | EmptyString => EmptyString
  end.

(** Regular expressions, matched by derivatives.  Every pattern of the
    source is anchored at both ends, so [test] is a match of the whole
    string. *)
Inductive Regex : Type :=
| Void
| Eps
| Class (p : ascii -> bool)
| Seq (r1 r2 : Regex)
| Alt (r1 r2 : Regex)
| Star (r : Regex).

Fixpoint nullable (r : Regex) : bool :=
  match r with
  | Void => false
  | Eps => true
  | Class _ => false
  | Seq a b => nullable a && nullable b
  | Alt a b => nullable a || nullable b
  | Star _ => true
  end.

Definition seq (a b : Regex) : Regex :=
  match a, b with
  | Void, _ => Void
  | _, Void => Void
  | Eps, _ => b
  | _, _ => Seq a b
  end.

Definition alt (a b : Regex) : Regex :=
  match a, b with
  | Void, _ => b
  | _, Void => a
  | _, _ => Alt a b
  end.

Fixpoint deriv (c : ascii) (r : Regex) : Regex :=
  match r with
  | Void => Void
  | Eps => Void
  | Class p => if p c then Eps else Void
  | Seq a b =>
      if nullable a
      then alt (seq (deriv c a) b) (deriv c b)
      else seq (deriv c a) b
  | Alt a b => alt (deriv c a) (deriv c b)
  | Star a => seq (deriv c a) (Star a)
  end.

Fixpoint test (r : Regex) (s : string) : bool :=
  match s with
  | String c t => test (deriv c r) t
  | EmptyString => nullable r
  end.

Definition plus (r : Regex) : Regex := Seq r (Star r).
Definition opt (r : Regex) : Regex := Alt r Eps.
Fixpoint times (n : nat) (r : Regex) : Regex :=
  match n with O => Eps | S m => Seq r (times m r) end.

Definition is_digit (c : ascii) : bool := in_range 48 57 c.
Definition is_hex (c : ascii) : bool :=
  is_digit c || in_range 97 102 c || in_range 65 70 c.
(** [\w] *)
Definition is_word (c : ascii) : bool :=
  is_digit c || in_range 97 122 c || in_range 65 90 c || Nat.eqb (nat_of_ascii c) 95.
Definition is_char (n : nat) (c : ascii) : bool := Nat.eqb (nat_of_ascii c) n.

(** [/^[0-9a-fA-F]{24}$/] *)
Definition objectIdRegex : Regex := times 24 (Class is_hex).

(** [/^\w+([.-]?\w+)*@\w+([.-]?\w+)*(\.\w{2,3})+$/] *)
Definition emailRegex : Regex :=
  let w := Class is_word in
  let dot_dash := Class (fun c => is_char 46 c || is_char 45 c) in
  let part := Seq (plus w) (Star (Seq (opt dot_dash) (plus w))) in
  Seq part
    (Seq (Class (is_char 64))
       (Seq part
          (plus (Seq (Class (is_char 46)) (Seq w (Seq w (opt w))))))).

Definition hex_value (c : ascii) : N :=
  let n := nat_of_ascii c in
  N.of_nat (if is_digit c then n - 48
            else if in_range 97 102 c then n - 87
            else n - 55).

Fixpoint hex_onto (s : string) (acc : N) : N :=
  match s with
  | String c t => hex_onto t (16 * acc + hex_value c)%N
  | EmptyString => acc
  end.

(** The [ObjectId] a 24-digit hexadecimal string is cast to. *)
Definition castObjectId (s : string) : N := hex_onto s 0%N.

(** [s.split(sep)] for a separator of one character. *)
Fixpoint split_at (sep : ascii) (s : string) : string * list string :=
  match s with
  | EmptyString => (EmptyString, [])
  | String c t =>
      let (piece, pieces) := split_at sep t in
      if Ascii.eqb c sep then (EmptyString, piece :: pieces)
      else (String c piece, pieces)
  end.

Definition split (sep : ascii) (s : string) : list string :=
  let (piece, pieces) := split_at sep s in piece :: pieces.

(** The double-quote character (code 34). *)
Definition dq : string := String (ascii_of_nat 34) EmptyString.

(** [s.substring(0, n)] *)
Fixpoint take (n : nat) (s : string) : string :=
  match n, s with
  | S m, String c t => String c (take m t)
  | _, _ => EmptyString
  end.

(** [ObjectId.prototype.toString()]: the 24 lower-case hexadecimal digits
    of the twelve bytes of an identifier. *)
Definition hex_digit (d : N) : ascii :=
  ascii_of_N (if (d <? 10)%N then 48 + d else 87 + d)%N.

Fixpoint hex_digits (n : nat) (v : N) (acc : string) : string :=
  match n with
  | O => acc
  | S m => hex_digits m (v / 16)%N (String (hex_digit (v mod 16)%N) acc)
  end.

Definition objectIdToString (i : N) : string := hex_digits 24 i EmptyString.

(** [if (v)] on a value of a JSON body. *)
Definition truthy (v : Value) : bool :=
  match v with
  | Null => false
  | Bool b => b
  | Num z => negb (Z.eqb z 0)
  | Str s => negb (String.eqb s "")
  | Obj => true
  end.
End Js.

(** ** Documents *)

(** A MongoDB [ObjectId] is a 96-bit number. *)
Definition ObjectId := N.
Bind Scope N_scope with ObjectId.

Module ArticleDoc.
(** The paths of [articleSchema] that the controllers read or write. *)
Record t := mk {
  _id : ObjectId;
  title : string;
  slug : string;
  isPublished : bool;
  likesCount : Z;
  viewsCount : Z;
  (** The raw field [commentsCount] of the stored document.  It is not
      a path of [articleSchema]; MongoDB itself is schemaless, so a stored
      document may or may not carry it. *)
  commentsCount : option Z
}.
End ArticleDoc.

Module CommentDoc.
Record t := mk {
  _id : ObjectId;
  articleId : ObjectId;
  userId : option ObjectId;
  author : string;
  email : string;
  content : string;
  parentCommentId : option ObjectId;
  isApproved : bool;
  likesCount : Z;
  isEdited : bool
}.
End CommentDoc.

Module UserDoc.
Record t := mk {
  _id : ObjectId;
  name : string;
  email : string;
  password : string;
  role : string;
  isActive : bool;
  lastLogin : option N
}.
End UserDoc.

Module LikeDoc.
Record t := mk {
  _id : ObjectId;
  userId : ObjectId;
  articleId : ObjectId
}.
End LikeDoc.

(** ** The store *)

Record Store := mkStore {
  articles : list ArticleDoc.t;
  comments : list CommentDoc.t;
  users : list UserDoc.t;
  likes : list LikeDoc.t;
  (** The next identifier the driver hands out. *)
  nextId : ObjectId
}.

Definition set_articles (l : list ArticleDoc.t) (s : Store) : Store :=
  mkStore l (comments s) (users s) (likes s) (nextId s).
Definition set_comments (l : list CommentDoc.t) (s : Store) : Store :=
  mkStore (articles s) l (users s) (likes s) (nextId s).
Definition set_users (l : list UserDoc.t) (s : Store) : Store :=
  mkStore (articles s) (comments s) l (likes s) (nextId s).
Definition set_likes (l : list LikeDoc.t) (s : Store) : Store :=
  mkStore (articles s) (comments s) (users s) l (nextId s).
Definition bump_nextId (s : Store) : Store :=
  mkStore (articles s) (comments s) (users s) (likes s) (N.succ (nextId s)).

(** ** Errors and promises *)

Inductive Err : Type :=
| MongoServerError (code : N)          (* [error.code], 11000 = duplicate key *)
| ValidationError (errors : list string)
| TypeError
| DocumentNotFoundError
| Error (msg : string).

Definition err_code (e : Err) : option N :=
  match e with MongoServerError c => Some c | _ => None end.

(** How a promise settles. *)
Inductive Outcome (A : Type) : Type :=
| Resolved (a : A)
| Rejected (e : Err).
Arguments Rejected {A} e.

(** A store operation is atomic: it reads the store and leaves a new one. *)
Definition StoreOp (A : Type) : Type := Store -> Outcome A * Store.

(** The body of an [async] function. *)
Inductive Proc (R : Type) : Type :=
| Return (r : R)
| Throw (e : Err)
| Await (A : Type) (op : StoreOp A) (k : Outcome A -> Proc R).
Arguments Throw {R} e.
Arguments Await {R A} op k.

(** [await op]: a rejection is rethrown at the [await]. *)
Definition await {A} (op : StoreOp A) : Proc A :=
  Await op (fun o => match o with
                     | Resolved a => Return a
                     | Rejected e => Throw e
                     end).

Fixpoint bind {R S} (p : Proc R) (f : R -> Proc S) : Proc S :=
  match p with
  | Return r => f r
  | Throw e => Throw e
  | Await op k => Await op (fun o => bind (k o) f)
  end.

(** [try { p } catch (error) { h error }] *)
Fixpoint try_catch {R} (p : Proc R) (h : Err -> Proc R) : Proc R :=
  match p with
  | Return r => Return r
  | Throw e => h e
  | Await op k => Await op (fun o => try_catch (k o) h)
  end.

Declare Scope proc_scope.
Delimit Scope proc_scope with proc.
Notation "x <- p ;; q" := (bind p (fun x => q))
  (at level 100, p at next level, right associativity) : proc_scope.
Notation "p ;;; q" := (bind p (fun _ => q))
  (at level 100, right associativity) : proc_scope.

(** One request running alone, to completion. *)
Fixpoint run {R} (p : Proc R) (s : Store) : Outcome R * Store :=
  match p with
  | Return r => (Resolved r, s)
  | Throw e => (Rejected e, s)
  | Await op k => let (o, s') := op s in run (k o) s'
  end.

(** The next atomic step of a request. *)
Definition step {R} (p : Proc R) (s : Store) : Proc R * Store :=
  match p with
  | Await op k => let (o, s') := op s in (k o, s')
  | _ => (p, s)
  end.

(** Two requests in flight.  [true] lets the first one take its next step,
    [false] the second; when the schedule is used up the first request runs
    to its end, then the second. *)
Fixpoint interleave {R1 R2} (sched : list bool) (p1 : Proc R1) (p2 : Proc R2)
    (s : Store) : Outcome R1 * Outcome R2 * Store :=
  match sched with
  | [] =>
      let (o1, s1) := run p1 s in
      let (o2, s2) := run p2 s1 in
      (o1, o2, s2)
  | true :: t => let (p1', s') := step p1 s in interleave t p1' p2 s'
  | false :: t => let (p2', s') := step p2 s in interleave t p1 p2' s'
  end.

(** ** Generic collection operations *)

Section Collection.
Variable D : Type.
Variable id_of : D -> ObjectId.

(** The document [findById(i)] resolves to. *)
Definition lookupId (i : ObjectId) (l : list D) : option D :=
  find (fun d => N.eqb (id_of d) i) l.

(** [updateOne({_id: i}, u)]: the first document with that [_id]. *)
Fixpoint updateById (i : ObjectId) (f : D -> D) (l : list D) : list D :=
  match l with
  | [] => []
  | d :: r => if N.eqb (id_of d) i then f d :: r else d :: updateById i f r
  end.

(** [deleteOne(q)]: the first document that matches. *)
Fixpoint deleteFirst (q : D -> bool) (l : list D) : list D :=
  match l with
  | [] => []
  | d :: r => if q d then r else d :: deleteFirst q r
  end.

(** [countDocuments(q)] *)
Definition countDocuments (q : D -> bool) (l : list D) : Z :=
  Z.of_nat (List.length (filter q l)).
End Collection.

(** ** The Like model *)

Module Like.
Import LikeDoc.

(** The query [{ userId, articleId }]. *)
Definition matches (u a : ObjectId) (l : LikeDoc.t) : bool :=
  N.eqb (userId l) u && N.eqb (articleId l) a.

Definition findOne (u a : ObjectId) : StoreOp (option LikeDoc.t) :=
  fun s => (Resolved (find (matches u a) (likes s)), s).

(** [this.create({ userId, articleId })].  The compound index
    [{ userId: 1, articleId: 1 }] is unique: inserting a pair that is
    already there fails with the server error E11000. *)
Definition create (u a : ObjectId) : StoreOp LikeDoc.t :=
  fun s =>
    if existsb (matches u a) (likes s)
    then (Rejected (MongoServerError 11000), s)
    else let l := LikeDoc.mk (nextId s) u a in
         (Resolved l, bump_nextId (set_likes (likes s ++ [l]) s)).

(** [deleteOne(q)], resolving to [deletedCount]. *)
Definition deleteOne (q : LikeDoc.t -> bool) : StoreOp N :=
  fun s =>
    ( Resolved (if existsb q (likes s) then 1%N else 0%N),
      set_likes (deleteFirst q (likes s)) s ).

Record Result := mkResult {
  success : bool;
  message : string;
  action : option string;
  like : option LikeDoc.t;
  liked : option bool
}.

Definition userLikedArticle (u a : ObjectId) : Proc bool :=
  (like <- await (findOne u a) ;;
   Return (match like with Some _ => true | None => false end))%proc.

Definition countLikesForArticle (a : ObjectId) : Proc Z :=
  await (fun s => (Resolved (countDocuments (fun l => N.eqb (articleId l) a) (likes s)), s)).

Definition addLike (u a : ObjectId) : Proc Result :=
  try_catch
    (existingLike <- await (findOne u a) ;;
     match existingLike with
     | Some _ =>
         Return (mkResult false "Ya diste like a este artículo" None None None)
     | None =>
         like <- await (create u a) ;;
         Return (mkResult true "Like agregado exitosamente" None (Some like) None)
     end)%proc
    (fun error =>
       match err_code error with
       | Some 11000%N =>
           Return (mkResult false "Ya diste like a este artículo" None None None)
       | _ => Throw error
       end).

Definition removeLike (u a : ObjectId) : Proc Result :=
  (deletedCount <- await (deleteOne (matches u a)) ;;
   if N.eqb deletedCount 0
   then Return (mkResult false "No habías dado like a este artículo" None None None)
   else Return (mkResult true "Like eliminado exitosamente" None None None))%proc.

Definition toggleLike (u a : ObjectId) : Proc Result :=
  (existingLike <- await (findOne u a) ;;
   match existingLike with
   | Some l =>
       await (deleteOne (fun d => N.eqb (_id d) (_id l))) ;;;
       Return (mkResult true "Like eliminado exitosamente" (Some "removed") None (Some false))
   | None =>
       like <- await (create u a) ;;
       Return (mkResult true "Like agregado exitosamente" (Some "added") (Some like) (Some true))
   end)%proc.

Record Stats := mkStats {
  totalLikes : Z;
  totalArticles : Z;
  totalUsers : Z
}.

(** [getLikeStats(userId = null)]: an optional [$match] on the user, one
    [$group] over everything that is left, and [result[0] || zeros]. *)
Definition getLikeStats (user : option ObjectId) : Proc Stats :=
  await (fun s =>
           let docs := match user with
                       | Some u => filter (fun l => N.eqb (userId l) u) (likes s)
                       | None => likes s
                       end in
           (Resolved
              match docs with
              | [] => mkStats 0 0 0
              | _ => mkStats (Z.of_nat (List.length docs))
                       (Z.of_nat (List.length (nodup N.eq_dec (map articleId docs))))
                       (Z.of_nat (List.length (nodup N.eq_dec (map userId docs))))
              end, s)).
End Like.

(** ** HTTP responses *)

Inductive Payload : Type :=
| NoData
| ArticleDetail (article : ArticleDoc.t) (userLiked : bool)
| UseSlug (slug correctUrl : string)
| NotFoundDebug (searchedSlug originalSlug : string)
| ArticleLike (liked : bool) (likesCount : Z) (action : Js.Value)
| CommentLike (_id : ObjectId) (likesCount : Z)
| CommentModerated (_id : ObjectId) (isApproved : bool)
| CommentCreated (comment : CommentDoc.t)
    (article : option ArticleDoc.t) (user : option UserDoc.t)
| Errors (errors : list string)
| Auth (_id : ObjectId) (name email role : string) (lastLogin : option N)
    (token : string).

Record Response := mkResponse {
  status : nat;
  success : bool;
  message : option string;
  error : option string;
  data : Payload
}.

Definition err_message (e : Err) : string :=
  match e with
  | MongoServerError _ => "E11000 duplicate key error"
  | ValidationError _ => "Validation failed"
  | TypeError => "Cannot read properties of null"
  | DocumentNotFoundError => "No document found for query"
  | Error msg => msg
  end.

(** The reply of every controller's outer [catch]. *)
Definition internal_error (dev : bool) (e : Err) : Response :=
  mkResponse 500 false (Some "Error interno del servidor")
    (if dev then Some (err_message e) else None) NoData.

(** ** The Article model *)

Module Article.
Import ArticleDoc.

(** The paths that the update documents of the source name. *)
Inductive Path : Type := likesCount_path | viewsCount_path | commentsCount_path.

(** [articleSchema] declares title, slug, content, excerpt, author,
    imagenUrl, tags, likesCount, viewsCount, isPublished, publishedAt and
    updatedAt. *)
Definition schema_has (p : Path) : bool :=
  match p with
  | likesCount_path | viewsCount_path => true
  | commentsCount_path => false
  end.

(** The schema is built with the options [timestamps], [toJSON] and
    [toObject] only, so [strict] keeps Mongoose's default: a path that the
    schema does not declare is removed from an update before it is sent. *)
Definition schema_strict : bool := true.

Inductive Update : Type :=
| Inc (p : Path) (d : Z)     (* { $inc: { p: d } } *)
| Set_ (p : Path) (v : Z).   (* { $set: { p: v } } *)

Definition path_of (u : Update) : Path :=
  match u with Inc p _ => p | Set_ p _ => p end.

Definition get (p : Path) (a : t) : option Z :=
  match p with
  | likesCount_path => Some (likesCount a)
  | viewsCount_path => Some (viewsCount a)
  | commentsCount_path => commentsCount a
  end.

Definition put (p : Path) (v : Z) (a : t) : t :=
  match p with
  | likesCount_path =>
      mk (_id a) (title a) (slug a) (isPublished a) v (viewsCount a) (commentsCount a)
  | viewsCount_path =>
      mk (_id a) (title a) (slug a) (isPublished a) (likesCount a) v (commentsCount a)
  | commentsCount_path =>
      mk (_id a) (title a) (slug a) (isPublished a) (likesCount a) (viewsCount a) (Some v)
  end.

Definition applyUpdate (strict : bool) (u : Update) (a : t) : t :=
  if strict && negb (schema_has (path_of u)) then a
  else match u with
       | Inc p d => put p (match get p a with Some v => v + d | None => d end)%Z a
       | Set_ p v => put p v a
       end.

(** [findByIdAndUpdate(i, u, { new })] under a given strictness. *)
Definition findByIdAndUpdate_with (strict : bool) (i : ObjectId) (u : Update)
    (new : bool) : StoreOp (option t) :=
  fun s =>
    let l := updateById _id i (applyUpdate strict u) (articles s) in
    (Resolved (lookupId _id i (if new then l else articles s)), set_articles l s).

Definition findByIdAndUpdate : ObjectId -> Update -> bool -> StoreOp (option t) :=
  findByIdAndUpdate_with schema_strict.

Definition findById (i : ObjectId) : StoreOp (option t) :=
  fun s => (Resolved (lookupId _id i (articles s)), s).

(** [findOne({ slug })] and [findOne({ slug, isPublished: true })]. *)
Definition slug_query (sl : string) (published : bool) (a : t) : bool :=
  String.eqb (slug a) sl && (if published then isPublished a else true).

Definition findOne (sl : string) (published : bool) : StoreOp (option t) :=
  fun s => (Resolved (find (slug_query sl published) (articles s)), s).

(** [find({}).select('slug title isPublished').limit(5)] *)
Definition find_limit (n : nat) : StoreOp (list t) :=
  fun s => (Resolved (firstn n (articles s)), s).

Definition incrementLikes (this : t) : Proc t :=
  (updated <- await (findByIdAndUpdate (_id this) (Inc likesCount_path 1) true) ;;
   match updated with
   | Some updated => Return (put likesCount_path (likesCount updated) this)
   | None => Throw TypeError
   end)%proc.

Definition decrementLikes (this : t) : Proc t :=
  (let decrementValue := if (likesCount this >? 0)%Z then (-1)%Z else 0%Z in
   updated <- await (findByIdAndUpdate (_id this) (Inc likesCount_path decrementValue) true) ;;
   match updated with
   | Some updated => Return (put likesCount_path (likesCount updated) this)
   | None => Throw TypeError
   end)%proc.

(** The virtual [readingTime] of a document with this [content]:
    [Math.ceil(wordCount / 200)] minutes. *)
Definition readingTime (content : string) : Z :=
  let wordsPerMinute := 200%Z in
  let wordCount :=
    if String.eqb content "" then 0%Z
    else Z.of_nat (List.length (Js.split " "%char content)) in
  ((wordCount + wordsPerMinute - 1) / wordsPerMinute)%Z.

(** [this.excerpt = v]: the schema's [trim] setter runs on every
    assignment, so a document never holds an excerpt with surrounding
    blanks. *)
Definition set_excerpt (v : string) : string := Js.trim v.

(** What [pre('save')] leaves in [excerpt], given [this.excerpt] and
    [this.content]. *)
Definition pre_save_excerpt (excerpt content : string) : string :=
  if String.eqb excerpt "" && negb (String.eqb content "")
  then set_excerpt (Js.trim (Js.take 150 content) ++ "...")%string
  else excerpt.
End Article.

(** ** The Comment model *)

Module Comment.
Import CommentDoc.

Definition too_long (n : nat) (s : string) : bool := Nat.ltb n (String.length s).

(** The validators of [commentSchema], in the order of its paths; each
    path reports its first failing validator. *)
Definition validate (c : t) : list string :=
  (if String.eqb (author c) ""
   then match userId c with None => ["Path `author` is required."] | Some _ => [] end
   else if too_long 100 (author c)
        then ["El nombre del autor no puede exceder 100 caracteres"] else [])
  ++ (if String.eqb (email c) ""
      then match userId c with None => ["Path `email` is required."] | Some _ => [] end
      else if Js.test Js.emailRegex (email c) then []
           else ["Por favor ingresa un email válido"])
  ++ (if String.eqb (content c) ""
      then ["El contenido del comentario es obligatorio"]
      else if Nat.ltb (String.length (content c)) 10
           then ["El comentario debe tener al menos 10 caracteres"]
           else if too_long 1000 (content c)
                then ["El comentario no puede exceder 1000 caracteres"] else [])
  ++ (if (likesCount c <? 0)%Z
      then ["El contador de likes no puede ser negativo"] else []).

Definition with_likesCount (v : Z) (c : t) : t :=
  mk (_id c) (articleId c) (userId c) (author c) (email c) (content c)
     (parentCommentId c) (isApproved c) v (isEdited c).
Definition with_isApproved (b : bool) (c : t) : t :=
  mk (_id c) (articleId c) (userId c) (author c) (email c) (content c)
     (parentCommentId c) b (likesCount c) (isEdited c).
Definition with_isEdited (b : bool) (c : t) : t :=
  mk (_id c) (articleId c) (userId c) (author c) (email c) (content c)
     (parentCommentId c) (isApproved c) (likesCount c) b.
Definition with_id (i : ObjectId) (c : t) : t :=
  mk i (articleId c) (userId c) (author c) (email c) (content c)
     (parentCommentId c) (isApproved c) (likesCount c) (isEdited c).


(** [save()] of a loaded document sends [$set] for the modified paths
    only: a path keeps what the store holds unless the document in memory
    differs from what was loaded. *)
Definition delta {A} (eqb : A -> A -> bool) (loaded this stored : A) : A :=
  if eqb loaded this then stored else this.

Definition applyDelta (loaded this stored : t) : t :=
  mk (_id stored) (articleId stored) (userId stored)
     (delta String.eqb (author loaded) (author this) (author stored))
     (delta String.eqb (email loaded) (email this) (email stored))
     (delta String.eqb (content loaded) (content this) (content stored))
     (parentCommentId stored)
     (delta Bool.eqb (isApproved loaded) (isApproved this) (isApproved stored))
     (delta Z.eqb (likesCount loaded) (likesCount this) (likesCount stored))
     (delta Bool.eqb (isEdited loaded) (isEdited this) (isEdited stored)).

Definition updateOne (loaded this : t) : StoreOp t :=
  fun s =>
    match lookupId _id (_id this) (comments s) with
    | None => (Rejected DocumentNotFoundError, s)
    | Some _ =>
        (Resolved this,
         set_comments (updateById _id (_id this) (applyDelta loaded this) (comments s)) s)
    end.

Definition insertOne (this : t) : StoreOp t :=
  fun s =>
    let c := with_id (nextId s) this in
    (Resolved c, bump_nextId (set_comments (comments s ++ [c]) s)).

(** The query [{ articleId, isApproved: true }]. *)
Definition approved_of (a : ObjectId) (c : t) : bool :=
  N.eqb (articleId c) a && isApproved c.

Definition countApproved (a : ObjectId) : StoreOp Z :=
  fun s => (Resolved (countDocuments (approved_of a) (comments s)), s).

(** The body shared by [post('save')] and [post('findOneAndDelete')]:
    recount, overwrite, and log whatever goes wrong. *)
Definition recount_with (strict : bool) (doc : t) : Proc unit :=
  try_catch
    (commentCount <- await (countApproved (articleId doc)) ;;
     await (Article.findByIdAndUpdate_with strict (articleId doc)
              (Article.Set_ Article.commentsCount_path commentCount) false) ;;;
     Return tt)%proc
    (fun _ => Return tt).

Definition post_save_with (strict : bool) (doc : t) : Proc unit :=
  recount_with strict doc.

Definition post_findOneAndDelete_with (strict : bool) (doc : option t) : Proc unit :=
  match doc with
  | Some doc => recount_with strict doc
  | None => Return tt
  end.

(** [pre('save')]: a changed content on a document that is not new. *)
Definition pre_save (isNew : bool) (loaded this : t) : t :=
  if negb (String.eqb (content loaded) (content this)) && negb isNew
  then with_isEdited true this
  else this.

(** [this.save()], with the strictness of the Article schema, which the
    post-save hook writes through, left open. *)
Definition save_with (strict : bool) (isNew : bool) (loaded this : t) : Proc t :=
  match validate this with
  | [] =>
      (let this := pre_save isNew loaded this in
       saved <- await (if isNew then insertOne this else updateOne loaded this) ;;
       post_save_with strict saved ;;;
       Return saved)%proc
  | errors => Throw (ValidationError errors)
  end.

Definition save : bool -> t -> t -> Proc t := save_with Article.schema_strict.

Definition incrementLikes (this : t) : Proc t :=
  save false this (with_likesCount (likesCount this + 1) this).

Definition decrementLikes (this : t) : Proc t :=
  save false this
    (if (likesCount this >? 0)%Z then with_likesCount (likesCount this - 1) this
     else this).

Definition approve (this : t) : Proc t :=
  save false this (with_isApproved true this).

Definition disapprove (this : t) : Proc t :=
  save false this (with_isApproved false this).

Definition findById (i : ObjectId) : StoreOp (option t) :=
  fun s => (Resolved (lookupId _id i (comments s)), s).

(** The query [{ _id, articleId, isApproved: true }]. *)
Definition parent_query (i a : ObjectId) (c : t) : bool :=
  N.eqb (_id c) i && N.eqb (articleId c) a && isApproved c.

Definition findOne_parent (i a : ObjectId) : StoreOp (option t) :=
  fun s => (Resolved (find (parent_query i a) (comments s)), s).

(** [findOneAndDelete({ _id })] followed by its post hook. *)
Definition findOneAndDelete_with (strict : bool) (i : ObjectId) : Proc (option t) :=
  (doc <- await (fun s =>
                   (Resolved (lookupId _id i (comments s)),
                    set_comments (deleteFirst (fun c => N.eqb (_id c) i) (comments s)) s)) ;;
   post_findOneAndDelete_with strict doc ;;;
   Return doc)%proc.

Definition findOneAndDelete : ObjectId -> Proc (option t) :=
  findOneAndDelete_with Article.schema_strict.
End Comment.

(** ** The User model *)

Module User.
Import UserDoc.

Definition validate (u : t) : list string :=
  (if String.eqb (name u) "" then ["El nombre es requerido"]
   else if Nat.ltb (String.length (name u)) 2
        then ["El nombre debe tener al menos 2 caracteres"]
        else if Nat.ltb 50 (String.length (name u))
             then ["El nombre no puede exceder 50 caracteres"] else [])
  ++ (if String.eqb (email u) "" then ["El email es requerido"]
      else if Js.test Js.emailRegex (email u) then []
           else ["Por favor ingresa un email válido"])
  ++ (if String.eqb (password u) "" then ["La contraseña es requerida"]
      else if Nat.ltb (String.length (password u)) 6
           then ["La contraseña debe tener al menos 6 caracteres"] else []).

Definition with_lastLogin (d : N) (u : t) : t :=
  mk (_id u) (name u) (email u) (password u) (role u) (isActive u) (Some d).

(** [findOne({ email: email.toLowerCase() })] *)
Definition findByEmail (e : string) : StoreOp (option t) :=
  fun s => (Resolved (find (fun u => String.eqb (email u) (Js.toLowerCase e)) (users s)), s).

Definition findById (i : ObjectId) : StoreOp (option t) :=
  fun s => (Resolved (lookupId _id i (users s)), s).

(** [save()] after [this.lastLogin = new Date()]: the password is not
    modified, so [pre('save')] hashes nothing and [$set] carries
    [lastLogin] alone. *)
Definition updateLastLogin (now : N) (this : t) : Proc t :=
  match validate this with
  | [] =>
      await (fun s =>
               match lookupId _id (_id this) (users s) with
               | None => (Rejected DocumentNotFoundError, s)
               | Some _ =>
                   (Resolved (with_lastLogin now this),
                    set_users (updateById _id (_id this) (with_lastLogin now) (users s)) s)
               end)
  | errors => Throw (ValidationError errors)
  end.

Section Bcrypt.
(** [bcrypt.compare(candidate, hash)] *)
Variable bcrypt_compare : string -> string -> bool.

Definition comparePassword (this : t) (candidatePassword : string) : Proc bool :=
  Return (bcrypt_compare candidatePassword (password this)).
End Bcrypt.

(** [err.path] of the validator error that carries this message. *)
Definition path_of_message (m : string) : string :=
  if existsb (String.eqb m)
       ["El nombre es requerido"; "El nombre debe tener al menos 2 caracteres";
        "El nombre no puede exceder 50 caracteres"]
  then "name"
  else if existsb (String.eqb m)
            ["El email es requerido"; "Por favor ingresa un email válido"]
       then "email"
       else "password".

(** [new User({ name, email, password })]: the schema trims [name],
    lower-cases and trims [email], and fills in the defaults. *)
Definition new_User (name email password : string) : t :=
  mk 0%N (Js.trim name) (Js.trim (Js.toLowerCase email)) password "user" true None.

Definition with_password (p : string) (u : t) : t :=
  mk (_id u) (name u) (email u) p (role u) (isActive u) (lastLogin u).
Definition with_id (i : ObjectId) (u : t) : t :=
  mk i (name u) (email u) (password u) (role u) (isActive u) (lastLogin u).

(** [emailExists(email)] *)
Definition emailExists (e : string) : Proc bool :=
  (user <- await (findByEmail e) ;;
   Return (match user with Some _ => true | None => false end))%proc.

Section Hash.
(** [bcrypt.hash(password, salt)] *)
Variable bcrypt_hash : string -> string -> string.

(** [save()] of a new document, [salt] being what [bcrypt.genSalt(12)]
    draws: the validators run on the password as it was given,
    [pre('save')] replaces it by its hash, and the insert is refused with
    E11000 when the unique index on [email] already holds the address. *)
Definition save_new (salt : string) (this : t) : Proc t :=
  match validate this with
  | [] =>
      await (fun s =>
               let this := with_password (bcrypt_hash (password this) salt) this in
               if existsb (fun u => String.eqb (email u) (email this)) (users s)
               then (Rejected (MongoServerError 11000), s)
               else let u := with_id (nextId s) this in
                    (Resolved u, bump_nextId (set_users (users s ++ [u]) s)))
  | errors => Throw (ValidationError errors)
  end.
End Hash.
End User.

(** ** The authentication middleware *)

Module auth.
Section Jwt.
(** [jwt.verify(token, secret)]: the [userId] of the decoded payload, or
    [None] when it throws. *)
Variable jwt_verify : string -> option ObjectId.

(** [authHeader && authHeader.split(' ')[1]], when it is truthy. *)
Definition bearer_token (authHeader : option string) : option string :=
  match authHeader with
  | Some h =>
      match Js.split " "%char h with
      | _ :: token :: _ => if String.eqb token "" then None else Some token
      | _ => None
      end
  | None => None
  end.

(** [optionalAuth]: what it leaves in [req.user] before it calls [next]. *)
Definition optionalAuth (authHeader : option string) : Proc (option UserDoc.t) :=
  try_catch
    (match bearer_token authHeader with
     | None => Return None
     | Some token =>
         match jwt_verify token with
         | None => Throw (Error "invalid token")
         | Some userId =>
             user <- await (User.findById userId) ;;
             match user with
             | Some u => if UserDoc.isActive u then Return (Some u) else Return None
             | None => Return None
             end
         end
     end)%proc
    (fun _ => Return None).
End Jwt.

(** The names under which [jwt.verify] throws. *)
Inductive JwtError : Type := JsonWebTokenError | TokenExpiredError | OtherError.

Definition unauthorized (message error : string) : Response :=
  mkResponse 401 false (Some message) (Some error) NoData.

Section Verify.
(** [jwt.verify(token, secret)]: the error it throws or the [userId] of the
    decoded payload. *)
Variable verify : string -> JwtError + ObjectId.

(** [authenticateToken]: the response it sends, or the [req.user] it calls
    [next] with.  What [jwt.verify] throws is answered by the [catch] block
    according to [error.name]; a rejected query has neither of the two
    names. *)
Definition authenticateToken (authHeader : option string)
    : Proc (Response + UserDoc.t) :=
  try_catch
    (match bearer_token authHeader with
     | None =>
         Return (inl (unauthorized "Token de acceso requerido"
                        "No se proporcionó token de autenticación"))
     | Some token =>
         match verify token with
         | inl JsonWebTokenError =>
             Return (inl (unauthorized "Token inválido"
                            "El token proporcionado no es válido"))
         | inl TokenExpiredError =>
             Return (inl (unauthorized "Token expirado"
                            "El token ha expirado, por favor inicia sesión nuevamente"))
         | inl OtherError => Throw (Error "verify")
         | inr userId =>
             user <- await (User.findById userId) ;;
             match user with
             | None =>
                 Return (inl (unauthorized "Token inválido" "Usuario no encontrado"))
             | Some u =>
                 if negb (UserDoc.isActive u)
                 then Return (inl (unauthorized "Cuenta desactivada"
                                     "La cuenta del usuario está desactivada"))
                 else Return (inr u)
             end
         end
     end)%proc
    (fun _ =>
       Return (inl (mkResponse 500 false (Some "Error interno del servidor")
                      (Some "Error al verificar la autenticación") NoData))).

(** [verifyToken(token)]: [{ valid: true, user, decoded }], with the
    [userId] for the decoded payload, or [{ valid: false, error }]; the text
    of a thrown error is the library's. *)
Variable error_message : JwtError -> string.

Definition verifyToken (token : string) : Proc (string + UserDoc.t * ObjectId) :=
  match verify token with
  | inl e => Return (inl (error_message e))
  | inr userId =>
      (user <- await (User.findById userId) ;;
       match user with
       | Some u =>
           if UserDoc.isActive u then Return (inr (u, userId))
           else Return (inl "Usuario no encontrado o inactivo")
       | None => Return (inl "Usuario no encontrado o inactivo")
       end)%proc
  end.
End Verify.

Definition authentication_required : Response :=
  unauthorized "Autenticación requerida"
    "Debes estar autenticado para acceder a este recurso".

Definition forbidden (error : string) : Response :=
  mkResponse 403 false (Some "Acceso denegado") (Some error) NoData.

(** [requireRole(...roles)]: [None] is the call of [next]. *)
Definition requireRole (roles : list string) (user : option UserDoc.t)
    : option Response :=
  match user with
  | None => Some authentication_required
  | Some u =>
      if negb (existsb (String.eqb (UserDoc.role u)) roles)
      then Some (forbidden "No tienes permisos para acceder a este recurso")
      else None
  end.

(** [requireOwnership(userIdParam)], given [req.params[userIdParam]] and
    [req.body[userIdParam]]. *)
Definition requireOwnership (param : option string) (body : option Js.Value)
    (user : option UserDoc.t) : option Response :=
  match user with
  | None => Some authentication_required
  | Some u =>
      if String.eqb (UserDoc.role u) "admin" then None
      else
        let resourceUserId :=
          match param with
          | Some p => if String.eqb p "" then body else Some (Js.Str p)
          | None => body
          end in
        let own :=
          match resourceUserId with
          | Some v => Js.strict_eq_str v (Js.objectIdToString (UserDoc._id u))
          | None => false
          end in
        if negb own
        then Some (forbidden "Solo puedes acceder a tus propios recursos")
        else None
  end.

Section Sign.
(** [jwt.sign(payload, secret, options)] over the payload
    [{ userId, email, role }]. *)
Variable jwt_sign : ObjectId * string * string -> string.

Definition generateToken (user : UserDoc.t) : string :=
  jwt_sign (UserDoc._id user, UserDoc.email user, UserDoc.role user).
End Sign.
End auth.

(** ** Controllers *)

Module articleController.
Import ArticleDoc.

Definition getArticleBySlug (dev : bool) (slug : string) (user : option UserDoc.t)
    : Proc Response :=
  try_catch
    (article <- await (Article.findOne slug true) ;;
     match article with
     | None =>
         Return (mkResponse 404 false (Some "Artículo no encontrado") None NoData)
     | Some article =>
         await (Article.findByIdAndUpdate (_id article)
                  (Article.Inc Article.viewsCount_path 1) false) ;;;
         let article := Article.put Article.viewsCount_path (viewsCount article + 1) article in
         userLiked <- match user with
                      | Some u => Like.userLikedArticle (UserDoc._id u) (_id article)
                      | None => Return false
                      end ;;
         Return (mkResponse 200 true None None (ArticleDetail article userLiked))
     end)%proc
    (fun error => Return (internal_error dev error)).

Definition invalid_action : Response :=
  mkResponse 400 false
    (Some ("Acción inválida. Use " ++ Js.dq ++ "increment" ++ Js.dq ++ " o "
             ++ Js.dq ++ "decrement" ++ Js.dq)%string)
    None NoData.

Definition like_message (action : Js.Value) : string :=
  ("Like " ++ (if Js.strict_eq_str action "increment" then "agregado" else "removido")
     ++ " exitosamente")%string.

(** The part of [toggleLike] that resolves the target. *)
Definition resolve (dev : bool) (slug : string) : Proc (Response + t) :=
  (let normalizedSlug := Js.trim slug in
   let isObjectId := Js.test Js.objectIdRegex normalizedSlug in
   found <-
     (if isObjectId
      then
        article <- await (Article.findById (Js.castObjectId normalizedSlug)) ;;
        match article with
        | None =>
            Return (inl (mkResponse 404 false (Some "Artículo no encontrado por ID")
                           None NoData))
        | Some a =>
            if negb (String.eqb (ArticleDoc.slug a) "")
            then Return (inl (mkResponse 400 false
                                (Some "Use el slug del artículo en lugar del ID") None
                                (UseSlug (ArticleDoc.slug a)
                                   ("/api/articles/" ++ ArticleDoc.slug a ++ "/like")%string)))
            else Return (inr (Some a))
        end
      else
        article <- await (Article.findOne normalizedSlug true) ;;
        Return (inr article)) ;;
   match found with
   | inl r => Return (inl r)
   | inr (Some a) => Return (inr a)
   | inr None =>
       articleWithoutFilter <- await (Article.findOne normalizedSlug false) ;;
       match articleWithoutFilter with
       | Some _ =>
           Return (inl (mkResponse 404 false
                          (Some "Artículo no encontrado o no publicado") None NoData))
       | None =>
           (if dev then await (Article.find_limit 5) else Return []) ;;;
           Return (inl (mkResponse 404 false (Some "Artículo no encontrado") None
                          (if dev then NotFoundDebug normalizedSlug slug else NoData)))
       end
   end)%proc.

Definition toggleLike (dev : bool) (slug : string) (body_action : option Js.Value)
    : Proc Response :=
  try_catch
    (let action := match body_action with Some v => v | None => Js.Str "increment" end in
     target <- resolve dev slug ;;
     match target with
     | inl r => Return r
     | inr article =>
         updated <-
           (if Js.strict_eq_str action "increment"
            then
              Article.incrementLikes article ;;;
              updatedArticle <- await (Article.findById (_id article)) ;;
              Return (inr updatedArticle)
            else if Js.strict_eq_str action "decrement"
            then
              Article.decrementLikes article ;;;
              updatedArticle <- await (Article.findById (_id article)) ;;
              Return (inr updatedArticle)
            else Return (inl invalid_action)) ;;
         match updated with
         | inl r => Return r
         | inr None => Throw TypeError
         | inr (Some updatedArticle) =>
             Return (mkResponse 200 true (Some (like_message action)) None
                       (ArticleLike (Js.strict_eq_str action "increment")
                          (likesCount updatedArticle) action))
         end
     end)%proc
    (fun error => Return (internal_error dev error)).
End articleController.

(** ** Routes *)

Module articleRoutes.
Section Jwt.
Variable jwt_verify : string -> option ObjectId.

(** [router.get('/:slug', optionalAuth, getArticleBySlug)] *)
Definition get_slug (dev : bool) (authHeader : option string) (slug : string)
    : Proc Response :=
  (user <- auth.optionalAuth jwt_verify authHeader ;;
   articleController.getArticleBySlug dev slug user)%proc.
End Jwt.
End articleRoutes.

Module commentController.
Import CommentDoc.

(** [new Comment(commentData)]: the schema trims [author] and [content],
    lower-cases and trims [email], and fills in the defaults. *)
Definition new_Comment (articleId : ObjectId) (userId : option ObjectId)
    (author email content : string) (parentCommentId : option ObjectId) : t :=
  mk 0%N articleId userId (Js.trim author) (Js.trim (Js.toLowerCase email))
     (Js.trim content) parentCommentId true 0%Z false.

Definition addComment (dev : bool) (slug : string)
    (content : string) (parentCommentId : option ObjectId)
    (author email : string) (user : option UserDoc.t) : Proc Response :=
  try_catch
    (if String.eqb content ""
     then Return (mkResponse 400 false
                    (Some "El contenido del comentario es obligatorio") None NoData)
     else
       article <- await (Article.findOne slug true) ;;
       match article with
       | None =>
           Return (mkResponse 404 false (Some "Artículo no encontrado") None NoData)
       | Some article =>
           parentFound <-
             match parentCommentId with
             | Some pid =>
                 parentComment <-
                   await (Comment.findOne_parent pid (ArticleDoc._id article)) ;;
                 Return (match parentComment with Some _ => true | None => false end)
             | None => Return true
             end ;;
           if negb parentFound
           then Return (mkResponse 404 false (Some "Comentario padre no encontrado")
                          None NoData)
           else
             let commentData :=
               match user with
               | Some u =>
                   inr (new_Comment (ArticleDoc._id article) (Some (UserDoc._id u))
                          (UserDoc.name u) (UserDoc.email u)
                          (Js.trim content) parentCommentId)
               | None =>
                   if String.eqb author "" || String.eqb email ""
                   then inl (mkResponse 400 false
                               (Some "Para comentarios anónimos, author y email son obligatorios")
                               None NoData)
                   else if negb (Js.test Js.emailRegex email)
                   then inl (mkResponse 400 false (Some "Formato de email inválido")
                               None NoData)
                   else inr (new_Comment (ArticleDoc._id article) None
                               (Js.trim author) (Js.trim (Js.toLowerCase email))
                               (Js.trim content) parentCommentId)
               end in
             match commentData with
             | inl r => Return r
             | inr newComment =>
                 savedComment <- Comment.save true newComment newComment ;;
                 populatedArticle <- await (Article.findById (articleId savedComment)) ;;
                 populatedUser <-
                   match userId savedComment with
                   | Some uid =>
                       await (fun s => (Resolved (lookupId UserDoc._id uid (users s)), s))
                   | None => Return None
                   end ;;
                 Return (mkResponse 201 true (Some "Comentario agregado exitosamente")
                           None (CommentCreated savedComment populatedArticle populatedUser))
             end
       end)%proc
    (fun error =>
       match error with
       | ValidationError errors =>
           Return (mkResponse 400 false (Some "Error de validación") None (Errors errors))
       | _ => Return (internal_error dev error)
       end).

Definition like_message (action : Js.Value) : string :=
  ("Like " ++ (if Js.strict_eq_str action "increment" then "agregado" else "removido")
     ++ " exitosamente")%string.

Definition toggleCommentLike (dev : bool) (commentId : ObjectId)
    (body_action : option Js.Value) : Proc Response :=
  try_catch
    (let action := match body_action with Some v => v | None => Js.Str "increment" end in
     comment <- await (Comment.findById commentId) ;;
     match comment with
     | None =>
         Return (mkResponse 404 false (Some "Comentario no encontrado") None NoData)
     | Some comment =>
         if negb (isApproved comment)
         then Return (mkResponse 403 false
                        (Some "No se puede dar like a un comentario no aprobado")
                        None NoData)
         else
           updated <-
             (if Js.strict_eq_str action "increment"
              then updatedComment <- Comment.incrementLikes comment ;;
                   Return (inr updatedComment)
              else if Js.strict_eq_str action "decrement"
              then updatedComment <- Comment.decrementLikes comment ;;
                   Return (inr updatedComment)
              else Return (inl articleController.invalid_action)) ;;
           match updated with
           | inl r => Return r
           | inr updatedComment =>
               Return (mkResponse 200 true (Some (like_message action)) None
                         (CommentLike (_id updatedComment) (likesCount updatedComment)))
           end
     end)%proc
    (fun error => Return (internal_error dev error)).

Definition invalid_moderation : Response :=
  mkResponse 400 false
    (Some ("Acción inválida. Use " ++ Js.dq ++ "approve" ++ Js.dq ++ " o "
             ++ Js.dq ++ "disapprove" ++ Js.dq)%string)
    None NoData.

Definition moderateComment (dev : bool) (commentId : ObjectId)
    (body_action : option Js.Value) : Proc Response :=
  try_catch
    (comment <- await (Comment.findById commentId) ;;
     match comment with
     | None =>
         Return (mkResponse 404 false (Some "Comentario no encontrado") None NoData)
     | Some comment =>
         updated <-
           match body_action with
           | Some action =>
               if Js.strict_eq_str action "approve"
               then updatedComment <- Comment.approve comment ;;
                    Return (inr (updatedComment, true))
               else if Js.strict_eq_str action "disapprove"
               then updatedComment <- Comment.disapprove comment ;;
                    Return (inr (updatedComment, false))
               else Return (inl invalid_moderation)
           | None => Return (inl invalid_moderation)
           end ;;
         match updated with
         | inl r => Return r
         | inr (updatedComment, approved) =>
             Return (mkResponse 200 true
                       (Some ("Comentario "
                                ++ (if approved then "aprobado" else "desaprobado")
                                ++ " exitosamente")%string)
                       None
                       (CommentModerated (_id updatedComment) (isApproved updatedComment)))
         end
     end)%proc
    (fun error => Return (internal_error dev error)).
End commentController.

Module commentRoutes.
Section Jwt.
Variable jwt_verify : string -> option ObjectId.

(** [router.post('/articles/:slug/comments', optionalAuth, addComment)] *)
Definition post_comment (dev : bool) (authHeader : option string) (slug : string)
    (content : string) (parentCommentId : option ObjectId) (author email : string)
    : Proc Response :=
  (user <- auth.optionalAuth jwt_verify authHeader ;;
   commentController.addComment dev slug content parentCommentId author email user)%proc.
End Jwt.
End commentRoutes.

(** ** Identifiers as the requests carry them

    [commentController] above takes the identifier of a comment as the
    ObjectId that Mongoose has made of it.  On the wire a path parameter is
    a string and a body field any JSON value: the query that receives one
    casts it, and throws a CastError where it cannot.  [uncast] is the same
    three controllers on what the request carries. *)

Module uncast.
Import CommentDoc.

Section Cast.
(** Mongoose's cast of a value to the ObjectId of a document path or of
    [findById]: the identifier, or [None] where it throws a CastError (any
    string that is not an identifier, such as ["abc"]). *)
Variable castObjectId : Js.Value -> option ObjectId.

(** Mongoose's cast of [{ _id: v }] in a query filter: the condition on
    [_id] it selects by (equality with an identifier, or what an object of
    query operators asks for), or [None] where it throws a CastError. *)
Variable castFilter : Js.Value -> option (ObjectId -> bool).

(** [error.message] of the CastError for a value at a path. *)
Variable castErrorMessage : Js.Value -> string -> string.

Definition CastError (v : Js.Value) (path : string) : Err :=
  Error (castErrorMessage v path).

(** The query [{ _id: parentCommentId, articleId, isApproved: true }]. *)
Definition parent_query (q : ObjectId -> bool) (a : ObjectId) (c : t) : bool :=
  q (_id c) && N.eqb (articleId c) a && isApproved c.

Definition addComment (dev : bool) (slug : string)
    (content : string) (parentCommentId : option Js.Value)
    (author email : string) (user : option UserDoc.t) : Proc Response :=
  try_catch
    (if String.eqb content ""
     then Return (mkResponse 400 false
                    (Some "El contenido del comentario es obligatorio") None NoData)
     else
       article <- await (Article.findOne slug true) ;;
       match article with
       | None =>
           Return (mkResponse 404 false (Some "Artículo no encontrado") None NoData)
       | Some article =>
           (* [if (parentCommentId)] *)
           let parent :=
             match parentCommentId with
             | Some v => if Js.truthy v then Some v else None
             | None => None
             end in
           parentFound <-
             match parent with
             | Some v =>
                 match castFilter v with
                 | None => Throw (CastError v "_id")
                 | Some q =>
                     parentComment <-
                       await (fun s =>
                                (Resolved (find (parent_query q (ArticleDoc._id article))
                                             (comments s)), s)) ;;
                     Return (match parentComment with Some _ => true | None => false end)
                 end
             | None => Return true
             end ;;
           if negb parentFound
           then Return (mkResponse 404 false (Some "Comentario padre no encontrado")
                          None NoData)
           else
             (* [commentData], still without [parentCommentId || null] *)
             let commentData :=
               match user with
               | Some u =>
                   inr (commentController.new_Comment (ArticleDoc._id article)
                          (Some (UserDoc._id u)) (UserDoc.name u) (UserDoc.email u)
                          (Js.trim content))
               | None =>
                   if String.eqb author "" || String.eqb email ""
                   then inl (mkResponse 400 false
                               (Some "Para comentarios anónimos, author y email son obligatorios")
                               None NoData)
                   else if negb (Js.test Js.emailRegex email)
                   then inl (mkResponse 400 false (Some "Formato de email inválido")
                               None NoData)
                   else inr (commentController.new_Comment (ArticleDoc._id article) None
                               (Js.trim author) (Js.trim (Js.toLowerCase email))
                               (Js.trim content))
               end in
             match commentData with
             | inl r => Return r
             | inr new_Comment =>
                 (* [new Comment(commentData)] casts [parentCommentId]; a value
                    that does not cast is reported by [save()] with the
                    other validation errors. *)
                 savedComment <-
                   match parent with
                   | None => let newComment := new_Comment None in
                             Comment.save true newComment newComment
                   | Some v =>
                       match castObjectId v with
                       | Some pid => let newComment := new_Comment (Some pid) in
                                     Comment.save true newComment newComment
                       | None =>
                           Throw (ValidationError
                                    (castErrorMessage v "parentCommentId"
                                       :: Comment.validate (new_Comment None)))
                       end
                   end ;;
                 populatedArticle <- await (Article.findById (articleId savedComment)) ;;
                 populatedUser <-
                   match userId savedComment with
                   | Some uid =>
                       await (fun s => (Resolved (lookupId UserDoc._id uid (users s)), s))
                   | None => Return None
                   end ;;
                 Return (mkResponse 201 true (Some "Comentario agregado exitosamente")
                           None (CommentCreated savedComment populatedArticle populatedUser))
             end
       end)%proc
    (fun error =>
       match error with
       | ValidationError errors =>
           Return (mkResponse 400 false (Some "Error de validación") None (Errors errors))
       | _ => Return (internal_error dev error)
       end).

(** [Comment.findById(commentId)] is the first thing the two controllers
    below await: a [commentId] that does not cast is answered by their
    [catch], every other one is handled as above. *)
Definition toggleCommentLike (dev : bool) (commentId : string)
    (body_action : option Js.Value) : Proc Response :=
  match castObjectId (Js.Str commentId) with
  | Some cid => commentController.toggleCommentLike dev cid body_action
  | None => Return (internal_error dev (CastError (Js.Str commentId) "_id"))
  end.

Definition moderateComment (dev : bool) (commentId : string)
    (body_action : option Js.Value) : Proc Response :=
  match castObjectId (Js.Str commentId) with
  | Some cid => commentController.moderateComment dev cid body_action
  | None => Return (internal_error dev (CastError (Js.Str commentId) "_id"))
  end.
End Cast.
End uncast.

Module authController.
Import UserDoc.

Section Login.
(** [bcrypt.compare] and [generateToken] ([jwt.sign] over the user's id,
    email and role). *)
Variable bcrypt_compare : string -> string -> bool.
Variable generateToken : UserDoc.t -> string.

Definition invalid_credentials : Response :=
  mkResponse 401 false (Some "Credenciales inválidas")
    (Some "Email o contraseña incorrectos") NoData.

Definition account_disabled : Response :=
  mkResponse 401 false (Some "Cuenta desactivada")
    (Some "Tu cuenta ha sido desactivada. Contacta al administrador.") NoData.

(** [errors] is what [validationResult(req)] holds; [now] is the clock
    read by [updateLastLogin]. *)
Definition login (errors : list string) (email password : string) (now : N)
    : Proc Response :=
  try_catch
    (match errors with
     | _ :: _ =>
         Return (mkResponse 400 false (Some "Datos de entrada inválidos") None
                   (Errors errors))
     | [] =>
         user <- await (User.findByEmail email) ;;
         match user with
         | None => Return invalid_credentials
         | Some user =>
             if negb (isActive user)
             then Return account_disabled
             else
               isPasswordValid <- User.comparePassword bcrypt_compare user password ;;
               if negb isPasswordValid
               then Return invalid_credentials
               else
                 let token := generateToken user in
                 user <- User.updateLastLogin now user ;;
                 Return (mkResponse 200 true (Some "Login exitoso") None
                           (Auth (_id user) (name user) (UserDoc.email user)
                              (role user) (lastLogin user) token))
         end
     end)%proc
    (fun _ =>
       Return (mkResponse 500 false (Some "Error interno del servidor")
                 (Some "Error al iniciar sesión") NoData)).
End Login.

(** What [register] sends: a reply of the common shape, or the 400
    ["Datos de entrada inválidos"] whose [errors] are the
    [{ field, message }] of a Mongoose validation error. *)
Inductive Reply : Type :=
| Json (r : Response)
| ValidationErrors (errors : list (string * string)).

Definition email_taken : Response :=
  mkResponse 409 false (Some "El email ya está registrado")
    (Some "Ya existe un usuario con este email") NoData.

Section Register.
Variable bcrypt_hash : string -> string -> string.
Variable generateToken : UserDoc.t -> string.

(** [errors] is what [validationResult(req)] holds, [salt] what
    [bcrypt.genSalt] draws, [now] the clock read by [updateLastLogin]. *)
Definition register (errors : list string) (name email password salt : string)
    (now : N) : Proc Reply :=
  try_catch
    (match errors with
     | _ :: _ =>
         Return (Json (mkResponse 400 false (Some "Datos de entrada inválidos") None
                         (Errors errors)))
     | [] =>
         existingUser <- await (User.findByEmail email) ;;
         match existingUser with
         | Some _ => Return (Json email_taken)
         | None =>
             let user :=
               User.new_User (Js.trim name) (Js.trim (Js.toLowerCase email)) password in
             user <- User.save_new bcrypt_hash salt user ;;
             let token := generateToken user in
             user <- User.updateLastLogin now user ;;
             Return (Json (mkResponse 201 true (Some "Usuario registrado exitosamente")
                             None
                             (Auth (_id user) (UserDoc.name user) (UserDoc.email user)
                                (role user) (lastLogin user) token)))
         end
     end)%proc
    (fun error =>
       match error with
       | ValidationError errors =>
           Return (ValidationErrors (map (fun m => (User.path_of_message m, m)) errors))
       | _ =>
           match err_code error with
           | Some 11000%N => Return (Json email_taken)
           | _ =>
               Return (Json (mkResponse 500 false (Some "Error interno del servidor")
                               (Some "Error al registrar usuario") NoData))
           end
       end).
End Register.
End authController.

(** ** Predicates of the specification *)

(** [Like.userLikedArticle] on a store, as a plain function. *)
Definition ledger_has (u a : ObjectId) (s : Store) : bool :=
  existsb (Like.matches u a) (likes s).

Definition like_pair (l : LikeDoc.t) : ObjectId * ObjectId :=
  (LikeDoc.userId l, LikeDoc.articleId l).

(** A Like collection as the store keeps it: no pair twice (the unique
    compound index), no [_id] twice, and every [_id] handed out before
    [nextId]. *)
Record ledger_ok (s : Store) : Prop := mk_ledger_ok {
  pairs_unique : NoDup (map like_pair (likes s));
  like_ids_unique : NoDup (map LikeDoc._id (likes s));
  like_ids_old : forall l, In l (likes s) -> (LikeDoc._id l < nextId s)%N
}.

(** ** Sample data

    One published article, ["test-slug"], with the identifier 1; the user
    with the identifier 7; fresh identifiers start at 100. *)

Definition test_article : ArticleDoc.t :=
  ArticleDoc.mk 1%N "Artículo de prueba" "test-slug" true 0%Z 0%Z None.

Definition ana : UserDoc.t :=
  UserDoc.mk 7%N "Ana" "ana@x.com" "$2b$12$hash-of-secret" "user" true None.

Definition empty_blog : Store := mkStore [test_article] [] [ana] [] 100%N.

(** The same blog after Ana liked the article. *)
Definition liked_blog : Store :=
  mkStore [test_article] [] [ana] [LikeDoc.mk 100%N 7%N 1%N] 101%N.

(** A disabled account. *)
Definition bruno : UserDoc.t :=
  UserDoc.mk 8%N "Bruno" "bruno@x.com" "$2b$12$hash-of-hunter2" "user" false None.

Definition blog_with_accounts : Store :=
  mkStore [test_article] [] [ana; bruno] [] 100%N.

(** Stand-ins for [bcrypt.compare] and [jwt.sign] on the sample data. *)
Definition sample_compare (candidate hash : string) : bool :=
  String.eqb hash ("$2b$12$hash-of-" ++ candidate)%string.
Definition sample_token (u : UserDoc.t) : string :=
  ("token-for-" ++ UserDoc.email u)%string.

Definition articles_ids_unique (s : Store) : Prop :=
  NoDup (map ArticleDoc._id (articles s)).

(** The article a like request on [slug] reaches: what
    [articleController.resolve] hands to the rest of [toggleLike]. *)
Definition target_of (slug : string) (l : list ArticleDoc.t) : option ArticleDoc.t :=
  let normalizedSlug := Js.trim slug in
  if Js.test Js.objectIdRegex normalizedSlug
  then match lookupId ArticleDoc._id (Js.castObjectId normalizedSlug) l with
       | Some a => if String.eqb (ArticleDoc.slug a) "" then Some a else None
       | None => None
       end
  else find (Article.slug_query normalizedSlug true) l.

(** [action] after the destructuring default of the like endpoints. *)
Definition action_of (body_action : option Js.Value) : Js.Value :=
  match body_action with Some v => v | None => Js.Str "increment" end.

Definition add_likes (d : Z) (a : ArticleDoc.t) : ArticleDoc.t :=
  Article.put Article.likesCount_path (ArticleDoc.likesCount a + d) a.

Definition add_views (d : Z) (a : ArticleDoc.t) : ArticleDoc.t :=
  Article.put Article.viewsCount_path (ArticleDoc.viewsCount a + d) a.

(** A blog with one approved and one disapproved comment on the article. *)
Definition approved_comment : CommentDoc.t :=
  CommentDoc.mk 50%N 1%N None "Ana" "ana@x.com" "Un comentario de prueba"
    None true 0%Z false.

Definition hidden_comment : CommentDoc.t :=
  CommentDoc.mk 51%N 1%N None "Bruno" "bruno@x.com" "Otro comentario de prueba"
    None false 0%Z false.

Definition commented_blog : Store :=
  mkStore [test_article] [approved_comment; hidden_comment] [ana; bruno] [] 100%N.

(** ** Sequences of anonymous like requests *)

Inductive LikeRequest : Type :=
| ArticleLikeRequest (slug : string) (body_action : option Js.Value)
| CommentLikeRequest (commentId : ObjectId) (body_action : option Js.Value).

Definition handle (dev : bool) (q : LikeRequest) : Proc Response :=
  match q with
  | ArticleLikeRequest slug b => articleController.toggleLike dev slug b
  | CommentLikeRequest cid b => commentController.toggleCommentLike dev cid b
  end.

(** The store after the requests were served one after the other. *)
Fixpoint serve (dev : bool) (qs : list LikeRequest) (s : Store) : Store :=
  match qs with
  | [] => s
  | q :: r => serve dev r (snd (run (handle dev q) s))
  end.

Definition increment : option Js.Value := Some (Js.Str "increment").
Definition decrement : option Js.Value := Some (Js.Str "decrement").

(** Counters as the schemas want them ([min: 0]), identifiers unique. *)
Record likes_ok (s : Store) : Prop := mk_likes_ok {
  article_ids : articles_ids_unique s;
  article_likes : forall a, In a (articles s) -> (0 <= ArticleDoc.likesCount a)%Z;
  comment_likes : forall c, In c (comments s) -> (0 <= CommentDoc.likesCount c)%Z
}.

(** By how much a like request moves a counter that stands at [n]. *)
Definition like_delta (action : Js.Value) (n : Z) : Z :=
  if Js.strict_eq_str action "increment" then 1%Z
  else if Js.strict_eq_str action "decrement"
       then (if (n >? 0)%Z then (-1)%Z else 0%Z)
       else 0%Z.

(** The success replies of the like endpoints. *)
Definition article_like_ok (action : Js.Value) (n : Z) : Response :=
  mkResponse 200 true (Some (articleController.like_message action)) None
    (ArticleLike (Js.strict_eq_str action "increment") n action).

Definition comment_like_ok (action : Js.Value) (cid : ObjectId) (n : Z) : Response :=
  mkResponse 200 true (Some (commentController.like_message action)) None
    (CommentLike cid n).

Definition is_nil {A} (l : list A) : bool :=
  match l with [] => true | _ => false end.

(** Every schedule of [n] steps. *)
Fixpoint schedules (n : nat) : list (list bool) :=
  match n with
  | O => [[]]
  | S m => map (cons true) (schedules m) ++ map (cons false) (schedules m)
  end.

(** The stored [likesCount] of the sample article and of the sample
    comment. *)
Definition article_likes_in (s : Store) : option Z :=
  option_map ArticleDoc.likesCount (lookupId ArticleDoc._id 1%N (articles s)).
Definition comment_likes_in (s : Store) : option Z :=
  option_map CommentDoc.likesCount (lookupId CommentDoc._id 50%N (comments s)).

(** What the store holds under [commentsCount] for an article, and the
    number of its approved comments. *)
Definition stored_commentsCount (a : ObjectId) (s : Store) : option Z :=
  match lookupId ArticleDoc._id a (articles s) with
  | Some d => ArticleDoc.commentsCount d
  | None => None
  end.
Definition approved_count (a : ObjectId) (s : Store) : Z :=
  countDocuments (Comment.approved_of a) (comments s).

(** The sample blog after one like on the article. *)
Definition once_liked_blog : Store :=
  serve false [ArticleLikeRequest "test-slug" increment] commented_blog.

Definition article_views_in (s : Store) : option Z :=
  option_map ArticleDoc.viewsCount (lookupId ArticleDoc._id 1%N (articles s)).

(** The caller of a request is authenticated when the bearer token of its
    [Authorization] header verifies and names a stored, active user. *)
Definition authenticated (jwt_verify : string -> option ObjectId)
    (authHeader : option string) (s : Store) : option UserDoc.t :=
  match auth.bearer_token authHeader with
  | Some token =>
      match jwt_verify token with
      | Some userId =>
          match lookupId UserDoc._id userId (users s) with
          | Some u => if UserDoc.isActive u then Some u else None
          | None => None
          end
      | None => None
      end
  | None => None
  end.

(** A stand-in for [jwt.verify] on the sample data. *)
Definition sample_verify (token : string) : option ObjectId :=
  if String.eqb token "token-de-ana" then Some 7%N else None.

(** ** Requests in flight together *)

(** Every atomic step that a request can still take keeps [I], whatever
    its earlier steps were answered. *)
Fixpoint keeps (I : Store -> Prop) {R} (p : Proc R) : Prop :=
  match p with
  | Await op k => (forall s, I s -> I (snd (op s))) /\ (forall o, keeps I (k o))
  | _ => True
  end.

(** Whatever the store answers, the request resolves, to a value in [Q]. *)
Fixpoint settles {R} (Q : R -> Prop) (p : Proc R) : Prop :=
  match p with
  | Return r => Q r
  | Throw _ => False
  | Await op k => forall s, settles Q (k (fst (op s)))
  end.

(** The calls on the Like model. *)
Inductive LikeCall : Type :=
| AddLike (u a : ObjectId)
| RemoveLike (u a : ObjectId)
| ToggleLike (u a : ObjectId).

Definition like_call (c : LikeCall) : Proc Like.Result :=
  match c with
  | AddLike u a => Like.addLike u a
  | RemoveLike u a => Like.removeLike u a
  | ToggleLike u a => Like.toggleLike u a
  end.

Definition already_liked : Like.Result :=
  Like.mkResult false "Ya diste like a este artículo" None None None.

(** The number of Likes the store holds for an article. *)
Definition likes_of (a : ObjectId) (s : Store) : Z :=
  countDocuments (fun l => N.eqb (LikeDoc.articleId l) a) (likes s).

(** The requests on comments. *)
Inductive CommentRequest : Type :=
| LikeComment (commentId : ObjectId) (body_action : option Js.Value)
| ModerateComment (commentId : ObjectId) (body_action : option Js.Value)
| AddComment (slug content : string) (parentCommentId : option ObjectId)
    (author email : string) (user : option UserDoc.t).

Definition comment_request (dev : bool) (q : CommentRequest) : Proc Response :=
  match q with
  | LikeComment cid b => commentController.toggleCommentLike dev cid b
  | ModerateComment cid b => commentController.moderateComment dev cid b
  | AddComment slug content pid author email user =>
      commentController.addComment dev slug content pid author email user
  end.

(** No stored comment has a negative [likesCount]. *)
Definition comment_likes_nonneg (s : Store) : Prop :=
  forall c, In c (comments s) -> (0 <= CommentDoc.likesCount c)%Z.

Definition approve : option Js.Value := Some (Js.Str "approve").
Definition disapprove : option Js.Value := Some (Js.Str "disapprove").

(** The success reply of [moderateComment]. *)
Definition moderated_ok (cid : ObjectId) (approved : bool) : Response :=
  mkResponse 200 true
    (Some ("Comentario " ++ (if approved then "aprobado" else "desaprobado")
             ++ " exitosamente")%string)
    None (CommentModerated cid approved).

(** What [moderateComment] understands [action] as. *)
Definition moderation_of (body_action : option Js.Value) : option bool :=
  match body_action with
  | Some v => if Js.strict_eq_str v "approve" then Some true
              else if Js.strict_eq_str v "disapprove" then Some false
              else None
  | None => None
  end.

(** ** Callers *)

(** [jwt.verify] as [optionalAuth] sees it: a payload, or nothing. *)
Definition verified (verify : string -> auth.JwtError + ObjectId) (token : string)
    : option ObjectId :=
  match verify token with inr userId => Some userId | inl _ => None end.

(** A stand-in for [jwt.verify] that names its errors. *)
Definition sample_jwt_verify (token : string) : auth.JwtError + ObjectId :=
  if String.eqb token "token-de-ana" then inr 7%N
  else if String.eqb token "token-vencido" then inl auth.TokenExpiredError
  else inl auth.JsonWebTokenError.

(** ** Accounts *)

(** The address [register] stores for the [email] of a request body. *)
Definition registered_email (email : string) : string :=
  Js.trim (Js.toLowerCase (Js.trim (Js.toLowerCase email))).

Definition has_email (e : string) (s : Store) : bool :=
  existsb (fun u => String.eqb (UserDoc.email u) e) (users s).

(** The user collection as the store keeps it: no address twice (the
    unique index) and every [_id] handed out before [nextId]. *)
Record users_ok (s : Store) : Prop := mk_users_ok {
  user_emails_unique : NoDup (map UserDoc.email (users s));
  user_ids_old : forall u, In u (users s) -> (UserDoc._id u < nextId s)%N
}.

(** A registration was answered 201. *)
Definition registered (o : Outcome authController.Reply) : bool :=
  match o with
  | Resolved (authController.Json r) => Nat.eqb (status r) 201
  | _ => false
  end.

Section Race.
(** The address two registrations compete for. *)
Variable E : string.

(** The request keeps [E] in the store once it is there. *)
Fixpoint holds (p : Proc authController.Reply) : Prop :=
  match p with
  | Await op k =>
      forall s, has_email E s = true ->
                has_email E (snd (op s)) = true /\ holds (k (fst (op s)))
  | _ => True
  end.

(** With [E] in the store the request keeps it there and is not answered
    201. *)
Fixpoint lost (p : Proc authController.Reply) : Prop :=
  match p with
  | Return r => registered (Resolved r) = false
  | Throw _ => True
  | Await op k =>
      forall s, has_email E s = true ->
                has_email E (snd (op s)) = true /\ lost (k (fst (op s)))
  end.

(** The request has not stored [E]: a step it takes with [E] in the store
    loses, and a step it takes without either leaves [E] out or puts it in
    and from then on keeps it. *)
Fixpoint fresh (p : Proc authController.Reply) : Prop :=
  match p with
  | Return r => registered (Resolved r) = false
  | Throw _ => True
  | Await op k =>
      forall s,
        (has_email E s = true ->
         has_email E (snd (op s)) = true /\ lost (k (fst (op s)))) /\
        (has_email E s = false ->
         (has_email E (snd (op s)) = false /\ fresh (k (fst (op s)))) \/
         (has_email E (snd (op s)) = true /\ holds (k (fst (op s)))))
  end.

(** The two requests together: nobody has stored [E], or one of them can
    no longer be answered 201. *)
Definition race_inv (p1 p2 : Proc authController.Reply) (s : Store) : Prop :=
  (has_email E s = false /\ fresh p1 /\ fresh p2) \/
  (has_email E s = true /\ lost p1 /\ holds p2) \/
  (has_email E s = true /\ holds p1 /\ lost p2).
End Race.

(** Stand-ins for [bcrypt.hash] and [jwt.sign] on the sample data. *)
Definition sample_hash (password salt : string) : string :=
  ("$2b$12$hash-of-" ++ password)%string.
Definition sample_sign (payload : ObjectId * string * string) : string :=
  ("token-for-" ++ snd (fst payload))%string.

(** The replies of [register] and [login] that carry a token. *)
Definition auth_reply (status : nat) (message : string) (user : UserDoc.t)
    (token : string) : Response :=
  mkResponse status true (Some message) None
    (Auth (UserDoc._id user) (UserDoc.name user) (UserDoc.email user)
       (UserDoc.role user) (UserDoc.lastLogin user) token).

(** The account that a registration stores, before its first login stamp. *)
Definition new_account (bcrypt_hash : string -> string -> string)
    (name email password salt : string) (i : ObjectId) : UserDoc.t :=
  User.with_id i
    (User.with_password (bcrypt_hash password salt)
       (User.new_User (Js.trim name) (Js.trim (Js.toLowerCase email)) password)).

(** The character occurs in the string. *)
Fixpoint contains (c : ascii) (s : string) : bool :=
  match s with
  | EmptyString => false
  | String d t => Ascii.eqb d c || contains c t
  end.

(** How often the character occurs in the string. *)
Fixpoint count_char (c : ascii) (s : string) : nat :=
  match s with
  | EmptyString => 0
  | String d t => (if Ascii.eqb d c then 1 else 0) + count_char c t
  end.

(** The string ends with the suffix. *)
Fixpoint ends_with (suffix s : string) : bool :=
  String.eqb s suffix ||
  match s with
  | EmptyString => false
  | String _ t => ends_with suffix t
  end.



(** A published article whose slug has the shape of an ObjectId. *)
Definition hex_slug_article : ArticleDoc.t :=
  ArticleDoc.mk 3%N "Hexadecimal" "0123456789abcdef01234567" true 0%Z 0%Z None.

Definition blog_with_hex_slug : Store :=
  mkStore [test_article; hex_slug_article] [] [ana] [] 100%N.

(** Every character of the string is an ASCII character, so that its
    bytes are its UTF-16 code units and its blanks the blanks of
    [String.prototype.trim]. *)
Fixpoint ascii_only (s : string) : bool :=
  match s with
  | EmptyString => true
  | String c t => Nat.ltb (nat_of_ascii c) 128 && ascii_only t
  end.

(** Stand-ins for Mongoose's casts on the sample data: a string of 24
    hexadecimal digits is an identifier, any other value does not cast. *)
Definition sample_castObjectId (v : Js.Value) : option ObjectId :=
  match v with
  | Js.Str s => if Js.test Js.objectIdRegex s then Some (Js.castObjectId s) else None
  | _ => None
  end.


Definition sample_castErrorMessage (v : Js.Value) (path : string) : string :=
  ("Cast to ObjectId failed for value "
     ++ Js.dq ++ (match v with Js.Str s => s | _ => "" end) ++ Js.dq
     ++ " (type string) at path " ++ Js.dq ++ path ++ Js.dq
     ++ " for model " ++ Js.dq ++ "Comment" ++ Js.dq)%string.

(** * Properties *)

Unset Implicit Arguments.

(** ** Running a request alone *)

Lemma run_bind {R S} (p : Proc R) (f : R -> Proc S) (s : Store) :
  run (bind p f) s =
  match run p s with
  | (Resolved r, s') => run (f r) s'
  | (Rejected e, s') => (Rejected e, s')
  end.
Proof.
  revert s. induction p as [r | e | A op k IH]; intros s; simpl; try reflexivity.
  destruct (op s) as [o s']. apply IH.
Qed.

Lemma run_try_catch {R} (p : Proc R) (h : Err -> Proc R) (s : Store) :
  run (try_catch p h) s =
  match run p s with
  | (Resolved r, s') => (Resolved r, s')
  | (Rejected e, s') => run (h e) s'
  end.
Proof.
  revert s. induction p as [r | e | A op k IH]; intros s; simpl; try reflexivity.
  destruct (op s) as [o s']. apply IH.
Qed.

Lemma run_await {A} (op : StoreOp A) (s : Store) : run (await op) s = op s.
Proof.
  unfold await. simpl. destruct (op s) as [[a | e] s']; reflexivity.
Qed.

(** Two replies with different status codes are different. *)
Ltac status_differs :=
  let E := fresh "E" in
  intros E;
  apply (f_equal (fun o => match o with
                           | Resolved r => status r
                           | Rejected _ => 0
                           end)) in E;
  discriminate E.

(** ** Collections *)

Lemma NoDup_snoc {A} (l : list A) (x : A) :
  NoDup l -> ~ In x l -> NoDup (l ++ [x]).
Proof.
  induction l as [| d r IH]; simpl; intros Hnd Hnin.
  - constructor; [tauto | constructor].
  - inversion Hnd as [| ? ? Hd Hr]; subst. constructor.
    + rewrite in_app_iff. simpl. intuition.
    + apply IH; [exact Hr | tauto].
Qed.

Section ListFacts.
Variable D : Type.

Lemma find_existsb (P : D -> bool) (l : list D) :
  existsb P l = match find P l with Some _ => true | None => false end.
Proof.
  induction l as [| d r IH]; simpl; [reflexivity |].
  destruct (P d); simpl; [reflexivity | exact IH].
Qed.

Lemma In_deleteFirst (q : D -> bool) (l : list D) (x : D) :
  In x (deleteFirst q l) -> In x l.
Proof.
  induction l as [| d r IH]; simpl; [tauto |].
  destruct (q d); simpl; intuition.
Qed.

Lemma NoDup_map_deleteFirst {K} (key : D -> K) (q : D -> bool) (l : list D) :
  NoDup (map key l) -> NoDup (map key (deleteFirst q l)).
Proof.
  induction l as [| d r IH]; simpl; intros H; [exact H |].
  inversion H as [| ? ? Hnin Hr]; subst.
  destruct (q d); simpl; [exact Hr |].
  constructor; [| apply IH; exact Hr].
  intros Hin. apply Hnin.
  apply in_map_iff in Hin. destruct Hin as [x [Hx Hin]].
  apply in_map_iff. exists x. split; [exact Hx |].
  eapply In_deleteFirst; eassumption.
Qed.

(** When a key is unique and the query selects by that key, nothing
    matches once the first match is gone. *)
Lemma existsb_deleteFirst_unique {K} (key : D -> K) (k : K) (P : D -> bool)
    (l : list D) :
  (forall d, P d = true <-> key d = k) ->
  NoDup (map key l) ->
  existsb P (deleteFirst P l) = false.
Proof.
  intros HP. induction l as [| d r IH]; simpl; intros Hnd; [reflexivity |].
  inversion Hnd as [| ? ? Hnin Hr]; subst.
  destruct (P d) eqn:E.
  - destruct (existsb P r) eqn:Ex; [| reflexivity].
    exfalso. apply existsb_exists in Ex. destruct Ex as [x [Hin Hx]].
    apply Hnin. apply HP in E. apply HP in Hx. rewrite E, <- Hx.
    apply in_map. exact Hin.
  - simpl. rewrite E. simpl. apply IH. exact Hr.
Qed.
End ListFacts.

Section ById.
Variable D : Type.
Variable id_of : D -> ObjectId.

(** With unique identifiers, deleting by the [_id] of the document a
    query finds deletes the first document the query matches. *)
Lemma deleteFirst_by_id (P : D -> bool) (l : list D) (x : D) :
  NoDup (map id_of l) -> find P l = Some x ->
  deleteFirst (fun d => N.eqb (id_of d) (id_of x)) l = deleteFirst P l.
Proof.
  induction l as [| d r IH]; simpl; intros Hnd Hf; [discriminate |].
  inversion Hnd as [| ? ? Hnin Hr]; subst.
  destruct (P d) eqn:HP.
  - inversion Hf; subst. rewrite N.eqb_refl. reflexivity.
  - destruct (N.eqb (id_of d) (id_of x)) eqn:E.
    + exfalso. apply Hnin. apply N.eqb_eq in E. rewrite E.
      apply in_map. apply find_some in Hf. tauto.
    + f_equal. apply IH; assumption.
Qed.

Lemma lookupId_In (i : ObjectId) (l : list D) (d : D) :
  lookupId id_of i l = Some d -> In d l /\ id_of d = i.
Proof.
  unfold lookupId. intros H. apply find_some in H.
  destruct H as [H1 H2]. apply N.eqb_eq in H2. auto.
Qed.

Lemma lookupId_unique (l : list D) (a : D) :
  NoDup (map id_of l) -> In a l -> lookupId id_of (id_of a) l = Some a.
Proof.
  unfold lookupId.
  induction l as [| d r IH]; simpl; intros Hnd Hin; [tauto |].
  inversion Hnd as [| ? ? Hnin Hr]; subst.
  destruct Hin as [-> | Hin].
  - rewrite N.eqb_refl. reflexivity.
  - destruct (N.eqb (id_of d) (id_of a)) eqn:E.
    + exfalso. apply Hnin. apply N.eqb_eq in E. rewrite E. apply in_map. exact Hin.
    + apply IH; assumption.
Qed.

Lemma updateById_same (i : ObjectId) (f : D -> D) (l : list D) :
  (forall d, f d = d) -> updateById id_of i f l = l.
Proof.
  intros Hf. induction l as [| d r IH]; simpl; [reflexivity |].
  destruct (N.eqb (id_of d) i); [rewrite Hf | rewrite IH]; reflexivity.
Qed.

(** Only the value of the update at the first document with the
    identifier matters. *)
Lemma updateById_at (i : ObjectId) (f g : D -> D) (l : list D) (c : D) :
  lookupId id_of i l = Some c -> f c = g c ->
  updateById id_of i f l = updateById id_of i g l.
Proof.
  unfold lookupId. induction l as [| d r IH]; simpl; intros Hl Hfg; [reflexivity |].
  destruct (N.eqb (id_of d) i).
  - inversion Hl; subst. rewrite Hfg. reflexivity.
  - f_equal. apply IH; assumption.
Qed.

Lemma updateById_missing (i : ObjectId) (f : D -> D) (l : list D) :
  lookupId id_of i l = None -> updateById id_of i f l = l.
Proof.
  unfold lookupId. induction l as [| d r IH]; simpl; intros Hl; [reflexivity |].
  destruct (N.eqb (id_of d) i); [discriminate |].
  f_equal. apply IH. exact Hl.
Qed.

Lemma lookupId_updateById (i : ObjectId) (f : D -> D) (l : list D) :
  (forall d, id_of (f d) = id_of d) ->
  lookupId id_of i (updateById id_of i f l) = option_map f (lookupId id_of i l).
Proof.
  intros Hf. unfold lookupId. induction l as [| d r IH]; simpl; [reflexivity |].
  destruct (N.eqb (id_of d) i) eqn:E; simpl.
  - rewrite Hf, E. reflexivity.
  - rewrite E. exact IH.
Qed.

Lemma map_id_updateById (i : ObjectId) (f : D -> D) (l : list D) :
  (forall d, id_of (f d) = id_of d) ->
  map id_of (updateById id_of i f l) = map id_of l.
Proof.
  intros Hf. induction l as [| d r IH]; simpl; [reflexivity |].
  destruct (N.eqb (id_of d) i); simpl; [rewrite Hf | rewrite IH]; reflexivity.
Qed.

Lemma updateById_compose (i : ObjectId) (f g : D -> D) (l : list D) :
  (forall d, id_of (f d) = id_of d) ->
  updateById id_of i g (updateById id_of i f l) =
  updateById id_of i (fun d => g (f d)) l.
Proof.
  intros Hf. induction l as [| d r IH]; simpl; [reflexivity |].
  destruct (N.eqb (id_of d) i) eqn:E; simpl.
  - rewrite Hf, E. reflexivity.
  - rewrite E, IH. reflexivity.
Qed.

(** A query on fields the update leaves alone finds the same document,
    updated if it is the one with the identifier. *)
Lemma find_updateById (P : D -> bool) (i : ObjectId) (f : D -> D) (l : list D) :
  NoDup (map id_of l) ->
  (forall d, P (f d) = P d) ->
  find P (updateById id_of i f l) =
  option_map (fun d => if N.eqb (id_of d) i then f d else d) (find P l).
Proof.
  intros Hnd HP. induction l as [| d r IH]; simpl; [reflexivity |].
  inversion Hnd as [| ? ? Hnin Hr]; subst.
  destruct (N.eqb (id_of d) i) eqn:E; simpl.
  - rewrite HP. destruct (P d); simpl; [rewrite E; reflexivity |].
    destruct (find P r) as [x |] eqn:Hf; simpl; [| reflexivity].
    destruct (N.eqb (id_of x) i) eqn:E'; [| reflexivity].
    exfalso. apply Hnin. apply N.eqb_eq in E, E'. rewrite E, <- E'.
    apply in_map. apply find_some in Hf. tauto.
  - destruct (P d); simpl; [rewrite E; reflexivity |]. apply IH. exact Hr.
Qed.
End ById.


(** ** The Like ledger *)

Lemma matches_pair (u a : ObjectId) (l : LikeDoc.t) :
  Like.matches u a l = true <-> like_pair l = (u, a).
Proof.
  unfold Like.matches, like_pair. rewrite andb_true_iff, !N.eqb_eq.
  split; [intros [-> ->]; reflexivity | intros H; inversion H; auto].
Qed.

Lemma userLikedArticle_run (u a : ObjectId) (s : Store) :
  run (Like.userLikedArticle u a) s = (Resolved (ledger_has u a s), s).
Proof.
  unfold Like.userLikedArticle, ledger_has. simpl.
  rewrite find_existsb. destruct (find _ _); reflexivity.
Qed.

(** What one toggle does to a well-formed ledger. *)
Lemma toggleLike_run (u a : ObjectId) (s : Store) :
  ledger_ok s ->
  exists r s',
    run (Like.toggleLike u a) s = (Resolved r, s') /\
    Like.success r = true /\
    Like.liked r = Some (negb (ledger_has u a s)) /\
    likes s' = (if ledger_has u a s
                then deleteFirst (Like.matches u a) (likes s)
                else likes s ++ [LikeDoc.mk (nextId s) u a]) /\
    ledger_has u a s' = negb (ledger_has u a s) /\
    ledger_ok s'.
Proof.
  intros [Hp Hi Ho]. unfold Like.toggleLike, ledger_has.
  rewrite find_existsb. simpl.
  destruct (find (Like.matches u a) (likes s)) as [l |] eqn:Hf; simpl.
  - rewrite (deleteFirst_by_id _ LikeDoc._id _ _ _ Hi Hf).
    eexists. eexists. split; [reflexivity |]. simpl.
    repeat split.
    + apply (existsb_deleteFirst_unique _ like_pair (u, a));
      [apply matches_pair | exact Hp].
    + simpl. apply NoDup_map_deleteFirst; exact Hp.
    + simpl. apply NoDup_map_deleteFirst; exact Hi.
    + simpl. intros x Hx. apply Ho. eapply In_deleteFirst; eassumption.
  - unfold Like.create. rewrite find_existsb, Hf. simpl.
    eexists. eexists. split; [reflexivity |]. simpl.
    repeat split.
    + rewrite existsb_app. simpl. unfold Like.matches at 2. simpl.
      rewrite !N.eqb_refl. simpl. apply orb_true_r.
    + simpl. rewrite map_app. simpl. apply NoDup_snoc; [exact Hp |].
      intros Hin. apply in_map_iff in Hin. destruct Hin as [x [Hk Hx]].
      change (like_pair x = (u, a)) in Hk. apply matches_pair in Hk.
      pose proof (find_none _ _ Hf x Hx) as Hn. congruence.
    + simpl. rewrite map_app. simpl. apply NoDup_snoc; [exact Hi |].
      intros Hin. apply in_map_iff in Hin. destruct Hin as [x [Hk Hx]].
      simpl in Hk. apply Ho in Hx. lia.
    + simpl. intros x Hx. apply in_app_iff in Hx. destruct Hx as [Hx | [<- | []]].
      * apply Ho in Hx. lia.
      * simpl. lia.
Qed.

Lemma ledger_ok_liked_blog : ledger_ok liked_blog.
Proof.
  constructor; simpl.
  - repeat constructor. simpl. tauto.
  - repeat constructor. simpl. tauto.
  - intros l [<- | []]. simpl. lia.
Qed.

(** C4. Identity-bound toggle.  On a ledger that holds no pair and no
    identifier twice, [Like.toggleLike] resolves; when a Like of the user
    for the article exists it deletes that row and reports [liked: false],
    otherwise it appends one row for the pair and reports [liked: true].  A
    second toggle right after the first brings back the original liked
    state, and after either toggle the ledger still holds no pair twice. *)
Theorem identity_toggle_is_xor (u a : ObjectId) (s : Store) :
  ledger_ok s ->
  exists r1 s1 r2 s2,
    run (Like.toggleLike u a) s = (Resolved r1, s1) /\
    run (Like.toggleLike u a) s1 = (Resolved r2, s2) /\
    Like.liked r1 = Some (negb (ledger_has u a s)) /\
    likes s1 = (if ledger_has u a s
                then deleteFirst (Like.matches u a) (likes s)
                else likes s ++ [LikeDoc.mk (nextId s) u a]) /\
    ledger_has u a s1 = negb (ledger_has u a s) /\
    Like.liked r2 = Some (ledger_has u a s) /\
    ledger_has u a s2 = ledger_has u a s /\
    NoDup (map like_pair (likes s1)) /\
    NoDup (map like_pair (likes s2)).
Proof.
  intros Hok.
  destruct (toggleLike_run u a s Hok) as (r1 & s1 & E1 & _ & L1 & K1 & H1 & Ok1).
  destruct (toggleLike_run u a s1 Ok1) as (r2 & s2 & E2 & _ & L2 & _ & H2 & Ok2).
  exists r1, s1, r2, s2.
  rewrite H1, negb_involutive in L2, H2.
  repeat split; try assumption.
  - apply (pairs_unique Ok1).
  - apply (pairs_unique Ok2).
Qed.

Lemma identity_toggle_is_xor_witness :
  ledger_ok liked_blog /\
  exists r1 s1 r2 s2,
    run (Like.toggleLike 7 1) liked_blog = (Resolved r1, s1) /\
    run (Like.toggleLike 7 1) s1 = (Resolved r2, s2) /\
    Like.liked r1 = Some (negb (ledger_has 7 1 liked_blog)) /\
    likes s1 = (if ledger_has 7 1 liked_blog
                then deleteFirst (Like.matches 7 1) (likes liked_blog)
                else likes liked_blog ++ [LikeDoc.mk (nextId liked_blog) 7 1]) /\
    ledger_has 7 1 s1 = negb (ledger_has 7 1 liked_blog) /\
    Like.liked r2 = Some (ledger_has 7 1 liked_blog) /\
    ledger_has 7 1 s2 = ledger_has 7 1 liked_blog /\
    NoDup (map like_pair (likes s1)) /\
    NoDup (map like_pair (likes s2)).
Proof.
  split; [exact ledger_ok_liked_blog |].
  apply (identity_toggle_is_xor 7 1 liked_blog). exact ledger_ok_liked_blog.
Defined.

(** ** Duplicate key on creating a Like *)

(** A request that saw no Like for the pair, and creates one after another
    request has inserted it, gets the duplicate-key error from the store.
    [Like.addLike] turns it into its own "already liked" result. *)
Lemma addLike_absorbs_duplicate_key (u a : ObjectId) (s s' : Store) :
  ledger_has u a s = false ->
  ledger_has u a s' = true ->
  run (fst (step (Like.addLike u a) s)) s' =
  (Resolved (Like.mkResult false "Ya diste like a este artículo" None None None), s').
Proof.
  unfold ledger_has. intros H H'. rewrite find_existsb in H.
  unfold Like.addLike. simpl.
  destruct (find (Like.matches u a) (likes s)); [discriminate |].
  simpl. unfold Like.create. rewrite H'. reflexivity.
Qed.

(** [Like.toggleLike] has no handler: the same race rejects its promise. *)
Lemma toggleLike_rethrows_duplicate_key (u a : ObjectId) (s s' : Store) :
  ledger_has u a s = false ->
  ledger_has u a s' = true ->
  run (fst (step (Like.toggleLike u a) s)) s' = (Rejected (MongoServerError 11000), s').
Proof.
  unfold ledger_has. intros H H'. rewrite find_existsb in H.
  unfold Like.toggleLike. simpl.
  destruct (find (Like.matches u a) (likes s)); [discriminate |].
  simpl. unfold Like.create. rewrite H'. reflexivity.
Qed.

(** C5. Two toggles of the same user on the same article, both past the
    existence check before either creates the row: the first one reports
    [liked: true], the second one is rejected with the duplicate-key error
    11000 of the store, which [Like.toggleLike] does not catch.  The same
    race through [Like.addLike] resolves to its "already liked" result. *)
Theorem toggle_duplicate_key_reaches_caller :
  (exists r1 s',
      interleave [true; false; true; false]
        (Like.toggleLike 7 1) (Like.toggleLike 7 1) empty_blog
      = (Resolved r1, Rejected (MongoServerError 11000), s') /\
      Like.liked r1 = Some true /\
      likes s' = [LikeDoc.mk 100 7 1]) /\
  (exists r1 s',
      interleave [true; false; true; false]
        (Like.addLike 7 1) (Like.addLike 7 1) empty_blog
      = (Resolved r1,
         Resolved (Like.mkResult false "Ya diste like a este artículo" None None None),
         s') /\
      Like.success r1 = true /\
      likes s' = [LikeDoc.mk 100 7 1]).
Proof.
  split; eexists; eexists; (split; [vm_compute; reflexivity | split; reflexivity]).
Qed.

(** ** Login *)

Section LoginProperties.
Variable bcrypt_compare : string -> string -> bool.
Variable generateToken : UserDoc.t -> string.

Let login := authController.login bcrypt_compare generateToken.

End LoginProperties.


(** ** Store bookkeeping *)

Arguments lookupId : simpl never.
Arguments updateById : simpl never.
Arguments Article.applyUpdate : simpl never.

Lemma set_articles_same (s : Store) : set_articles (articles s) s = s.
Proof. destruct s; reflexivity. Qed.

Lemma set_comments_same (s : Store) : set_comments (comments s) s = s.
Proof. destruct s; reflexivity. Qed.

Lemma applyUpdate_inc_likes (d : Z) (a : ArticleDoc.t) :
  Article.applyUpdate Article.schema_strict (Article.Inc Article.likesCount_path d) a
  = add_likes d a.
Proof. reflexivity. Qed.

Lemma applyUpdate_inc_views (d : Z) (a : ArticleDoc.t) :
  Article.applyUpdate Article.schema_strict (Article.Inc Article.viewsCount_path d) a
  = add_views d a.
Proof. reflexivity. Qed.

(** Under the strict schema the [$set] of [commentsCount] changes nothing. *)
Lemma applyUpdate_set_commentsCount (v : Z) (a : ArticleDoc.t) :
  Article.applyUpdate Article.schema_strict (Article.Set_ Article.commentsCount_path v) a
  = a.
Proof. reflexivity. Qed.

Lemma add_likes_id (d : Z) (a : ArticleDoc.t) :
  ArticleDoc._id (add_likes d a) = ArticleDoc._id a.
Proof. reflexivity. Qed.

Lemma add_likes_zero (a : ArticleDoc.t) : add_likes 0 a = a.
Proof. destruct a. unfold add_likes. simpl. rewrite Z.add_0_r. reflexivity. Qed.

Lemma add_likes_add (d e : Z) (a : ArticleDoc.t) :
  add_likes e (add_likes d a) = add_likes (d + e) a.
Proof. destruct a. unfold add_likes. simpl. rewrite Z.add_assoc. reflexivity. Qed.

(** ** Resolving the target of an article like *)

Lemma target_of_In (slug : string) (l : list ArticleDoc.t) (a : ArticleDoc.t) :
  target_of slug l = Some a -> In a l.
Proof.
  unfold target_of. destruct (Js.test Js.objectIdRegex (Js.trim slug)).
  - destruct (lookupId _ _ l) as [x |] eqn:E; [| discriminate].
    destruct (String.eqb (ArticleDoc.slug x) ""); [| discriminate].
    intros H; inversion H; subst. apply lookupId_In in E. tauto.
  - intros H. apply find_some in H. tauto.
Qed.

Lemma resolve_run (dev : bool) (slug : string) (s : Store) :
  exists x,
    run (articleController.resolve dev slug) s = (Resolved x, s) /\
    match target_of slug (articles s) with
    | Some a => x = inr a
    | None => exists r, x = inl r /\ success r = false /\ status r <> 200
                        /\ r <> articleController.invalid_action
    end.
Proof.
  assert (Hne : forall m d, mkResponse 404 false m None d <> articleController.invalid_action)
    by (intros m d H; apply (f_equal status) in H; discriminate).
  unfold articleController.resolve, target_of.
  destruct (Js.test Js.objectIdRegex (Js.trim slug)); simpl.
  - destruct (lookupId ArticleDoc._id _ (articles s)) as [a |]; simpl.
    + destruct (String.eqb (ArticleDoc.slug a) ""); simpl.
      * eexists; split; reflexivity.
      * eexists; split; [reflexivity |]. eexists.
        split; [reflexivity |]. split; [reflexivity |]. split; [discriminate |].
        intros H. apply (f_equal data) in H. discriminate.
    + eexists; split; [reflexivity |]. eexists.
      split; [reflexivity |]. split; [reflexivity |]. split; [discriminate | apply Hne].
  - destruct (find (Article.slug_query (Js.trim slug) true) (articles s)); simpl.
    + eexists; split; reflexivity.
    + destruct (find (Article.slug_query (Js.trim slug) false) (articles s)); simpl.
      * eexists; split; [reflexivity |]. eexists.
        split; [reflexivity |]. split; [reflexivity |]. split; [discriminate | apply Hne].
      * destruct dev; simpl;
          (eexists; split; [reflexivity |]; eexists;
           split; [reflexivity |]; split; [reflexivity |]; split; [discriminate | apply Hne]).
Qed.

Lemma resolve_target (dev : bool) (slug : string) (s s' : Store) (a : ArticleDoc.t) :
  run (articleController.resolve dev slug) s = (Resolved (inr a), s') ->
  target_of slug (articles s) = Some a.
Proof.
  intros H. destruct (resolve_run dev slug s) as [x [E T]].
  rewrite E in H. injection H as Hx _. subst x.
  destruct (target_of slug (articles s)).
  - inversion T; reflexivity.
  - destruct T as [r [T _]]. discriminate.
Qed.

(** A like changes no field that resolving looks at. *)
Lemma target_of_add_likes (slug : string) (l : list ArticleDoc.t) (i : ObjectId) (d : Z) :
  NoDup (map ArticleDoc._id l) ->
  target_of slug (updateById ArticleDoc._id i (add_likes d) l) =
  option_map (fun a => if N.eqb (ArticleDoc._id a) i then add_likes d a else a)
    (target_of slug l).
Proof.
  intros Hnd. unfold target_of.
  destruct (Js.test Js.objectIdRegex (Js.trim slug)).
  - unfold lookupId. rewrite find_updateById by (auto; intros; reflexivity).
    fold (lookupId ArticleDoc._id (Js.castObjectId (Js.trim slug)) l).
    destruct (lookupId _ _ l) as [a |]; simpl; [| reflexivity].
    destruct (N.eqb (ArticleDoc._id a) i) eqn:E; simpl;
      destruct (String.eqb (ArticleDoc.slug a) ""); simpl; rewrite ?E; reflexivity.
  - apply find_updateById; [exact Hnd |]. intros; reflexivity.
Qed.

(** ** What the anonymous like endpoints do *)


Lemma article_toggleLike_run (dev : bool) (slug : string)
    (body_action : option Js.Value) (s : Store) :
  articles_ids_unique s ->
  let action := action_of body_action in
  match target_of slug (articles s) with
  | None =>
      exists r, run (articleController.toggleLike dev slug body_action) s = (Resolved r, s)
                /\ success r = false /\ status r <> 200
                /\ r <> articleController.invalid_action
  | Some a =>
      let n := ArticleDoc.likesCount a in
      if Js.strict_eq_str action "increment"
      then run (articleController.toggleLike dev slug body_action) s =
           (Resolved (article_like_ok action (n + 1)),
            set_articles (updateById ArticleDoc._id (ArticleDoc._id a) (add_likes 1)
                            (articles s)) s)
      else if Js.strict_eq_str action "decrement"
      then let d := if (n >? 0)%Z then (-1)%Z else 0%Z in
           run (articleController.toggleLike dev slug body_action) s =
           (Resolved (article_like_ok action (n + d)),
            set_articles (updateById ArticleDoc._id (ArticleDoc._id a) (add_likes d)
                            (articles s)) s)
      else run (articleController.toggleLike dev slug body_action) s =
           (Resolved articleController.invalid_action, s)
  end.
Proof.
  intros Hnd action.
  unfold articleController.toggleLike. fold (action_of body_action). fold action.
  rewrite run_try_catch, run_bind.
  destruct (resolve_run dev slug s) as [x [E T]]. rewrite E.
  destruct (target_of slug (articles s)) as [a |] eqn:Ht.
  - subst x. cbv zeta.
    pose proof (target_of_In _ _ _ Ht) as Hin.
    pose proof (lookupId_unique _ ArticleDoc._id _ _ Hnd Hin) as Hl.
    assert (Hup : forall d,
               lookupId ArticleDoc._id (ArticleDoc._id a)
                 (updateById ArticleDoc._id (ArticleDoc._id a) (add_likes d) (articles s))
               = Some (add_likes d a)).
    { intros d. rewrite lookupId_updateById by (intros; reflexivity).
      rewrite Hl. reflexivity. }
    destruct (Js.strict_eq_str action "increment") eqn:Ei.
    + simpl. unfold Article.findByIdAndUpdate, Article.findByIdAndUpdate_with. simpl.
      change (Article.applyUpdate Article.schema_strict
                (Article.Inc Article.likesCount_path 1)) with (add_likes 1).
      rewrite Hup. simpl. unfold Article.findById. simpl. rewrite Hup. simpl.
      unfold article_like_ok. rewrite Ei. reflexivity.
    + destruct (Js.strict_eq_str action "decrement") eqn:Ed.
      * simpl. unfold Article.findByIdAndUpdate, Article.findByIdAndUpdate_with. simpl.
        set (d := if (ArticleDoc.likesCount a >? 0)%Z then (-1)%Z else 0%Z).
        change (Article.applyUpdate Article.schema_strict
                  (Article.Inc Article.likesCount_path d)) with (add_likes d).
        rewrite Hup. simpl. unfold Article.findById. simpl. rewrite Hup. simpl.
        unfold article_like_ok. rewrite Ei. reflexivity.
      * simpl. reflexivity.
  - destruct T as [r [-> [Hs [Hst Hne]]]]. simpl. exists r. auto.
Qed.

(** ** The recount hook under the strict schema *)

Lemma recount_strict_run (doc : CommentDoc.t) (s : Store) :
  run (Comment.recount_with Article.schema_strict doc) s = (Resolved tt, s).
Proof.
  unfold Comment.recount_with, Article.findByIdAndUpdate_with. simpl.
  rewrite updateById_same by (intros; reflexivity).
  rewrite set_articles_same. reflexivity.
Qed.

(** ** Likes on comments *)

Lemma validate_with_likesCount (v : Z) (c : CommentDoc.t) :
  (0 <= v)%Z -> (0 <= CommentDoc.likesCount c)%Z ->
  Comment.validate (Comment.with_likesCount v c) = Comment.validate c.
Proof.
  intros Hv Hc. unfold Comment.validate. simpl.
  replace (v <? 0)%Z with false by (symmetry; apply Z.ltb_ge; exact Hv).
  replace (CommentDoc.likesCount c <? 0)%Z with false
    by (symmetry; apply Z.ltb_ge; exact Hc).
  reflexivity.
Qed.

Lemma with_likesCount_self (c : CommentDoc.t) :
  Comment.with_likesCount (CommentDoc.likesCount c) c = c.
Proof. destruct c; reflexivity. Qed.

Lemma with_likesCount_twice (v w : Z) (c : CommentDoc.t) :
  Comment.with_likesCount w (Comment.with_likesCount v c) = Comment.with_likesCount w c.
Proof. reflexivity. Qed.

Lemma applyDelta_with_likesCount (v : Z) (c : CommentDoc.t) :
  Comment.applyDelta c (Comment.with_likesCount v c) c = Comment.with_likesCount v c.
Proof.
  destruct c as [i a u au em co p ap n ed].
  unfold Comment.applyDelta, Comment.with_likesCount, Comment.delta. simpl.
  rewrite !String.eqb_refl, !Bool.eqb_reflx.
  destruct (Z.eqb n v) eqn:E; [apply Z.eqb_eq in E; subst |]; reflexivity.
Qed.

Lemma pre_save_with_likesCount (v : Z) (c : CommentDoc.t) :
  Comment.pre_save false c (Comment.with_likesCount v c) = Comment.with_likesCount v c.
Proof.
  unfold Comment.pre_save. simpl. rewrite String.eqb_refl. reflexivity.
Qed.

(** Saving a loaded comment whose [likesCount] alone was reassigned. *)
Lemma save_likesCount_run (cid : ObjectId) (c : CommentDoc.t) (v : Z) (s : Store) :
  lookupId CommentDoc._id cid (comments s) = Some c ->
  (0 <= v)%Z -> (0 <= CommentDoc.likesCount c)%Z ->
  run (Comment.save false c (Comment.with_likesCount v c)) s =
  match Comment.validate c with
  | [] => (Resolved (Comment.with_likesCount v c),
           set_comments (updateById CommentDoc._id cid (Comment.with_likesCount v)
                           (comments s)) s)
  | e :: es => (Rejected (ValidationError (e :: es)), s)
  end.
Proof.
  intros Hl Hv Hc. unfold Comment.save, Comment.save_with.
  rewrite validate_with_likesCount by assumption.
  destruct (Comment.validate c) as [| e es]; [| reflexivity].
  rewrite pre_save_with_likesCount.
  pose proof (lookupId_In _ _ _ _ _ Hl) as [_ Hid].
  rewrite run_bind, run_await. unfold Comment.updateOne. cbv beta.
  change (CommentDoc._id (Comment.with_likesCount v c)) with (CommentDoc._id c).
  rewrite Hid, Hl. cbv beta iota. unfold Comment.post_save_with.
  rewrite run_bind, recount_strict_run. simpl.
  f_equal. f_equal. apply updateById_at with (c := c); [exact Hl |].
  apply applyDelta_with_likesCount.
Qed.


Lemma comment_toggleLike_run (dev : bool) (cid : ObjectId)
    (body_action : option Js.Value) (s : Store) :
  (forall c, lookupId CommentDoc._id cid (comments s) = Some c ->
             (0 <= CommentDoc.likesCount c)%Z) ->
  let action := action_of body_action in
  let toggle := commentController.toggleCommentLike dev cid body_action in
  match lookupId CommentDoc._id cid (comments s) with
  | None => exists r, run toggle s = (Resolved r, s) /\ status r = 404
  | Some c =>
      let n := CommentDoc.likesCount c in
      if negb (CommentDoc.isApproved c)
      then exists r, run toggle s = (Resolved r, s) /\ status r = 403
      else if Js.strict_eq_str action "increment" || Js.strict_eq_str action "decrement"
      then
        let n' := if Js.strict_eq_str action "increment" then (n + 1)%Z
                  else if (n >? 0)%Z then (n - 1)%Z else n in
        match Comment.validate c with
        | [] => run toggle s =
                (Resolved (comment_like_ok action cid n'),
                 set_comments (updateById CommentDoc._id cid (Comment.with_likesCount n')
                                 (comments s)) s)
        | e :: es => run toggle s =
                     (Resolved (internal_error dev (ValidationError (e :: es))), s)
        end
      else run toggle s = (Resolved articleController.invalid_action, s)
  end.
Proof.
  intros Hnn action toggle. unfold toggle, commentController.toggleCommentLike.
  fold (action_of body_action). fold action.
  rewrite run_try_catch, run_bind, run_await. unfold Comment.findById. simpl.
  destruct (lookupId CommentDoc._id cid (comments s)) as [c |] eqn:Hl.
  - pose proof (lookupId_In _ _ _ _ _ Hl) as [Hin Hid].
    pose proof (Hnn c eq_refl) as Hc.
    destruct (CommentDoc.isApproved c); simpl.
    + destruct (Js.strict_eq_str action "increment") eqn:Ei; simpl.
      * rewrite !run_bind. unfold Comment.incrementLikes.
        rewrite (save_likesCount_run cid c _ s Hl) by lia.
        destruct (Comment.validate c); simpl; [| reflexivity].
        unfold comment_like_ok. rewrite Hid. reflexivity.
      * destruct (Js.strict_eq_str action "decrement") eqn:Ed; simpl; [| reflexivity].
        rewrite !run_bind. unfold Comment.decrementLikes.
        destruct (CommentDoc.likesCount c >? 0)%Z eqn:Eg.
        -- rewrite (save_likesCount_run cid c _ s Hl) by lia.
           destruct (Comment.validate c); simpl; [| reflexivity].
           unfold comment_like_ok. rewrite Hid. reflexivity.
        -- replace (Comment.save false c c)
             with (Comment.save false c
                     (Comment.with_likesCount (CommentDoc.likesCount c) c))
             by (rewrite with_likesCount_self; reflexivity).
           rewrite (save_likesCount_run cid c _ s Hl) by lia.
           destruct (Comment.validate c); simpl; [| reflexivity].
           unfold comment_like_ok. rewrite Hid. reflexivity.
    + eexists; split; reflexivity.
  - eexists; split; reflexivity.
Qed.

Lemma validate_nil_likesCount (c : CommentDoc.t) :
  Comment.validate c = [] -> (0 <= CommentDoc.likesCount c)%Z.
Proof.
  unfold Comment.validate. intros H.
  apply app_eq_nil in H. destruct H as [_ H].
  apply app_eq_nil in H. destruct H as [_ H].
  apply app_eq_nil in H. destruct H as [_ H].
  destruct (CommentDoc.likesCount c <? 0)%Z eqn:E; [discriminate |].
  apply Z.ltb_ge. exact E.
Qed.

(** ** Invalid and missing actions *)

(** C6. A like request that supplies an [action] other than the strings
    ["increment"] and ["decrement"] is never served: whatever the target,
    the reply has [success: false] and the store, so every [likesCount], is
    left as it was.  When the endpoint reaches its target (an article that
    [toggleLike] resolves from the slug; a comment that exists and is
    approved) the reply is the invalid-action reply, with status 400. *)
Theorem invalid_action_is_rejected (dev : bool) (s : Store) (v : Js.Value) :
  Js.strict_eq_str v "increment" = false ->
  Js.strict_eq_str v "decrement" = false ->
  (forall slug,
      exists r,
        run (articleController.toggleLike dev slug (Some v)) s = (Resolved r, s) /\
        success r = false /\ status r <> 200) /\
  (forall cid,
      exists r,
        run (commentController.toggleCommentLike dev cid (Some v)) s = (Resolved r, s) /\
        success r = false /\ status r <> 200) /\
  (forall slug a,
      run (articleController.resolve dev slug) s = (Resolved (inr a), s) ->
      run (articleController.toggleLike dev slug (Some v)) s =
      (Resolved articleController.invalid_action, s)) /\
  (forall cid c,
      lookupId CommentDoc._id cid (comments s) = Some c ->
      CommentDoc.isApproved c = true ->
      run (commentController.toggleCommentLike dev cid (Some v)) s =
      (Resolved articleController.invalid_action, s)) /\
  status articleController.invalid_action = 400 /\
  success articleController.invalid_action = false.
Proof.
  intros Hi Hd.
  assert (HA : forall slug a,
             run (articleController.resolve dev slug) s = (Resolved (inr a), s) ->
             run (articleController.toggleLike dev slug (Some v)) s =
             (Resolved articleController.invalid_action, s)).
  { intros slug a Hr. unfold articleController.toggleLike.
    rewrite run_try_catch, run_bind, Hr. simpl. rewrite Hi, Hd. reflexivity. }
  assert (HC : forall cid c,
             lookupId CommentDoc._id cid (comments s) = Some c ->
             CommentDoc.isApproved c = true ->
             run (commentController.toggleCommentLike dev cid (Some v)) s =
             (Resolved articleController.invalid_action, s)).
  { intros cid c Hl Ha. unfold commentController.toggleCommentLike.
    rewrite run_try_catch, run_bind, run_await. unfold Comment.findById. simpl.
    rewrite Hl, Ha. simpl. rewrite Hi, Hd. reflexivity. }
  split; [| split; [| split; [exact HA | split; [exact HC | split; reflexivity]]]].
  - intros slug. destruct (resolve_run dev slug s) as [x [E T]].
    destruct x as [r | a].
    + destruct (target_of slug (articles s)); [discriminate T |].
      destruct T as [r' [Hr' [Hs [Hst _]]]]. injection Hr' as <-.
      exists r. split; [| split; assumption].
      unfold articleController.toggleLike.
      rewrite run_try_catch, run_bind, E. reflexivity.
    + exists articleController.invalid_action.
      split; [apply (HA slug a E) | split; [reflexivity | discriminate]].
  - intros cid.
    destruct (lookupId CommentDoc._id cid (comments s)) as [c |] eqn:Hl.
    + destruct (CommentDoc.isApproved c) eqn:Ha.
      * exists articleController.invalid_action.
        split; [apply (HC cid c Hl Ha) | split; [reflexivity | discriminate]].
      * eexists. split; [| split].
        -- unfold commentController.toggleCommentLike.
           rewrite run_try_catch, run_bind, run_await. unfold Comment.findById. simpl.
           rewrite Hl, Ha. reflexivity.
        -- reflexivity.
        -- discriminate.
    + eexists. split; [| split].
      * unfold commentController.toggleCommentLike.
        rewrite run_try_catch, run_bind, run_await. unfold Comment.findById. simpl.
        rewrite Hl. reflexivity.
      * reflexivity.
      * discriminate.
Qed.

Lemma invalid_action_is_rejected_witness :
  let s := commented_blog in
  let v := Js.Str "like" in
  Js.strict_eq_str v "increment" = false /\
  Js.strict_eq_str v "decrement" = false /\
  run (articleController.resolve false "test-slug") s = (Resolved (inr test_article), s) /\
  lookupId CommentDoc._id 50 (comments s) = Some approved_comment /\
  CommentDoc.isApproved approved_comment = true /\
  run (articleController.toggleLike false "test-slug" (Some v)) s =
    (Resolved articleController.invalid_action, s) /\
  run (commentController.toggleCommentLike false 50 (Some v)) s =
    (Resolved articleController.invalid_action, s).
Proof.
  cbv zeta.
  assert (Hi : Js.strict_eq_str (Js.Str "like") "increment" = false) by reflexivity.
  assert (Hd : Js.strict_eq_str (Js.Str "like") "decrement" = false) by reflexivity.
  assert (Hr : run (articleController.resolve false "test-slug") commented_blog
               = (Resolved (inr test_article), commented_blog)) by (vm_compute; reflexivity).
  assert (Hl : lookupId CommentDoc._id 50 (comments commented_blog) = Some approved_comment)
    by reflexivity.
  assert (Ha : CommentDoc.isApproved approved_comment = true) by reflexivity.
  destruct (invalid_action_is_rejected false commented_blog (Js.Str "like") Hi Hd)
    as (_ & _ & HA & HC & _).
  repeat (split; [assumption |]).
  split; [exact (HA "test-slug" test_article Hr) | exact (HC 50%N approved_comment Hl Ha)].
Defined.

(** ** The store after an anonymous like *)

Lemma article_toggle_store (dev : bool) (slug : string)
    (body_action : option Js.Value) (s : Store) :
  articles_ids_unique s ->
  snd (run (articleController.toggleLike dev slug body_action) s) =
  match target_of slug (articles s) with
  | Some a =>
      set_articles
        (updateById ArticleDoc._id (ArticleDoc._id a)
           (add_likes (like_delta (action_of body_action) (ArticleDoc.likesCount a)))
           (articles s)) s
  | None => s
  end.
Proof.
  intros Hnd. pose proof (article_toggleLike_run dev slug body_action s Hnd) as H.
  cbv zeta in H. unfold like_delta.
  destruct (target_of slug (articles s)) as [a |].
  - destruct (Js.strict_eq_str (action_of body_action) "increment").
    + rewrite H. reflexivity.
    + destruct (Js.strict_eq_str (action_of body_action) "decrement").
      * rewrite H. reflexivity.
      * rewrite H. simpl.
        rewrite updateById_same by apply add_likes_zero.
        symmetry. apply set_articles_same.
  - destruct H as [r [-> _]]. reflexivity.
Qed.


Lemma comment_toggle_store (dev : bool) (cid : ObjectId)
    (body_action : option Js.Value) (s : Store) :
  (forall c, lookupId CommentDoc._id cid (comments s) = Some c ->
             (0 <= CommentDoc.likesCount c)%Z) ->
  snd (run (commentController.toggleCommentLike dev cid body_action) s) =
  match lookupId CommentDoc._id cid (comments s) with
  | Some c =>
      if CommentDoc.isApproved c && is_nil (Comment.validate c)
      then set_comments
             (updateById CommentDoc._id cid
                (Comment.with_likesCount
                   (CommentDoc.likesCount c
                    + like_delta (action_of body_action) (CommentDoc.likesCount c)))
                (comments s)) s
      else s
  | None => s
  end.
Proof.
  intros Hnn. pose proof (comment_toggleLike_run dev cid body_action s Hnn) as H.
  cbv zeta in H. unfold like_delta.
  destruct (lookupId CommentDoc._id cid (comments s)) as [c |] eqn:Hl.
  - assert (Hself : forall v, v = CommentDoc.likesCount c ->
               set_comments (updateById CommentDoc._id cid
                               (Comment.with_likesCount v) (comments s)) s = s).
    { intros v ->.
      rewrite (updateById_at _ CommentDoc._id cid _ (fun x => x) _ c Hl)
        by apply with_likesCount_self.
      rewrite updateById_same by reflexivity. apply set_comments_same. }
    destruct (CommentDoc.isApproved c); simpl in *.
    + destruct (Js.strict_eq_str (action_of body_action) "increment"); simpl in *.
      * destruct (Comment.validate c); rewrite H; reflexivity.
      * destruct (Js.strict_eq_str (action_of body_action) "decrement"); simpl in *.
        -- destruct (Comment.validate c); rewrite H; simpl; [| reflexivity].
           destruct (CommentDoc.likesCount c >? 0)%Z; [f_equal; f_equal; f_equal; lia |].
           rewrite !Hself by lia. reflexivity.
        -- rewrite H. simpl. destruct (is_nil (Comment.validate c)); [| reflexivity].
           rewrite Hself by lia. reflexivity.
    + destruct H as [r [-> _]]. reflexivity.
  - destruct H as [r [-> _]]. reflexivity.
Qed.

(** C10. A like request without any [action] in its body is handled
    exactly as the same request with [action: "increment"], and is never
    answered with the invalid-action reply.  When the endpoint reaches its
    target (an article that [toggleLike] resolves from the slug; a comment
    that exists, is approved and passes the validators of its schema) the
    reply is the 200 success reply of an increment and the stored document
    is the target with [likesCount] one higher.  The store is one with
    unique article identifiers and counters that are not negative. *)
Theorem missing_action_increments (dev : bool) (s : Store) :
  likes_ok s ->
  (forall slug,
      run (articleController.toggleLike dev slug None) s =
      run (articleController.toggleLike dev slug increment) s) /\
  (forall cid,
      run (commentController.toggleCommentLike dev cid None) s =
      run (commentController.toggleCommentLike dev cid increment) s) /\
  (forall slug,
      fst (run (articleController.toggleLike dev slug None) s)
      <> Resolved articleController.invalid_action) /\
  (forall cid,
      fst (run (commentController.toggleCommentLike dev cid None) s)
      <> Resolved articleController.invalid_action) /\
  (forall slug a,
      run (articleController.resolve dev slug) s = (Resolved (inr a), s) ->
      exists s',
        run (articleController.toggleLike dev slug None) s =
        (Resolved (article_like_ok (Js.Str "increment") (ArticleDoc.likesCount a + 1)), s')
        /\ lookupId ArticleDoc._id (ArticleDoc._id a) (articles s') = Some (add_likes 1 a)
        /\ articles s' =
           updateById ArticleDoc._id (ArticleDoc._id a) (add_likes 1) (articles s)) /\
  (forall cid c,
      lookupId CommentDoc._id cid (comments s) = Some c ->
      CommentDoc.isApproved c = true ->
      Comment.validate c = [] ->
      exists s',
        run (commentController.toggleCommentLike dev cid None) s =
        (Resolved (comment_like_ok (Js.Str "increment") cid (CommentDoc.likesCount c + 1)),
         s')
        /\ lookupId CommentDoc._id cid (comments s') =
           Some (Comment.with_likesCount (CommentDoc.likesCount c + 1) c)
        /\ comments s' =
           updateById CommentDoc._id cid
             (Comment.with_likesCount (CommentDoc.likesCount c + 1)) (comments s)) /\
  (forall n, status (article_like_ok (Js.Str "increment") n) = 200 /\
             success (article_like_ok (Js.Str "increment") n) = true) /\
  (forall cid n, status (comment_like_ok (Js.Str "increment") cid n) = 200 /\
                 success (comment_like_ok (Js.Str "increment") cid n) = true).
Proof.
  intros [Hnd Ha Hc].
  assert (Hnn : forall cid c, lookupId CommentDoc._id cid (comments s) = Some c ->
                              (0 <= CommentDoc.likesCount c)%Z).
  { intros cid c Hl. apply lookupId_In in Hl. apply Hc. tauto. }
  split; [reflexivity |]. split; [reflexivity |].
  split; [| split; [| split; [| split; [| split; [split; reflexivity |
                                                   split; reflexivity]]]]].
  - intros slug. pose proof (article_toggleLike_run dev slug None s Hnd) as H.
    cbv zeta in H.
    change (Js.strict_eq_str (action_of None) "increment") with true in H.
    destruct (target_of slug (articles s)).
    + cbv iota in H. rewrite H. simpl. status_differs.
    + destruct H as [r [-> [_ [_ Hne]]]]. simpl. congruence.
  - intros cid. pose proof (comment_toggleLike_run dev cid None s (Hnn cid)) as H.
    cbv zeta in H.
    change (Js.strict_eq_str (action_of None) "increment") with true in H.
    destruct (lookupId CommentDoc._id cid (comments s)) as [c |].
    + destruct (CommentDoc.isApproved c); cbn [negb orb] in H.
      * destruct (Comment.validate c); rewrite H; simpl; status_differs.
      * destruct H as [r [-> Hst]]. simpl. intros E. injection E as ->. discriminate.
    + destruct H as [r [-> Hst]]. simpl. intros E. injection E as ->. discriminate.
  - intros slug a Hr.
    pose proof (resolve_target _ _ _ _ _ Hr) as Ht.
    pose proof (article_toggleLike_run dev slug None s Hnd) as H.
    cbv zeta in H.
    change (Js.strict_eq_str (action_of None) "increment") with true in H.
    rewrite Ht in H. cbv iota in H.
    eexists. split; [exact H |]. simpl. split; [| reflexivity].
    rewrite lookupId_updateById by (intros; reflexivity).
    rewrite (lookupId_unique _ ArticleDoc._id _ _ Hnd (target_of_In _ _ _ Ht)).
    reflexivity.
  - intros cid c Hl Hap Hv.
    pose proof (comment_toggleLike_run dev cid None s (Hnn cid)) as H.
    cbv zeta in H.
    change (Js.strict_eq_str (action_of None) "increment") with true in H.
    rewrite Hl, Hap, Hv in H. cbn [negb orb] in H.
    eexists. split; [exact H |]. simpl. split; [| reflexivity].
    rewrite lookupId_updateById by (intros; reflexivity).
    rewrite Hl. reflexivity.
Qed.

Lemma likes_ok_commented_blog : likes_ok commented_blog.
Proof.
  constructor.
  - unfold articles_ids_unique. simpl. repeat constructor. simpl. tauto.
  - simpl. intros a [<- | []]. simpl. lia.
  - simpl. intros c [<- | [<- | []]]; simpl; lia.
Qed.

Lemma missing_action_increments_witness :
  let s := commented_blog in
  likes_ok s /\
  run (articleController.resolve false "test-slug") s = (Resolved (inr test_article), s) /\
  lookupId CommentDoc._id 50 (comments s) = Some approved_comment /\
  CommentDoc.isApproved approved_comment = true /\
  Comment.validate approved_comment = [] /\
  (exists s',
      run (articleController.toggleLike false "test-slug" None) s =
      (Resolved (article_like_ok (Js.Str "increment") 1), s')
      /\ lookupId ArticleDoc._id 1 (articles s') = Some (add_likes 1 test_article)) /\
  (exists s',
      run (commentController.toggleCommentLike false 50 None) s =
      (Resolved (comment_like_ok (Js.Str "increment") 50 1), s')
      /\ lookupId CommentDoc._id 50 (comments s') =
         Some (Comment.with_likesCount 1 approved_comment)).
Proof.
  cbv zeta.
  assert (Hr : run (articleController.resolve false "test-slug") commented_blog
               = (Resolved (inr test_article), commented_blog)) by (vm_compute; reflexivity).
  assert (Hl : lookupId CommentDoc._id 50 (comments commented_blog) = Some approved_comment)
    by reflexivity.
  assert (Ha : CommentDoc.isApproved approved_comment = true) by reflexivity.
  assert (Hv : Comment.validate approved_comment = []) by (vm_compute; reflexivity).
  destruct (missing_action_increments false commented_blog likes_ok_commented_blog)
    as (_ & _ & _ & _ & HA & HC & _).
  split; [exact likes_ok_commented_blog |].
  repeat (split; [assumption |]).
  split.
  - destruct (HA "test-slug" test_article Hr) as (s' & E & L & _).
    exists s'. split; [exact E | exact L].
  - destruct (HC 50%N approved_comment Hl Ha Hv) as (s' & E & L & _).
    exists s'. split; [exact E | exact L].
Defined.

(** ** Increment, decrement, and the sign of the counters *)

Lemma In_updateById {D} (id_of : D -> ObjectId) (i : ObjectId) (f : D -> D)
    (l : list D) (x : D) :
  In x (updateById id_of i f l) ->
  In x l \/ exists y, In y l /\ id_of y = i /\ x = f y.
Proof.
  induction l as [| d r IH]; simpl; [tauto |].
  unfold updateById; fold (updateById id_of i f).
  destruct (N.eqb (id_of d) i) eqn:E; simpl.
  - intros [<- | H]; [| tauto].
    right. exists d. apply N.eqb_eq in E. auto.
  - intros [<- | H]; [tauto |].
    destruct (IH H) as [H' | [y [Hy H']]]; [tauto |].
    right. exists y. tauto.
Qed.

Lemma NoDup_map_inj {D K} (key : D -> K) (l : list D) (x y : D) :
  NoDup (map key l) -> In x l -> In y l -> key x = key y -> x = y.
Proof.
  induction l as [| d r IH]; simpl; intros Hnd Hx Hy Hk; [tauto |].
  inversion Hnd as [| ? ? Hnin Hr]; subst.
  destruct Hx as [-> | Hx], Hy as [-> | Hy]; auto.
  - exfalso. apply Hnin. rewrite Hk. apply in_map. exact Hy.
  - exfalso. apply Hnin. rewrite <- Hk. apply in_map. exact Hx.
Qed.

Lemma like_delta_nonneg (action : Js.Value) (n : Z) :
  (0 <= n)%Z -> (0 <= n + like_delta action n)%Z.
Proof.
  intros Hn. unfold like_delta.
  destruct (Js.strict_eq_str action "increment"); [lia |].
  destruct (Js.strict_eq_str action "decrement"); [| lia].
  destruct (n >? 0)%Z eqn:E; [apply Z.gtb_lt in E |]; lia.
Qed.

Lemma handle_preserves_likes_ok (dev : bool) (q : LikeRequest) (s : Store) :
  likes_ok s -> likes_ok (snd (run (handle dev q) s)).
Proof.
  intros [Hnd Ha Hc]. destruct q as [slug b | cid b]; cbn [handle].
  - rewrite article_toggle_store by exact Hnd.
    destruct (target_of slug (articles s)) as [a |] eqn:Ht; [| constructor; assumption].
    pose proof (target_of_In _ _ _ Ht) as Hin.
    constructor; simpl.
    + unfold articles_ids_unique. simpl.
      rewrite map_id_updateById by (intros; reflexivity). exact Hnd.
    + intros x Hx. apply In_updateById in Hx.
      destruct Hx as [Hx | [y [Hy [Hid ->]]]]; [apply Ha; exact Hx |].
      assert (y = a) as -> by (apply (NoDup_map_inj ArticleDoc._id (articles s)); auto).
      destruct a; simpl. apply like_delta_nonneg. apply (Ha _ Hin).
    + exact Hc.
  - rewrite comment_toggle_store
      by (intros c Hl; apply lookupId_In in Hl; apply Hc; tauto).
    destruct (lookupId CommentDoc._id cid (comments s)) as [c |] eqn:Hl;
      [| constructor; assumption].
    destruct (CommentDoc.isApproved c && is_nil (Comment.validate c));
      [| constructor; assumption].
    apply lookupId_In in Hl. destruct Hl as [Hin _].
    constructor; simpl; [exact Hnd | exact Ha |].
    intros x Hx. apply In_updateById in Hx.
    destruct Hx as [Hx | [y [Hy [Hid ->]]]]; [apply Hc; exact Hx |].
    simpl. apply like_delta_nonneg. apply (Hc _ Hin).
Qed.

Lemma serve_preserves_likes_ok (dev : bool) (qs : list LikeRequest) (s : Store) :
  likes_ok s -> likes_ok (serve dev qs s).
Proof.
  revert s. induction qs as [| q r IH]; simpl; intros s H; [exact H |].
  apply IH. apply handle_preserves_likes_ok. exact H.
Qed.

Lemma set_articles_twice (l l' : list ArticleDoc.t) (s : Store) :
  set_articles l (set_articles l' s) = set_articles l s.
Proof. reflexivity. Qed.

Lemma set_comments_twice (l l' : list CommentDoc.t) (s : Store) :
  set_comments l (set_comments l' s) = set_comments l s.
Proof. reflexivity. Qed.

Lemma article_round_trip (dev : bool) (slug : string) (s : Store) :
  likes_ok s ->
  serve dev [ArticleLikeRequest slug increment; ArticleLikeRequest slug decrement] s = s.
Proof.
  intros [Hnd Ha Hc]. cbn [serve handle].
  rewrite (article_toggle_store dev slug increment s Hnd).
  destruct (target_of slug (articles s)) as [a |] eqn:Ht.
  - pose proof (target_of_In _ _ _ Ht) as Hin. pose proof (Ha _ Hin) as Hn.
    change (like_delta (action_of increment) (ArticleDoc.likesCount a)) with 1%Z.
    set (l1 := updateById ArticleDoc._id (ArticleDoc._id a) (add_likes 1) (articles s)).
    assert (Hnd1 : articles_ids_unique (set_articles l1 s)).
    { unfold articles_ids_unique, l1. simpl.
      rewrite map_id_updateById by (intros; reflexivity). exact Hnd. }
    rewrite (article_toggle_store dev slug decrement _ Hnd1). simpl articles.
    unfold l1 at 1. rewrite target_of_add_likes by exact Hnd.
    rewrite Ht. simpl option_map. rewrite N.eqb_refl.
    replace (like_delta (action_of decrement) (ArticleDoc.likesCount (add_likes 1 a)))
      with (-1)%Z.
    2:{ unfold like_delta. simpl.
        replace (ArticleDoc.likesCount a + 1 >? 0)%Z with true; [reflexivity |].
        symmetry. apply Z.gtb_lt. lia. }
    rewrite add_likes_id. unfold l1.
    rewrite updateById_compose by (intros; reflexivity).
    rewrite updateById_same.
    + rewrite set_articles_twice. apply set_articles_same.
    + intros d. rewrite add_likes_add. apply add_likes_zero.
  - rewrite (article_toggle_store dev slug decrement s Hnd), Ht. reflexivity.
Qed.

Lemma comment_round_trip (dev : bool) (cid : ObjectId) (s : Store) :
  likes_ok s ->
  serve dev [CommentLikeRequest cid increment; CommentLikeRequest cid decrement] s = s.
Proof.
  intros [Hnd Ha Hc]. cbn [serve handle].
  assert (Hnn : forall c, lookupId CommentDoc._id cid (comments s) = Some c ->
                          (0 <= CommentDoc.likesCount c)%Z).
  { intros c Hl. apply lookupId_In in Hl. apply Hc. tauto. }
  rewrite (comment_toggle_store dev cid increment s Hnn).
  pose proof (comment_toggle_store dev cid decrement s Hnn) as Hdec.
  destruct (lookupId CommentDoc._id cid (comments s)) as [c |] eqn:Hl.
  - pose proof (Hnn c eq_refl) as Hn.
    destruct (CommentDoc.isApproved c && is_nil (Comment.validate c)) eqn:Hav.
    + change (like_delta (action_of increment) (CommentDoc.likesCount c)) with 1%Z.
      set (c1 := Comment.with_likesCount (CommentDoc.likesCount c + 1) c).
      set (l1 := updateById CommentDoc._id cid
                   (Comment.with_likesCount (CommentDoc.likesCount c + 1)) (comments s)).
      assert (Hl1 : lookupId CommentDoc._id cid l1 = Some c1).
      { unfold l1. rewrite lookupId_updateById by (intros; reflexivity).
        rewrite Hl. reflexivity. }
      rewrite comment_toggle_store.
      2:{ simpl comments. intros c' Hc'. rewrite Hl1 in Hc'.
          inversion Hc'; subst. simpl. lia. }
      simpl comments. rewrite Hl1.
      assert (Hv1 : Comment.validate c1 = Comment.validate c).
      { apply validate_with_likesCount; lia. }
      rewrite Hv1. change (CommentDoc.isApproved c1) with (CommentDoc.isApproved c).
      rewrite Hav.
      replace (like_delta (action_of decrement) (CommentDoc.likesCount c1)) with (-1)%Z.
      2:{ unfold like_delta, c1. simpl.
          replace (CommentDoc.likesCount c + 1 >? 0)%Z with true; [reflexivity |].
          symmetry. apply Z.gtb_lt. lia. }
      unfold l1. rewrite updateById_compose by (intros; reflexivity).
      rewrite set_comments_twice.
      rewrite (updateById_at _ CommentDoc._id cid _ (fun x => x) _ c Hl).
      * rewrite updateById_same by reflexivity. apply set_comments_same.
      * unfold c1. simpl. rewrite with_likesCount_twice.
        replace (CommentDoc.likesCount c + 1 + -1)%Z with (CommentDoc.likesCount c) by lia.
        apply with_likesCount_self.
    + rewrite Hdec. reflexivity.
  - rewrite Hdec. reflexivity.
Qed.

(** C3. In a store whose like counters are not negative and whose article
    identifiers are unique, and with the requests served one after the
    other: an ["increment"] followed by a ["decrement"] on the same article
    slug, or on the same comment, leaves the store as it was, and in between
    the counter of a target the endpoint reaches stands at N + 1; a
    ["decrement"] on a target whose counter is 0 leaves the store as it was;
    and after any sequence of like requests, on any targets and with any
    actions, no like counter is negative. *)
Theorem like_counter_round_trip (dev : bool) (s : Store) :
  likes_ok s ->
  (forall slug,
      serve dev [ArticleLikeRequest slug increment; ArticleLikeRequest slug decrement] s
      = s) /\
  (forall slug a,
      run (articleController.resolve dev slug) s = (Resolved (inr a), s) ->
      lookupId ArticleDoc._id (ArticleDoc._id a)
        (articles (serve dev [ArticleLikeRequest slug increment] s))
      = Some (add_likes 1 a)) /\
  (forall cid,
      serve dev [CommentLikeRequest cid increment; CommentLikeRequest cid decrement] s
      = s) /\
  (forall cid c,
      lookupId CommentDoc._id cid (comments s) = Some c ->
      CommentDoc.isApproved c = true ->
      Comment.validate c = [] ->
      lookupId CommentDoc._id cid
        (comments (serve dev [CommentLikeRequest cid increment] s))
      = Some (Comment.with_likesCount (CommentDoc.likesCount c + 1) c)) /\
  (forall slug a,
      run (articleController.resolve dev slug) s = (Resolved (inr a), s) ->
      ArticleDoc.likesCount a = 0%Z ->
      serve dev [ArticleLikeRequest slug decrement] s = s) /\
  (forall cid c,
      lookupId CommentDoc._id cid (comments s) = Some c ->
      CommentDoc.likesCount c = 0%Z ->
      serve dev [CommentLikeRequest cid decrement] s = s) /\
  (forall qs,
      (forall a, In a (articles (serve dev qs s)) -> (0 <= ArticleDoc.likesCount a)%Z) /\
      (forall c, In c (comments (serve dev qs s)) -> (0 <= CommentDoc.likesCount c)%Z)).
Proof.
  intros Hok. pose proof Hok as [Hnd Ha Hc].
  assert (Hnn : forall cid c, lookupId CommentDoc._id cid (comments s) = Some c ->
                              (0 <= CommentDoc.likesCount c)%Z).
  { intros cid c Hl. apply lookupId_In in Hl. apply Hc. tauto. }
  split; [intros slug; apply article_round_trip; exact Hok |].
  split.
  { intros slug a Hr. pose proof (resolve_target _ _ _ _ _ Hr) as Ht.
    cbn [serve handle]. rewrite (article_toggle_store dev slug increment s Hnd), Ht.
    simpl articles. rewrite lookupId_updateById by (intros; reflexivity).
    rewrite (lookupId_unique _ ArticleDoc._id _ _ Hnd (target_of_In _ _ _ Ht)).
    reflexivity. }
  split; [intros cid; apply comment_round_trip; exact Hok |].
  split.
  { intros cid c Hl Hap Hv. cbn [serve handle].
    rewrite (comment_toggle_store dev cid increment s (Hnn cid)), Hl, Hap, Hv.
    simpl. rewrite lookupId_updateById by (intros; reflexivity).
    rewrite Hl. reflexivity. }
  split.
  { intros slug a Hr Hz. pose proof (resolve_target _ _ _ _ _ Hr) as Ht.
    cbn [serve handle]. rewrite (article_toggle_store dev slug decrement s Hnd), Ht.
    rewrite Hz. change (like_delta (action_of decrement) 0) with 0%Z.
    rewrite updateById_same by apply add_likes_zero. apply set_articles_same. }
  split.
  { intros cid c Hl Hz. cbn [serve handle].
    rewrite (comment_toggle_store dev cid decrement s (Hnn cid)), Hl.
    destruct (CommentDoc.isApproved c && is_nil (Comment.validate c)); [| reflexivity].
    rewrite Hz. change (0 + like_delta (action_of decrement) 0)%Z with 0%Z.
    rewrite (updateById_at _ CommentDoc._id cid _ (fun x => x) _ c Hl).
    - rewrite updateById_same by reflexivity. apply set_comments_same.
    - rewrite <- Hz. apply with_likesCount_self. }
  intros qs. pose proof (serve_preserves_likes_ok dev qs s Hok) as [_ Ha' Hc'].
  split; assumption.
Qed.

Lemma like_counter_round_trip_witness :
  let s := commented_blog in
  likes_ok s /\
  serve false [ArticleLikeRequest "test-slug" increment;
               ArticleLikeRequest "test-slug" decrement] s = s /\
  serve false [CommentLikeRequest 50 increment; CommentLikeRequest 50 decrement] s = s /\
  (forall qs,
      (forall a, In a (articles (serve false qs s)) -> (0 <= ArticleDoc.likesCount a)%Z) /\
      (forall c, In c (comments (serve false qs s)) -> (0 <= CommentDoc.likesCount c)%Z)).
Proof.
  cbv zeta. split; [exact likes_ok_commented_blog |].
  destruct (like_counter_round_trip false commented_blog likes_ok_commented_blog)
    as (H1 & _ & H3 & _ & _ & _ & H7).
  split; [apply H1 | split; [apply H3 | exact H7]].
Defined.

(** ** Reading an article *)

Section ArticleDetail.
Variable jwt_verify : string -> option ObjectId.

(** [optionalAuth] never rejects and never writes. *)
Lemma optionalAuth_run (authHeader : option string) (s : Store) :
  run (auth.optionalAuth jwt_verify authHeader) s =
  (Resolved (authenticated jwt_verify authHeader s), s).
Proof.
  unfold auth.optionalAuth, authenticated.
  destruct (auth.bearer_token authHeader) as [token |]; [| reflexivity].
  destruct (jwt_verify token) as [uid |]; [| reflexivity].
  simpl. destruct (lookupId UserDoc._id uid (users s)) as [u |]; [| reflexivity].
  simpl. destruct (UserDoc.isActive u); reflexivity.
Qed.

(** C9. For a slug that [findOne] resolves to a published article, in a
    store with unique article identifiers, one GET of the article detail
    answers 200 with the article showing [viewsCount + 1] and with
    [userLiked], which is what the Like ledger holds for the caller and the
    article when [req.user] is set and [false] when it is not; [req.user] is
    set by [optionalAuth] exactly when the caller is authenticated.  The
    stored article found by the same slug afterwards has [viewsCount]
    exactly one higher, and nothing else in the store changes. *)
Theorem article_detail_counts_one_view (dev : bool) (slug : string)
    (s : Store) (a : ArticleDoc.t) :
  articles_ids_unique s ->
  fst (Article.findOne slug true s) = Resolved (Some a) ->
  let userLiked (user : option UserDoc.t) :=
    match user with
    | Some u => ledger_has (UserDoc._id u) (ArticleDoc._id a) s
    | None => false
    end in
  let s' :=
    set_articles
      (updateById ArticleDoc._id (ArticleDoc._id a) (add_views 1) (articles s)) s in
  (forall user,
      run (articleController.getArticleBySlug dev slug user) s =
      (Resolved (mkResponse 200 true None None
                   (ArticleDetail (add_views 1 a) (userLiked user))), s')) /\
  (forall authHeader,
      run (articleRoutes.get_slug jwt_verify dev authHeader slug) s =
      (Resolved (mkResponse 200 true None None
                   (ArticleDetail (add_views 1 a)
                      (userLiked (authenticated jwt_verify authHeader s)))), s')) /\
  fst (Article.findOne slug true s') = Resolved (Some (add_views 1 a)) /\
  ArticleDoc.viewsCount (add_views 1 a) = (ArticleDoc.viewsCount a + 1)%Z /\
  articles_ids_unique s' /\
  comments s' = comments s /\ users s' = users s /\ likes s' = likes s.
Proof.
  intros Hnd Hf userLiked s'.
  unfold Article.findOne in Hf. simpl in Hf. injection Hf as Hf.
  assert (Hget : forall user,
             run (articleController.getArticleBySlug dev slug user) s =
             (Resolved (mkResponse 200 true None None
                          (ArticleDetail (add_views 1 a) (userLiked user))), s')).
  { intros user. unfold articleController.getArticleBySlug.
    rewrite run_try_catch, run_bind, run_await. unfold Article.findOne at 1.
    cbv beta iota. rewrite Hf. cbv beta iota.
    rewrite run_bind, run_await.
    unfold Article.findByIdAndUpdate, Article.findByIdAndUpdate_with.
    cbv beta iota.
    change (Article.applyUpdate Article.schema_strict
              (Article.Inc Article.viewsCount_path 1)) with (add_views 1).
    rewrite run_bind.
    destruct user as [u |].
    - rewrite userLikedArticle_run. reflexivity.
    - reflexivity. }
  split; [exact Hget |]. split; [| split; [| split; [| split]]].
  - intros authHeader. unfold articleRoutes.get_slug.
    rewrite run_bind, optionalAuth_run. apply Hget.
  - unfold Article.findOne, s'. simpl.
    rewrite find_updateById by (auto; intros; reflexivity).
    rewrite Hf. simpl. rewrite N.eqb_refl. reflexivity.
  - destruct a; reflexivity.
  - unfold articles_ids_unique, s'. simpl.
    rewrite map_id_updateById by (intros; reflexivity). exact Hnd.
  - repeat split.
Qed.
End ArticleDetail.

Lemma article_detail_counts_one_view_witness :
  articles_ids_unique liked_blog /\
  fst (Article.findOne "test-slug" true liked_blog) = Resolved (Some test_article) /\
  exists s',
    run (articleRoutes.get_slug sample_verify false (Some "Bearer token-de-ana")
           "test-slug") liked_blog =
    (Resolved (mkResponse 200 true None None (ArticleDetail (add_views 1 test_article) true)),
     s') /\
    run (articleRoutes.get_slug sample_verify false None "test-slug") liked_blog =
    (Resolved (mkResponse 200 true None None (ArticleDetail (add_views 1 test_article) false)),
     s') /\
    fst (Article.findOne "test-slug" true s') = Resolved (Some (add_views 1 test_article)).
Proof.
  assert (Hnd : articles_ids_unique liked_blog).
  { unfold articles_ids_unique. simpl. repeat constructor. simpl. tauto. }
  assert (Hf : fst (Article.findOne "test-slug" true liked_blog)
               = Resolved (Some test_article)) by reflexivity.
  split; [exact Hnd | split; [exact Hf |]].
  destruct (article_detail_counts_one_view sample_verify false "test-slug"
              liked_blog test_article Hnd Hf) as (_ & R & F & _).
  eexists. split; [exact (R (Some "Bearer token-de-ana")) |].
  split; [exact (R None) | exact F].
Defined.

(** ** Replies *)

Section ReplyParent.
Variable castObjectId : Js.Value -> option ObjectId.
Variable castFilter : Js.Value -> option (ObjectId -> bool).
Variable castErrorMessage : Js.Value -> string -> string.

End ReplyParent.



(** A reply to the approved comment of the same article is created. *)
Example reply_to_approved_parent :
  exists r s',
    run (commentController.addComment false "test-slug" "Respuesta de prueba" (Some 50%N)
           "Ana" "ana@x.com" None) commented_blog = (Resolved r, s') /\
    status r = 201 /\
    List.length (comments s') = 3.
Proof.
  eexists. eexists. split; [vm_compute; reflexivity | split; reflexivity].
Qed.

(** ** The comment counter *)

(** Under the strict schema no save of a comment writes to the articles. *)
Lemma save_keeps_articles (isNew : bool) (loaded this : CommentDoc.t) (s : Store) :
  articles (snd (run (Comment.save isNew loaded this) s)) = articles s.
Proof.
  unfold Comment.save, Comment.save_with.
  destruct (Comment.validate this); [| reflexivity].
  cbv zeta. rewrite run_bind, run_await.
  destruct isNew.
  - unfold Comment.insertOne. cbv beta iota. unfold Comment.post_save_with.
    rewrite run_bind, recount_strict_run. reflexivity.
  - unfold Comment.updateOne.
    destruct (lookupId CommentDoc._id _ (comments s)); [| reflexivity].
    unfold Comment.post_save_with. rewrite run_bind, recount_strict_run. reflexivity.
Qed.

Lemma findOneAndDelete_keeps_articles (i : ObjectId) (s : Store) :
  articles (snd (run (Comment.findOneAndDelete i) s)) = articles s.
Proof.
  unfold Comment.findOneAndDelete, Comment.findOneAndDelete_with.
  rewrite run_bind, run_await. cbv beta iota. rewrite run_bind.
  unfold Comment.post_findOneAndDelete_with.
  destruct (lookupId CommentDoc._id i (comments s)).
  - rewrite recount_strict_run. reflexivity.
  - reflexivity.
Qed.

(** Had the schema declared the path (or were it not strict), the hook
    would store the exact count of approved comments. *)
Lemma recount_nonstrict_run (doc : CommentDoc.t) (s : Store) :
  exists s',
    run (Comment.recount_with false doc) s = (Resolved tt, s') /\
    comments s' = comments s /\
    (forall a, lookupId ArticleDoc._id (CommentDoc.articleId doc) (articles s) = Some a ->
               stored_commentsCount (CommentDoc.articleId doc) s'
               = Some (approved_count (CommentDoc.articleId doc) s')).
Proof.
  eexists. split; [reflexivity |]. split; [reflexivity |].
  intros a Ha. unfold stored_commentsCount, approved_count. simpl.
  rewrite lookupId_updateById by (intros d; destruct d; reflexivity).
  rewrite Ha. reflexivity.
Qed.

(** C1. No write of a comment reaches the stored article: on every store,
    [save] (creation, approval, disapproval) and [findOneAndDelete] leave
    the articles collection as it was, because the [$set] of their hooks
    names [commentsCount], a path that [articleSchema] does not declare,
    and is dropped.  On the sample blog: creating an approved comment is
    answered 201 and the article then has one approved comment, yet the
    stored article carries no [commentsCount] at all; disapproving that
    comment, approving it again and deleting it leave it just the same. *)
Theorem commentsCount_is_not_stored :
  (forall s isNew loaded this,
      articles (snd (run (Comment.save isNew loaded this) s)) = articles s) /\
  (forall s i,
      articles (snd (run (Comment.findOneAndDelete i) s)) = articles s) /\
  exists r s1 r2 s2 r3 s3 s4,
    run (commentController.addComment false "test-slug" "Un comentario de prueba" None
           "Ana" "ana@x.com" None) empty_blog = (Resolved r, s1) /\
    status r = 201 /\
    approved_count 1 s1 = 1%Z /\
    stored_commentsCount 1 s1 = None /\
    run (commentController.moderateComment false 100 (Some (Js.Str "disapprove"))) s1
      = (Resolved r2, s2) /\
    status r2 = 200 /\ approved_count 1 s2 = 0%Z /\ stored_commentsCount 1 s2 = None /\
    run (commentController.moderateComment false 100 (Some (Js.Str "approve"))) s2
      = (Resolved r3, s3) /\
    status r3 = 200 /\ approved_count 1 s3 = 1%Z /\ stored_commentsCount 1 s3 = None /\
    snd (run (Comment.findOneAndDelete 100) s3) = s4 /\
    approved_count 1 s4 = 0%Z /\ stored_commentsCount 1 s4 = None /\
    articles s4 = articles empty_blog.
Proof.
  split; [intros; apply save_keeps_articles |].
  split; [intros; apply findOneAndDelete_keeps_articles |].
  do 7 eexists.
  split; [vm_compute; reflexivity |].
  split; [reflexivity |]. split; [reflexivity |]. split; [reflexivity |].
  split; [vm_compute; reflexivity |].
  split; [reflexivity |]. split; [reflexivity |]. split; [reflexivity |].
  split; [vm_compute; reflexivity |].
  split; [reflexivity |]. split; [reflexivity |]. split; [reflexivity |].
  split; [vm_compute; reflexivity |].
  split; [reflexivity |]. split; reflexivity.
Qed.

(** ** Concurrent likes *)

(** Two increments of the article counter, under every schedule of their
    six steps, add up. *)
Lemma article_increments_add_up :
  forallb
    (fun sched =>
       match article_likes_in
               (snd (interleave sched
                       (articleController.toggleLike false "test-slug" increment)
                       (articleController.toggleLike false "test-slug" increment)
                       commented_blog))
       with
       | Some n => Z.eqb n 2
       | None => false
       end)
    (schedules 6) = true.
Proof. vm_compute. reflexivity. Qed.

(** C2. Two increment requests on the same approved comment, the second
    reading the comment before the first has saved it: both are answered 200
    with [likesCount] 1, and the stored counter ends at 1, not 2.
    [Comment.incrementLikes] adds one to the copy in memory and [save]s it,
    so the later save overwrites the earlier one.  Served one after the
    other, the same two requests leave 2. *)
Theorem comment_like_update_is_lost :
  (exists s',
      interleave [true; false]
        (commentController.toggleCommentLike false 50 increment)
        (commentController.toggleCommentLike false 50 increment)
        commented_blog
      = (Resolved (comment_like_ok (Js.Str "increment") 50 1),
         Resolved (comment_like_ok (Js.Str "increment") 50 1),
         s') /\
      comment_likes_in commented_blog = Some 0%Z /\
      comment_likes_in s' = Some 1%Z) /\
  comment_likes_in
    (serve false [CommentLikeRequest 50 increment; CommentLikeRequest 50 increment]
       commented_blog) = Some 2%Z.
Proof.
  split.
  - eexists. split; [vm_compute; reflexivity | split; reflexivity].
  - vm_compute. reflexivity.
Qed.

(** The examples of the specification: two increments, then three
    decrements. *)
Example two_up_three_down :
  article_likes_in
    (serve false [ArticleLikeRequest "test-slug" increment;
                  ArticleLikeRequest "test-slug" increment] commented_blog) = Some 2%Z /\
  article_likes_in
    (serve false [ArticleLikeRequest "test-slug" increment;
                  ArticleLikeRequest "test-slug" increment;
                  ArticleLikeRequest "test-slug" decrement;
                  ArticleLikeRequest "test-slug" decrement;
                  ArticleLikeRequest "test-slug" decrement] commented_blog) = Some 0%Z.
Proof. split; vm_compute; reflexivity. Qed.

(** The decrement of an article decides on the copy it read: two decrements
    that both read 1 take the stored counter to -1. *)
Lemma article_decrements_race_below_zero :
  article_likes_in once_liked_blog = Some 1%Z /\
  article_likes_in
    (snd (interleave [true; false]
            (articleController.toggleLike false "test-slug" decrement)
            (articleController.toggleLike false "test-slug" decrement)
            once_liked_blog)) = Some (-1)%Z.
Proof. split; vm_compute; reflexivity. Qed.

(** Two reads of the article detail, under every schedule of their steps,
    count two views. *)
Lemma article_views_add_up :
  forallb
    (fun sched =>
       match article_views_in
               (snd (interleave sched
                       (articleController.getArticleBySlug false "test-slug" (Some ana))
                       (articleController.getArticleBySlug false "test-slug" None)
                       liked_blog))
       with
       | Some n => Z.eqb n 2
       | None => false
       end)
    (schedules 5) = true.
Proof. vm_compute. reflexivity. Qed.

(** The unique index alone keeps the pairs of the ledger distinct, whatever
    was read before the insert. *)
Lemma create_keeps_pairs_unique (u a : ObjectId) (s : Store) :
  NoDup (map like_pair (likes s)) ->
  NoDup (map like_pair (likes (snd (Like.create u a s)))).
Proof.
  intros Hp. unfold Like.create.
  destruct (existsb (Like.matches u a) (likes s)) eqn:E; [exact Hp |].
  simpl. rewrite map_app. simpl. apply NoDup_snoc; [exact Hp |].
  intros Hin. apply in_map_iff in Hin. destruct Hin as [x [Hk Hx]].
  change (like_pair x = (u, a)) in Hk. apply matches_pair in Hk.
  assert (existsb (Like.matches u a) (likes s) = true)
    by (apply existsb_exists; exists x; auto).
  congruence.
Qed.

(** * Further properties *)

(** ** Invariants under interleaving *)

Lemma keeps_bind (I : Store -> Prop) {R S} (p : Proc R) (f : R -> Proc S) :
  keeps I p -> (forall r, keeps I (f r)) -> keeps I (bind p f).
Proof.
  intros Hp Hf. induction p as [r | e | A op k IH]; simpl.
  - apply Hf.
  - exact Logic.I.
  - destruct Hp as [Hop Hk]. split; [exact Hop |]. intros o. apply IH. apply Hk.
Qed.

Lemma keeps_try_catch (I : Store -> Prop) {R} (p : Proc R) (h : Err -> Proc R) :
  keeps I p -> (forall e, keeps I (h e)) -> keeps I (try_catch p h).
Proof.
  intros Hp Hh. induction p as [r | e | A op k IH]; simpl.
  - exact Logic.I.
  - apply Hh.
  - destruct Hp as [Hop Hk]. split; [exact Hop |]. intros o. apply IH. apply Hk.
Qed.

Lemma keeps_await (I : Store -> Prop) {A} (op : StoreOp A) :
  (forall s, I s -> I (snd (op s))) -> keeps I (await op).
Proof.
  intros H. simpl. split; [exact H |]. intros [a | e]; exact Logic.I.
Qed.

Lemma keeps_step (I : Store -> Prop) {R} (p : Proc R) (s : Store) :
  keeps I p -> I s -> keeps I (fst (step p s)) /\ I (snd (step p s)).
Proof.
  destruct p as [r | e | A op k]; simpl; intros H Hs; try (split; assumption).
  destruct H as [Hop Hk]. specialize (Hop s Hs).
  destruct (op s) as [o s']. simpl in *. split; [apply Hk | exact Hop].
Qed.

Lemma keeps_run (I : Store -> Prop) {R} (p : Proc R) (s : Store) :
  keeps I p -> I s -> I (snd (run p s)).
Proof.
  revert s. induction p as [r | e | A op k IH]; simpl; intros s H Hs; try assumption.
  destruct H as [Hop Hk]. specialize (Hop s Hs).
  destruct (op s) as [o s']. simpl in *. apply IH; [apply Hk | exact Hop].
Qed.

Lemma keeps_interleave (I : Store -> Prop) {R1 R2} (sched : list bool)
    (p1 : Proc R1) (p2 : Proc R2) (s : Store) :
  keeps I p1 -> keeps I p2 -> I s -> I (snd (interleave sched p1 p2 s)).
Proof.
  revert p1 p2 s. induction sched as [| b t IH]; intros p1 p2 s H1 H2 Hs.
  - simpl. pose proof (keeps_run I p1 s H1 Hs) as Hs1.
    destruct (run p1 s) as [o1 s1]. simpl in Hs1.
    pose proof (keeps_run I p2 s1 H2 Hs1) as Hs2.
    destruct (run p2 s1) as [o2 s2]. exact Hs2.
  - destruct b; simpl.
    + destruct (keeps_step I p1 s H1 Hs) as [H1' Hs'].
      destruct (step p1 s) as [p1' s']. apply IH; assumption.
    + destruct (keeps_step I p2 s H2 Hs) as [H2' Hs'].
      destruct (step p2 s) as [p2' s']. apply IH; assumption.
Qed.

(** ** The Like ledger *)

Lemma create_keeps_ledger_ok (u a : ObjectId) (s : Store) :
  ledger_ok s -> ledger_ok (snd (Like.create u a s)).
Proof.
  intros [Hp Hi Ho]. unfold Like.create.
  destruct (existsb (Like.matches u a) (likes s)) eqn:He; simpl.
  - constructor; assumption.
  - constructor; simpl.
    + rewrite map_app. simpl. apply NoDup_snoc; [exact Hp |].
      intros Hin. apply in_map_iff in Hin. destruct Hin as [x [Hk Hx]].
      apply matches_pair in Hk.
      assert (existsb (Like.matches u a) (likes s) = true) as Ht
        by (apply existsb_exists; exists x; split; assumption).
      congruence.
    + rewrite map_app. simpl. apply NoDup_snoc; [exact Hi |].
      intros Hin. apply in_map_iff in Hin. destruct Hin as [x [Hk Hx]].
      apply Ho in Hx. lia.
    + intros x Hx. apply in_app_iff in Hx. destruct Hx as [Hx | [<- | []]].
      * apply Ho in Hx. lia.
      * simpl. lia.
Qed.

Lemma deleteOne_keeps_ledger_ok (q : LikeDoc.t -> bool) (s : Store) :
  ledger_ok s -> ledger_ok (snd (Like.deleteOne q s)).
Proof.
  intros [Hp Hi Ho]. unfold Like.deleteOne. constructor; simpl.
  - apply NoDup_map_deleteFirst; exact Hp.
  - apply NoDup_map_deleteFirst; exact Hi.
  - intros x Hx. apply Ho. eapply In_deleteFirst; eassumption.
Qed.

Lemma like_call_keeps_ledger_ok (c : LikeCall) : keeps ledger_ok (like_call c).
Proof.
  destruct c as [u a | u a | u a]; unfold like_call.
  - unfold Like.addLike. apply keeps_try_catch.
    + apply keeps_bind; [apply keeps_await; intros s H; exact H |].
      intros [l |]; [exact Logic.I |].
      apply keeps_bind; [| intros; exact Logic.I].
      apply keeps_await. intros s. apply create_keeps_ledger_ok.
    + intros e. destruct (err_code e) as [c |]; [| exact Logic.I].
      destruct (N.eq_dec c 11000) as [-> | Hne]; [exact Logic.I |].
      destruct c as [| p]; [exact Logic.I |].
      repeat (destruct p as [p | p |]; try exact Logic.I).
  - unfold Like.removeLike. apply keeps_bind.
    + apply keeps_await. intros s. apply deleteOne_keeps_ledger_ok.
    + intros n. destruct (N.eqb n 0); exact Logic.I.
  - unfold Like.toggleLike. apply keeps_bind.
    + apply keeps_await; intros s H; exact H.
    + intros [l |].
      * apply keeps_bind; [| intros; exact Logic.I].
        apply keeps_await. intros s. apply deleteOne_keeps_ledger_ok.
      * apply keeps_bind; [| intros; exact Logic.I].
        apply keeps_await. intros s. apply create_keeps_ledger_ok.
Qed.

(** X1. Whatever two calls on the Like model are in flight together
    ([addLike], [removeLike] or [toggleLike], for any users and articles)
    and however their store operations interleave, a ledger that holds no
    (user, article) pair twice, no [_id] twice and only identifiers handed
    out before [nextId] is left as such a ledger. *)
Theorem ledger_survives_concurrent_calls (sched : list bool) (c1 c2 : LikeCall)
    (s : Store) :
  ledger_ok s ->
  ledger_ok (snd (interleave sched (like_call c1) (like_call c2) s)).
Proof.
  intros H. apply keeps_interleave; [apply like_call_keeps_ledger_ok .. | exact H].
Qed.

Lemma ledger_survives_concurrent_calls_witness :
  ledger_ok liked_blog /\
  ledger_ok (snd (interleave [true; false; true; false]
                    (like_call (ToggleLike 7 1)) (like_call (AddLike 7 1)) liked_blog)).
Proof.
  split; [exact ledger_ok_liked_blog |].
  apply (ledger_survives_concurrent_calls [true; false; true; false]
           (ToggleLike 7 1) (AddLike 7 1) liked_blog).
  exact ledger_ok_liked_blog.
Defined.

Lemma settles_step {R} (Q : R -> Prop) (p : Proc R) (s : Store) :
  settles Q p -> settles Q (fst (step p s)).
Proof.
  destruct p as [r | e | A op k]; simpl; intros H; try assumption.
  specialize (H s). destruct (op s) as [o s']. exact H.
Qed.

Lemma settles_run {R} (Q : R -> Prop) (p : Proc R) (s : Store) :
  settles Q p -> exists r, fst (run p s) = Resolved r /\ Q r.
Proof.
  revert s. induction p as [r | e | A op k IH]; simpl; intros s H.
  - exists r. split; [reflexivity | exact H].
  - contradiction.
  - specialize (H s). destruct (op s) as [o s']. simpl in H. apply IH. exact H.
Qed.

Lemma settles_interleave {R1 R2} (Q : R1 -> Prop) (sched : list bool)
    (p1 : Proc R1) (p2 : Proc R2) (s : Store) :
  settles Q p1 ->
  exists r, fst (fst (interleave sched p1 p2 s)) = Resolved r /\ Q r.
Proof.
  revert p1 p2 s. induction sched as [| b t IH]; intros p1 p2 s H.
  - simpl. destruct (settles_run Q p1 s H) as [r [Hr HQ]].
    destruct (run p1 s) as [o1 s1]. destruct (run p2 s1) as [o2 s2].
    exists r. split; assumption.
  - destruct b; simpl.
    + pose proof (settles_step Q p1 s H) as H'.
      destruct (step p1 s) as [p1' s']. apply IH. exact H'.
    + destruct (step p2 s) as [p2' s']. apply IH. exact H.
Qed.

(** The results [addLike] can resolve to. *)
Lemma addLike_settles (u a : ObjectId) :
  settles (fun r => r = already_liked \/
                    exists l, r = Like.mkResult true "Like agregado exitosamente" None
                                    (Some l) None
                              /\ LikeDoc.userId l = u /\ LikeDoc.articleId l = a)
    (Like.addLike u a).
Proof.
  unfold Like.addLike. simpl. intros s.
  destruct (find (Like.matches u a) (likes s)) as [l |]; simpl.
  - left. reflexivity.
  - intros s'. unfold Like.create.
    destruct (existsb (Like.matches u a) (likes s')); simpl.
    + left. reflexivity.
    + right. eexists. split; [reflexivity |]. split; reflexivity.
Qed.

Lemma settles_interleave_right {R1 R2} (Q : R2 -> Prop) (sched : list bool)
    (p1 : Proc R1) (p2 : Proc R2) (s : Store) :
  settles Q p2 ->
  exists r, snd (fst (interleave sched p1 p2 s)) = Resolved r /\ Q r.
Proof.
  revert p1 p2 s. induction sched as [| b t IH]; intros p1 p2 s H.
  - simpl. destruct (run p1 s) as [o1 s1].
    destruct (settles_run Q p2 s1 H) as [r [Hr HQ]].
    destruct (run p2 s1) as [o2 s2].
    exists r. split; assumption.
  - destruct b; simpl.
    + destruct (step p1 s) as [p1' s']. apply IH. exact H.
    + pose proof (settles_step Q p2 s H) as H'.
      destruct (step p2 s) as [p2' s']. apply IH. exact H'.
Qed.

(** X2. [Like.addLike] never rejects on a lost race.  Whatever other
    request is in flight with it, before or after it in the schedule, and
    however the store operations of the two interleave, it resolves: to its
    "already liked" result, or to a success that carries a Like of this user
    for this article.  The duplicate-key error of the unique index, the one
    failure of the store operations it awaits, is absorbed by its handler. *)
Theorem addLike_never_rejects (u a : ObjectId) {R2} (p2 : Proc R2)
    (sched : list bool) (s : Store) :
  let settled (o : Outcome Like.Result) :=
    exists r,
      o = Resolved r /\
      (r = already_liked \/
       exists l, r = Like.mkResult true "Like agregado exitosamente" None (Some l) None
                 /\ LikeDoc.userId l = u /\ LikeDoc.articleId l = a) in
  settled (fst (fst (interleave sched (Like.addLike u a) p2 s))) /\
  settled (snd (fst (interleave sched p2 (Like.addLike u a) s))).
Proof.
  split.
  - apply settles_interleave. apply addLike_settles.
  - apply settles_interleave_right. apply addLike_settles.
Qed.

Lemma set_likes_same (s : Store) : set_likes (likes s) s = s.
Proof. destruct s; reflexivity. Qed.

Lemma deleteFirst_none {D} (q : D -> bool) (l : list D) :
  existsb q l = false -> deleteFirst q l = l.
Proof.
  induction l as [| d r IH]; simpl; [reflexivity |].
  destruct (q d); simpl; [discriminate |]. intros H. rewrite IH; [reflexivity | exact H].
Qed.

Lemma deleteFirst_snoc {D} (q : D -> bool) (l : list D) (x : D) :
  existsb q l = false -> q x = true -> deleteFirst q (l ++ [x]) = l.
Proof.
  induction l as [| d r IH]; simpl; intros Hn Hx.
  - rewrite Hx. reflexivity.
  - destruct (q d); simpl in *; [discriminate |]. rewrite IH; auto.
Qed.

Lemma matches_refl (u a i : ObjectId) : Like.matches u a (LikeDoc.mk i u a) = true.
Proof. unfold Like.matches. simpl. rewrite !N.eqb_refl. reflexivity. Qed.

Lemma addLike_run (u a : ObjectId) (s : Store) :
  run (Like.addLike u a) s =
  if ledger_has u a s
  then (Resolved already_liked, s)
  else (Resolved (Like.mkResult true "Like agregado exitosamente" None
                    (Some (LikeDoc.mk (nextId s) u a)) None),
        bump_nextId (set_likes (likes s ++ [LikeDoc.mk (nextId s) u a]) s)).
Proof.
  unfold Like.addLike, ledger_has. rewrite find_existsb. simpl.
  destruct (find (Like.matches u a) (likes s)) as [l |] eqn:Hf; simpl; [reflexivity |].
  unfold Like.create. rewrite find_existsb, Hf. reflexivity.
Qed.

Lemma removeLike_run (u a : ObjectId) (s : Store) :
  run (Like.removeLike u a) s =
  (Resolved (if ledger_has u a s
             then Like.mkResult true "Like eliminado exitosamente" None None None
             else Like.mkResult false "No habías dado like a este artículo" None None None),
   set_likes (deleteFirst (Like.matches u a) (likes s)) s).
Proof.
  unfold Like.removeLike, ledger_has. simpl. unfold Like.deleteOne.
  destruct (existsb (Like.matches u a) (likes s)); reflexivity.
Qed.

(** X3. [Like.addLike] is idempotent.  It always resolves and leaves the
    pair in the ledger; it succeeds exactly when the pair was not there;
    and a second [addLike] of the same pair answers "already liked" and
    leaves the store as the first one left it.  When the pair was there
    from the start the first call changes nothing either. *)
Theorem addLike_is_idempotent (u a : ObjectId) (s : Store) :
  exists r1 s1,
    run (Like.addLike u a) s = (Resolved r1, s1) /\
    Like.success r1 = negb (ledger_has u a s) /\
    ledger_has u a s1 = true /\
    run (Like.addLike u a) s1 = (Resolved already_liked, s1) /\
    (if ledger_has u a s then s1 = s
     else likes s1 = likes s ++ [LikeDoc.mk (nextId s) u a]).
Proof.
  rewrite addLike_run. destruct (ledger_has u a s) eqn:Hl.
  - exists already_liked, s. rewrite addLike_run, Hl. repeat split; reflexivity.
  - eexists. eexists. split; [reflexivity |]. split; [reflexivity |].
    assert (ledger_has u a
              (bump_nextId (set_likes (likes s ++ [LikeDoc.mk (nextId s) u a]) s)) = true)
      as Hl'.
    { unfold ledger_has. simpl. rewrite existsb_app. simpl.
      rewrite matches_refl. apply orb_true_r. }
    split; [exact Hl' |]. split; [| reflexivity].
    rewrite addLike_run, Hl'. reflexivity.
Qed.

(** X4. Liking and unliking through the model is a round trip.  When the
    user has no Like on the article, [addLike] followed by [removeLike]
    both succeed and the Like collection is again what it was; a
    [removeLike] without a Like reports failure and leaves the store
    untouched. *)
Theorem addLike_removeLike_round_trip (u a : ObjectId) (s : Store) :
  ledger_has u a s = false ->
  run (Like.removeLike u a) s =
    (Resolved (Like.mkResult false "No habías dado like a este artículo" None None None),
     s) /\
  exists r1 s1 r2 s2,
    run (Like.addLike u a) s = (Resolved r1, s1) /\ Like.success r1 = true /\
    run (Like.removeLike u a) s1 = (Resolved r2, s2) /\ Like.success r2 = true /\
    likes s2 = likes s /\ ledger_has u a s2 = false /\
    articles s2 = articles s /\ comments s2 = comments s /\ users s2 = users s.
Proof.
  intros Hl. split.
  - rewrite removeLike_run, Hl. unfold ledger_has in Hl.
    rewrite (deleteFirst_none _ _ Hl), set_likes_same. reflexivity.
  - rewrite addLike_run, Hl. eexists. eexists. eexists. eexists.
    split; [reflexivity |]. split; [reflexivity |].
    rewrite removeLike_run. split; [reflexivity |].
    assert (deleteFirst (Like.matches u a) (likes s ++ [LikeDoc.mk (nextId s) u a])
            = likes s) as Hd
      by (apply deleteFirst_snoc; [exact Hl | apply matches_refl]).
    unfold ledger_has at 1. simpl. rewrite existsb_app. simpl. rewrite matches_refl.
    rewrite orb_true_r. split; [reflexivity |].
    simpl. split; [exact Hd |]. split; [| repeat split; reflexivity].
    unfold ledger_has. simpl. etransitivity; [| exact Hl].
    unfold ledger_has. f_equal. exact Hd.
Qed.

Lemma addLike_removeLike_round_trip_witness :
  ledger_has 7 1 empty_blog = false /\
  exists r1 s1 r2 s2,
    run (Like.addLike 7 1) empty_blog = (Resolved r1, s1) /\ Like.success r1 = true /\
    run (Like.removeLike 7 1) s1 = (Resolved r2, s2) /\ Like.success r2 = true /\
    likes s2 = likes empty_blog /\ ledger_has 7 1 s2 = false /\
    articles s2 = articles empty_blog /\ comments s2 = comments empty_blog /\
    users s2 = users empty_blog.
Proof.
  split; [reflexivity |].
  apply (addLike_removeLike_round_trip 7 1 empty_blog). reflexivity.
Defined.

Lemma countLikesForArticle_run (b : ObjectId) (s : Store) :
  run (Like.countLikesForArticle b) s = (Resolved (likes_of b s), s).
Proof. reflexivity. Qed.

Lemma length_filter_deleteFirst {D} (P q : D -> bool) (l : list D) (x : D) :
  find P l = Some x ->
  List.length (filter q l) =
  List.length (filter q (deleteFirst P l)) + (if q x then 1 else 0).
Proof.
  induction l as [| d r IH]; simpl; [discriminate |].
  destruct (P d) eqn:HP.
  - intros H. injection H as ->. destruct (q x); simpl; lia.
  - intros H. specialize (IH H). simpl. destruct (q d); simpl; lia.
Qed.

Lemma count_deleteFirst {D} (P q : D -> bool) (l : list D) (x : D) :
  find P l = Some x ->
  countDocuments q l =
  (countDocuments q (deleteFirst P l) + (if q x then 1 else 0))%Z.
Proof.
  intros H. unfold countDocuments.
  rewrite (length_filter_deleteFirst P q l x H), Nat2Z.inj_add.
  destruct (q x); reflexivity.
Qed.

Lemma count_snoc {D} (q : D -> bool) (l : list D) (x : D) :
  countDocuments q (l ++ [x]) = (countDocuments q l + (if q x then 1 else 0))%Z.
Proof.
  unfold countDocuments. rewrite filter_app, length_app, Nat2Z.inj_add. simpl.
  destruct (q x); reflexivity.
Qed.

(** X5. One toggle moves one count by one.  On a well-formed ledger
    [Like.toggleLike] of a user on an article changes what
    [Like.countLikesForArticle] reports for that article by exactly one,
    down when the user had a Like there and up when not, and leaves the
    count of every other article as it was. *)
Theorem toggleLike_moves_one_count (u a : ObjectId) (s : Store) :
  ledger_ok s ->
  exists r s',
    run (Like.toggleLike u a) s = (Resolved r, s') /\
    forall b,
      run (Like.countLikesForArticle b) s' =
      (Resolved (likes_of b s
                 + (if N.eqb a b then (if ledger_has u a s then -1 else 1) else 0))%Z,
       s').
Proof.
  intros Hok. destruct (toggleLike_run u a s Hok) as [r [s' [Hrun [_ [_ [Hl _]]]]]].
  exists r, s'. split; [exact Hrun |]. intros b.
  rewrite countLikesForArticle_run. f_equal. f_equal.
  unfold likes_of. rewrite Hl. unfold ledger_has. rewrite find_existsb.
  destruct (find (Like.matches u a) (likes s)) as [x |] eqn:Hf.
  - rewrite (count_deleteFirst (Like.matches u a) _ (likes s) x Hf).
    apply find_some in Hf. destruct Hf as [_ Hm].
    unfold Like.matches in Hm. apply andb_true_iff in Hm. destruct Hm as [_ Ha].
    apply N.eqb_eq in Ha. rewrite Ha.
    destruct (N.eqb a b); lia.
  - rewrite count_snoc. simpl. destruct (N.eqb a b); lia.
Qed.

Lemma toggleLike_moves_one_count_witness :
  ledger_ok liked_blog /\
  exists r s',
    run (Like.toggleLike 7 1) liked_blog = (Resolved r, s') /\
    forall b,
      run (Like.countLikesForArticle b) s' =
      (Resolved (likes_of b liked_blog
                 + (if N.eqb 1 b then (if ledger_has 7 1 liked_blog then -1 else 1) else 0))%Z,
       s').
Proof.
  split; [exact ledger_ok_liked_blog |].
  apply (toggleLike_moves_one_count 7 1 liked_blog). exact ledger_ok_liked_blog.
Defined.

Lemma NoDup_map_filter {D K} (key : D -> K) (q : D -> bool) (l : list D) :
  NoDup (map key l) -> NoDup (map key (filter q l)).
Proof.
  induction l as [| d r IH]; simpl; intros H; [constructor |].
  inversion H as [| ? ? Hd Hr]; subst.
  destruct (q d); simpl; [| apply IH; exact Hr].
  constructor; [| apply IH; exact Hr].
  intros Hin. apply Hd. apply in_map_iff in Hin. destruct Hin as [x [Hk Hx]].
  apply filter_In in Hx. apply in_map_iff. exists x. tauto.
Qed.

Lemma nodup_constant (u : N) (l : list N) :
  (forall x, In x l -> x = u) -> l <> [] -> List.length (nodup N.eq_dec l) = 1.
Proof.
  induction l as [| x r IH]; intros Hall Hne; [congruence |].
  simpl. destruct (in_dec N.eq_dec x r) as [Hin | Hnin].
  - apply IH.
    + intros y Hy. apply Hall. right. exact Hy.
    + intros ->. contradiction.
  - destruct r as [| y r']; [reflexivity |].
    exfalso. apply Hnin. left.
    rewrite (Hall x (or_introl eq_refl)). apply Hall. right. left. reflexivity.
Qed.

Lemma length_nodup_le (l : list N) :
  List.length (nodup N.eq_dec l) <= List.length l.
Proof.
  induction l as [| x r IH]; simpl; [lia |].
  destruct (in_dec N.eq_dec x r); simpl; lia.
Qed.

(** X6. What [Like.getLikeStats] counts.  It never writes.  Over the
    whole ledger [totalLikes] is the number of Likes, and neither the
    number of liked articles nor the number of liking users exceeds it;
    with no Like at all the three figures are zero.  For one user, on a
    ledger that holds no (user, article) pair twice, every Like of the user
    is on an article of its own, so [totalArticles] equals [totalLikes], and
    [totalUsers] is 1 as soon as the user has a Like. *)
Theorem getLikeStats_counts (s : Store) :
  NoDup (map like_pair (likes s)) ->
  (exists st,
      run (Like.getLikeStats None) s = (Resolved st, s) /\
      Like.totalLikes st = Z.of_nat (List.length (likes s)) /\
      (0 <= Like.totalArticles st <= Like.totalLikes st)%Z /\
      (0 <= Like.totalUsers st <= Like.totalLikes st)%Z) /\
  (forall u,
      exists st,
        run (Like.getLikeStats (Some u)) s = (Resolved st, s) /\
        Like.totalLikes st =
          countDocuments (fun l => N.eqb (LikeDoc.userId l) u) (likes s) /\
        Like.totalArticles st = Like.totalLikes st /\
        Like.totalUsers st = (if (Like.totalLikes st =? 0)%Z then 0 else 1)%Z).
Proof.
  intros Hp. split.
  - unfold Like.getLikeStats. rewrite run_await.
    destruct (likes s) as [| l r] eqn:El.
    + eexists. split; [reflexivity |]. simpl. repeat split; lia.
    + eexists. split; [reflexivity |]. cbn [Like.totalLikes Like.totalArticles Like.totalUsers].
      split; [reflexivity |].
      pose proof (length_nodup_le (map LikeDoc.articleId (l :: r))) as Ha.
      pose proof (length_nodup_le (map LikeDoc.userId (l :: r))) as Hu.
      rewrite length_map in Ha, Hu. lia.
  - intros u. unfold Like.getLikeStats. rewrite run_await. unfold countDocuments.
    set (docs := filter (fun l => N.eqb (LikeDoc.userId l) u) (likes s)).
    assert (forall x, In x docs -> LikeDoc.userId x = u) as Hu.
    { intros x Hx. apply filter_In in Hx. apply N.eqb_eq. tauto. }
    assert (NoDup (map LikeDoc.articleId docs)) as Ha.
    { pose proof (NoDup_map_filter like_pair
                    (fun l => N.eqb (LikeDoc.userId l) u) (likes s) Hp) as Hd.
      fold docs in Hd.
      apply (NoDup_map_inv (pair u)). rewrite map_map.
      erewrite map_ext_in; [exact Hd |].
      intros x Hx. unfold like_pair. rewrite (Hu x Hx). reflexivity. }
    destruct docs as [| l r] eqn:Ed.
    + eexists. split; [reflexivity |]. simpl. repeat split.
    + eexists. split; [reflexivity |].
      cbn [Like.totalLikes Like.totalArticles Like.totalUsers].
      split; [reflexivity |]. split.
      * rewrite (nodup_fixed_point N.eq_dec Ha), length_map. reflexivity.
      * rewrite (nodup_constant u).
        -- simpl. reflexivity.
        -- intros x Hx. apply in_map_iff in Hx. destruct Hx as [y [<- Hy]].
           apply Hu. exact Hy.
        -- simpl. discriminate.
Qed.

Lemma getLikeStats_counts_witness :
  NoDup (map like_pair (likes liked_blog)) /\
  exists st,
    run (Like.getLikeStats (Some 7%N)) liked_blog = (Resolved st, liked_blog) /\
    Like.totalLikes st =
      countDocuments (fun l => N.eqb (LikeDoc.userId l) 7) (likes liked_blog) /\
    Like.totalArticles st = Like.totalLikes st /\
    Like.totalUsers st = (if (Like.totalLikes st =? 0)%Z then 0 else 1)%Z.
Proof.
  split; [exact (pairs_unique ledger_ok_liked_blog) |].
  apply (getLikeStats_counts liked_blog
           (pairs_unique ledger_ok_liked_blog)).
Defined.

(** ** Comments *)

Ltac keeps_steps :=
  repeat first
    [ exact Logic.I
    | apply keeps_try_catch
    | apply keeps_bind
    | apply keeps_await; intros ? ?; assumption
    | intro
    | match goal with
      | |- keeps _ (match ?x with _ => _ end) => destruct x
      end ].

Lemma pre_save_likesCount (isNew : bool) (loaded this : CommentDoc.t) :
  CommentDoc.likesCount (Comment.pre_save isNew loaded this) = CommentDoc.likesCount this.
Proof.
  unfold Comment.pre_save.
  destruct (negb (String.eqb _ _) && negb isNew); reflexivity.
Qed.

Lemma recount_keeps_comments (I : Store -> Prop) (strict : bool) (doc : CommentDoc.t) :
  (forall l s, I s -> I (set_articles l s)) ->
  keeps I (Comment.recount_with strict doc).
Proof.
  intros HI. unfold Comment.recount_with. keeps_steps.
  apply keeps_await. intros s H. unfold Article.findByIdAndUpdate_with. simpl.
  apply HI. exact H.
Qed.

Lemma save_keeps_likes_nonneg (strict isNew : bool) (loaded this : CommentDoc.t) :
  keeps comment_likes_nonneg (Comment.save_with strict isNew loaded this).
Proof.
  unfold Comment.save_with.
  destruct (Comment.validate this) as [| e es] eqn:Hv; [| exact Logic.I].
  pose proof (validate_nil_likesCount this Hv) as Hn.
  rewrite <- (pre_save_likesCount isNew loaded this) in Hn.
  set (this' := Comment.pre_save isNew loaded this) in *.
  apply keeps_bind.
  - apply keeps_await. intros s H. destruct isNew.
    + unfold Comment.insertOne. simpl. intros c Hc.
      apply in_app_iff in Hc. destruct Hc as [Hc | [<- | []]]; [apply H; exact Hc |].
      simpl. exact Hn.
    + unfold Comment.updateOne.
      destruct (lookupId CommentDoc._id (CommentDoc._id this') (comments s));
        [| exact H].
      simpl. intros c Hc. apply In_updateById in Hc.
      destruct Hc as [Hc | [y [Hy [_ ->]]]]; [apply H; exact Hc |].
      simpl. unfold Comment.delta.
      destruct (Z.eqb _ _); [apply H; exact Hy | exact Hn].
  - intros saved. apply keeps_bind; [| intros; exact Logic.I].
    unfold Comment.post_save_with. apply recount_keeps_comments.
    intros l s H. exact H.
Qed.

Lemma comment_request_keeps_likes_nonneg (dev : bool) (q : CommentRequest) :
  keeps comment_likes_nonneg (comment_request dev q).
Proof.
  destruct q as [cid b | cid b | slug content pid author email user];
    unfold comment_request.
  - unfold commentController.toggleCommentLike,
      Comment.incrementLikes, Comment.decrementLikes, Comment.save.
    keeps_steps; apply save_keeps_likes_nonneg.
  - unfold commentController.moderateComment,
      Comment.approve, Comment.disapprove, Comment.save.
    keeps_steps; apply save_keeps_likes_nonneg.
  - unfold commentController.addComment, Comment.save.
    keeps_steps; apply save_keeps_likes_nonneg.
Qed.

(** X7. The like counter of a comment never goes below zero, whatever is
    in flight.  For any two requests among liking or unliking a comment,
    moderating one and adding one, and for any interleaving of their store
    operations, a store in which no comment has a negative [likesCount] is
    left as such a store: [save] validates the counter it is about to
    write, and writes the value itself, not a difference. *)
Theorem comment_likes_never_negative (dev : bool) (sched : list bool)
    (q1 q2 : CommentRequest) (s : Store) :
  comment_likes_nonneg s ->
  comment_likes_nonneg
    (snd (interleave sched (comment_request dev q1) (comment_request dev q2) s)).
Proof.
  intros H.
  apply keeps_interleave; [apply comment_request_keeps_likes_nonneg .. | exact H].
Qed.

Lemma comment_likes_nonneg_commented_blog : comment_likes_nonneg commented_blog.
Proof.
  intros c [<- | [<- | []]]; simpl; lia.
Qed.

Lemma comment_likes_never_negative_witness :
  comment_likes_nonneg commented_blog /\
  comment_likes_nonneg
    (snd (interleave [true; false]
            (comment_request false (LikeComment 50 decrement))
            (comment_request false (LikeComment 50 decrement))
            commented_blog)).
Proof.
  split; [exact comment_likes_nonneg_commented_blog |].
  apply (comment_likes_never_negative false [true; false]
           (LikeComment 50 decrement) (LikeComment 50 decrement) commented_blog).
  exact comment_likes_nonneg_commented_blog.
Defined.

(** *** Moderation *)

Lemma validate_with_isApproved (b : bool) (c : CommentDoc.t) :
  Comment.validate (Comment.with_isApproved b c) = Comment.validate c.
Proof. reflexivity. Qed.

Lemma applyDelta_with_isApproved (b : bool) (c : CommentDoc.t) :
  Comment.applyDelta c (Comment.with_isApproved b c) c = Comment.with_isApproved b c.
Proof.
  destruct c as [i a u au em co p ap n ed].
  unfold Comment.applyDelta, Comment.with_isApproved, Comment.delta. simpl.
  rewrite !String.eqb_refl, Z.eqb_refl, Bool.eqb_reflx.
  destruct ap, b; reflexivity.
Qed.

Lemma with_isApproved_self (c : CommentDoc.t) :
  Comment.with_isApproved (CommentDoc.isApproved c) c = c.
Proof. destruct c; reflexivity. Qed.

(** Saving a loaded comment whose [isApproved] alone was reassigned. *)
Lemma save_isApproved_run (cid : ObjectId) (c : CommentDoc.t) (b : bool) (s : Store) :
  lookupId CommentDoc._id cid (comments s) = Some c ->
  Comment.validate c = [] ->
  run (Comment.save false c (Comment.with_isApproved b c)) s =
  (Resolved (Comment.with_isApproved b c),
   set_comments (updateById CommentDoc._id cid (Comment.with_isApproved b) (comments s)) s).
Proof.
  intros Hl Hv. unfold Comment.save, Comment.save_with.
  rewrite validate_with_isApproved, Hv.
  assert (Comment.pre_save false c (Comment.with_isApproved b c)
          = Comment.with_isApproved b c) as ->.
  { unfold Comment.pre_save. simpl. rewrite String.eqb_refl. reflexivity. }
  pose proof (lookupId_In _ _ _ _ _ Hl) as [_ Hid].
  rewrite run_bind, run_await. unfold Comment.updateOne. cbv beta.
  change (CommentDoc._id (Comment.with_isApproved b c)) with (CommentDoc._id c).
  rewrite Hid, Hl. cbv beta iota. unfold Comment.post_save_with.
  rewrite run_bind, recount_strict_run. simpl.
  f_equal. f_equal. apply updateById_at with (c := c); [exact Hl |].
  apply applyDelta_with_isApproved.
Qed.

Lemma moderateComment_run (dev : bool) (cid : ObjectId)
    (body_action : option Js.Value) (s : Store) :
  run (commentController.moderateComment dev cid body_action) s =
  match lookupId CommentDoc._id cid (comments s) with
  | None =>
      (Resolved (mkResponse 404 false (Some "Comentario no encontrado") None NoData), s)
  | Some c =>
      match moderation_of body_action with
      | None => (Resolved commentController.invalid_moderation, s)
      | Some b =>
          match Comment.validate c with
          | [] =>
              (Resolved (moderated_ok cid b),
               set_comments
                 (updateById CommentDoc._id cid (Comment.with_isApproved b) (comments s)) s)
          | e :: es => (Resolved (internal_error dev (ValidationError (e :: es))), s)
          end
      end
  end.
Proof.
  unfold commentController.moderateComment.
  rewrite run_try_catch, run_bind, run_await. unfold Comment.findById. simpl.
  destruct (lookupId CommentDoc._id cid (comments s)) as [c |] eqn:Hl; [| reflexivity].
  pose proof (lookupId_In _ _ _ _ _ Hl) as [_ Hid].
  destruct body_action as [v |]; [| reflexivity].
  unfold moderation_of.
  destruct (Js.strict_eq_str v "approve") eqn:Ea.
  - rewrite !run_bind. unfold Comment.approve.
    destruct (Comment.validate c) as [| e es] eqn:Hv.
    + rewrite (save_isApproved_run cid c true s Hl Hv). simpl.
      unfold moderated_ok. rewrite Hid. reflexivity.
    + unfold Comment.save, Comment.save_with.
      rewrite validate_with_isApproved, Hv. reflexivity.
  - destruct (Js.strict_eq_str v "disapprove") eqn:Ed; [| reflexivity].
    rewrite !run_bind. unfold Comment.disapprove.
    destruct (Comment.validate c) as [| e es] eqn:Hv.
    + rewrite (save_isApproved_run cid c false s Hl Hv). simpl.
      unfold moderated_ok. rewrite Hid. reflexivity.
    + unfold Comment.save, Comment.save_with.
      rewrite validate_with_isApproved, Hv. reflexivity.
Qed.

Lemma lookupId_updateById_other {D} (id_of : D -> ObjectId) (i j : ObjectId)
    (f : D -> D) (l : list D) :
  (forall d, id_of (f d) = id_of d) -> i <> j ->
  lookupId id_of i (updateById id_of j f l) = lookupId id_of i l.
Proof.
  intros Hf Hij. unfold lookupId. induction l as [| d r IH]; [reflexivity |].
  change (updateById id_of j f (d :: r))
    with (if N.eqb (id_of d) j then f d :: r else d :: updateById id_of j f r).
  destruct (N.eqb (id_of d) j) eqn:Ej; cbn [find].
  - rewrite Hf. apply N.eqb_eq in Ej.
    destruct (N.eqb (id_of d) i) eqn:Ei; [| reflexivity].
    apply N.eqb_eq in Ei. congruence.
  - rewrite IH. reflexivity.
Qed.

Section Uncast.
Variable castObjectId : Js.Value -> option ObjectId.
Variable castErrorMessage : Js.Value -> string -> string.

(** X8. Moderation has no default action.  A [moderateComment] request
    whose [action] is missing, or is anything but the strings ["approve"]
    and ["disapprove"], changes nothing and is answered with
    [success: false]: 500 when the [commentId] of the path is no identifier
    (the query throws a CastError), 404 when it is one that no comment has,
    and 400 otherwise.  A [commentId] that is no identifier is answered 500
    whatever the action, by [moderateComment] and by [toggleCommentLike],
    and the store is left as it was. *)
Theorem moderation_has_no_default (dev : bool) (commentId : string)
    (body_action : option Js.Value) (s : Store) :
  (forall v, body_action = Some v ->
             Js.strict_eq_str v "approve" = false /\
             Js.strict_eq_str v "disapprove" = false) ->
  (exists r,
      run (uncast.moderateComment castObjectId castErrorMessage dev commentId
             body_action) s = (Resolved r, s) /\
      success r = false /\
      status r = match castObjectId (Js.Str commentId) with
                 | None => 500
                 | Some cid =>
                     match lookupId CommentDoc._id cid (comments s) with
                     | Some _ => 400
                     | None => 404
                     end
                 end) /\
  (castObjectId (Js.Str commentId) = None ->
   forall any_action,
     exists r,
       run (uncast.moderateComment castObjectId castErrorMessage dev commentId
              any_action) s = (Resolved r, s) /\
       run (uncast.toggleCommentLike castObjectId castErrorMessage dev commentId
              any_action) s = (Resolved r, s) /\
       success r = false /\ status r = 500).
Proof.
  intros H. split.
  - unfold uncast.moderateComment.
    destruct (castObjectId (Js.Str commentId)) as [cid |].
    + rewrite moderateComment_run.
      destruct (lookupId CommentDoc._id cid (comments s)) as [c |].
      * assert (moderation_of body_action = None) as ->.
        { destruct body_action as [v |]; [| reflexivity].
          destruct (H v eq_refl) as [Ha Hd]. unfold moderation_of. rewrite Ha, Hd.
          reflexivity. }
        eexists. split; [reflexivity |]. split; reflexivity.
      * eexists. split; [reflexivity |]. split; reflexivity.
    + eexists. split; [reflexivity |]. split; reflexivity.
  - intros Hc any_action.
    unfold uncast.moderateComment, uncast.toggleCommentLike. rewrite Hc.
    eexists. split; [reflexivity |]. split; [reflexivity |]. split; reflexivity.
Qed.
End Uncast.

Lemma moderation_has_no_default_witness :
  (forall v, @None Js.Value = Some v ->
             Js.strict_eq_str v "approve" = false /\
             Js.strict_eq_str v "disapprove" = false) /\
  sample_castObjectId (Js.Str "abc") = None /\
  sample_castObjectId (Js.Str "000000000000000000000032") = Some 50%N /\
  (exists r,
      run (uncast.moderateComment sample_castObjectId sample_castErrorMessage false
             "abc" None) commented_blog = (Resolved r, commented_blog) /\
      success r = false /\ status r = 500) /\
  (exists r,
      run (uncast.moderateComment sample_castObjectId sample_castErrorMessage false
             "000000000000000000000032" None) commented_blog
        = (Resolved r, commented_blog) /\
      success r = false /\ status r = 400).
Proof.
  assert (forall v, @None Js.Value = Some v ->
             Js.strict_eq_str v "approve" = false /\
             Js.strict_eq_str v "disapprove" = false) as H
    by (intros v E; discriminate E).
  split; [exact H |]. split; [reflexivity |]. split; [reflexivity |].
  split.
  - exact (proj1 (moderation_has_no_default sample_castObjectId sample_castErrorMessage
                    false "abc" None commented_blog H)).
  - exact (proj1 (moderation_has_no_default sample_castObjectId sample_castErrorMessage
                    false "000000000000000000000032" None commented_blog H)).
Defined.

(** X9. Moderation writes [isApproved] and nothing else.  For a stored
    comment that passes the validators of its schema, [approve] and
    [disapprove] are answered 200 with the new flag; afterwards the comment
    is what it was with [isApproved] set, every other comment, every
    article, user and Like is as before, and moderating a comment into the
    state it already has leaves the store unchanged. *)
Theorem moderation_sets_isApproved_only (dev : bool) (cid : ObjectId)
    (c : CommentDoc.t) (b : bool) (s : Store) :
  lookupId CommentDoc._id cid (comments s) = Some c ->
  Comment.validate c = [] ->
  exists s',
    run (commentController.moderateComment dev cid (if b then approve else disapprove)) s
      = (Resolved (moderated_ok cid b), s') /\
    lookupId CommentDoc._id cid (comments s') = Some (Comment.with_isApproved b c) /\
    (forall i, i <> cid ->
               lookupId CommentDoc._id i (comments s') = lookupId CommentDoc._id i (comments s)) /\
    articles s' = articles s /\ users s' = users s /\ likes s' = likes s /\
    nextId s' = nextId s /\
    (CommentDoc.isApproved c = b -> s' = s).
Proof.
  intros Hl Hv. rewrite moderateComment_run, Hl, Hv.
  assert (moderation_of (if b then approve else disapprove) = Some b) as ->
    by (destruct b; reflexivity).
  eexists. split; [reflexivity |]. simpl.
  split; [rewrite lookupId_updateById by reflexivity; rewrite Hl; reflexivity |].
  split; [intros i Hi; apply lookupId_updateById_other; [reflexivity | exact Hi] |].
  repeat (split; [reflexivity |]).
  intros Hb. rewrite (updateById_at _ CommentDoc._id cid _ (fun d => d) _ c Hl).
  - rewrite updateById_same by reflexivity. apply set_comments_same.
  - rewrite <- Hb. apply with_isApproved_self.
Qed.

Lemma moderation_sets_isApproved_only_witness :
  lookupId CommentDoc._id 50 (comments commented_blog) = Some approved_comment /\
  Comment.validate approved_comment = [] /\
  exists s',
    run (commentController.moderateComment false 50 disapprove) commented_blog
      = (Resolved (moderated_ok 50 false), s') /\
    lookupId CommentDoc._id 50 (comments s')
      = Some (Comment.with_isApproved false approved_comment).
Proof.
  split; [reflexivity |]. split; [reflexivity |].
  destruct (moderation_sets_isApproved_only false 50 approved_comment false
              commented_blog eq_refl eq_refl) as [s' [H1 [H2 _]]].
  exists s'. split; assumption.
Defined.

(** X10. Moderation guards the like endpoint.  After a stored, valid
    comment was disapproved, every like request on it, whatever its
    [action], is answered 403 and changes nothing.  Approving it again
    opens the endpoint: the next like is answered 200 with the counter one
    higher; and if the comment was approved to begin with, disapproving and
    approving it again leaves the store exactly as it was. *)
Theorem moderation_guards_comment_likes (dev : bool) (cid : ObjectId)
    (c : CommentDoc.t) (s : Store) :
  lookupId CommentDoc._id cid (comments s) = Some c ->
  Comment.validate c = [] ->
  let s1 := snd (run (commentController.moderateComment dev cid disapprove) s) in
  let s2 := snd (run (commentController.moderateComment dev cid approve) s1) in
  (forall body_action,
      exists r,
        run (commentController.toggleCommentLike dev cid body_action) s1
          = (Resolved r, s1) /\
        status r = 403 /\ success r = false) /\
  (exists s3,
      run (commentController.toggleCommentLike dev cid None) s2
        = (Resolved (comment_like_ok (Js.Str "increment") cid
                       (CommentDoc.likesCount c + 1)), s3)) /\
  (CommentDoc.isApproved c = true -> s2 = s).
Proof.
  intros Hl Hv s1 s2.
  assert (s1 = set_comments
                 (updateById CommentDoc._id cid (Comment.with_isApproved false)
                    (comments s)) s) as E1.
  { unfold s1. rewrite moderateComment_run, Hl, Hv. reflexivity. }
  assert (lookupId CommentDoc._id cid (comments s1)
          = Some (Comment.with_isApproved false c)) as Hl1.
  { rewrite E1. simpl. rewrite lookupId_updateById by reflexivity.
    rewrite Hl. reflexivity. }
  assert (s2 = set_comments
                 (updateById CommentDoc._id cid
                    (fun d => Comment.with_isApproved true (Comment.with_isApproved false d))
                    (comments s)) s) as E2.
  { unfold s2. rewrite moderateComment_run, Hl1, validate_with_isApproved, Hv.
    simpl. rewrite E1. simpl. rewrite set_comments_twice.
    rewrite updateById_compose by reflexivity. reflexivity. }
  assert (lookupId CommentDoc._id cid (comments s2)
          = Some (Comment.with_isApproved true c)) as Hl2.
  { rewrite E2. simpl. rewrite lookupId_updateById by reflexivity.
    rewrite Hl. reflexivity. }
  split; [| split].
  - intros body_action. unfold commentController.toggleCommentLike.
    rewrite run_try_catch, run_bind, run_await. unfold Comment.findById.
    cbv beta. rewrite Hl1. cbv beta iota.
    eexists. split; [reflexivity |]. split; reflexivity.
  - pose proof (validate_nil_likesCount c Hv) as Hn.
    assert (forall d, lookupId CommentDoc._id cid (comments s2) = Some d ->
                      (0 <= CommentDoc.likesCount d)%Z) as Hnn.
    { intros d Hd. rewrite Hl2 in Hd. injection Hd as <-. exact Hn. }
    pose proof (comment_toggleLike_run dev cid None s2 Hnn) as T.
    rewrite Hl2 in T. cbv zeta in T.
    change (Comment.validate (Comment.with_isApproved true c))
      with (Comment.validate c) in T.
    rewrite Hv in T. simpl in T. eexists. exact T.
  - intros Ha. rewrite E2.
    rewrite (updateById_at _ CommentDoc._id cid _ (fun d => d) _ c Hl).
    + rewrite updateById_same by reflexivity. apply set_comments_same.
    + clear - Ha. destruct c; simpl in *. rewrite Ha. reflexivity.
Qed.

Lemma moderation_guards_comment_likes_witness :
  lookupId CommentDoc._id 50 (comments commented_blog) = Some approved_comment /\
  Comment.validate approved_comment = [] /\
  let s1 := snd (run (commentController.moderateComment false 50 disapprove)
                   commented_blog) in
  forall body_action,
    exists r,
      run (commentController.toggleCommentLike false 50 body_action) s1
        = (Resolved r, s1) /\
      status r = 403 /\ success r = false.
Proof.
  split; [reflexivity |]. split; [reflexivity |].
  exact (proj1 (moderation_guards_comment_likes false 50 approved_comment
                  commented_blog eq_refl eq_refl)).
Defined.

(** *** Edits *)



(** *** New comments *)

Lemma save_new_comment_run (this : CommentDoc.t) (s : Store) :
  run (Comment.save true this this) s =
  match Comment.validate this with
  | [] => (Resolved (Comment.with_id (nextId s) this),
           bump_nextId (set_comments (comments s ++ [Comment.with_id (nextId s) this]) s))
  | e :: es => (Rejected (ValidationError (e :: es)), s)
  end.
Proof.
  unfold Comment.save, Comment.save_with.
  destruct (Comment.validate this) as [| e es]; [| reflexivity].
  assert (Comment.pre_save true this this = this) as ->.
  { unfold Comment.pre_save. rewrite andb_false_r. reflexivity. }
  rewrite run_bind, run_await. unfold Comment.insertOne. cbv beta iota zeta.
  unfold Comment.post_save_with. rewrite run_bind, recount_strict_run. reflexivity.
Qed.

Lemma addComment_effect (dev : bool) (slug content : string)
    (pid : option ObjectId) (author email : string) (user : option UserDoc.t)
    (s : Store) :
  exists r s',
    run (commentController.addComment dev slug content pid author email user) s
      = (Resolved r, s') /\
    ((status r <> 201 /\ s' = s) \/
     (status r = 201 /\
      exists a c,
        find (Article.slug_query slug true) (articles s) = Some a /\
        c = Comment.with_id (nextId s)
              (match user with
               | Some u =>
                   commentController.new_Comment (ArticleDoc._id a)
                     (Some (UserDoc._id u)) (UserDoc.name u) (UserDoc.email u)
                     (Js.trim content) pid
               | None =>
                   commentController.new_Comment (ArticleDoc._id a) None
                     (Js.trim author) (Js.trim (Js.toLowerCase email))
                     (Js.trim content) pid
               end) /\
        Comment.validate c = [] /\
        s' = bump_nextId (set_comments (comments s ++ [c]) s))).
Proof.
  unfold commentController.addComment. rewrite run_try_catch.
  destruct (String.eqb content "").
  { simpl. eexists. eexists. split; [reflexivity |]. left. split; [discriminate | reflexivity]. }
  rewrite run_bind, run_await. unfold Article.findOne. cbv beta.
  destruct (find (Article.slug_query slug true) (articles s)) as [a |] eqn:Hf.
  2:{ simpl. eexists. eexists. split; [reflexivity |]. left.
      split; [discriminate | reflexivity]. }
  cbv beta iota. rewrite run_bind.
  assert (exists b,
             run match pid with
                 | Some pid0 =>
                     (parentComment <-
                        await (Comment.findOne_parent pid0 (ArticleDoc._id a)) ;;
                      Return match parentComment with Some _ => true | None => false end)%proc
                 | None => Return true
                 end s = (Resolved b, s)) as [b ->].
  { destruct pid as [p |]; [| exists true; reflexivity].
    rewrite run_bind, run_await. unfold Comment.findOne_parent. cbv beta iota.
    eexists. reflexivity. }
  destruct b; cbv beta iota.
  2:{ simpl. eexists. eexists. split; [reflexivity |]. left.
      split; [discriminate | reflexivity]. }
  change (negb true) with false. cbv iota.
  destruct user as [u |].
  - cbv beta iota zeta. rewrite run_bind, save_new_comment_run.
    set (NC := commentController.new_Comment (ArticleDoc._id a)
                 (Some (UserDoc._id u)) (UserDoc.name u) (UserDoc.email u)
                 (Js.trim content) pid).
    destruct (Comment.validate NC) as [| e es] eqn:Hv.
    + rewrite run_bind, run_await. unfold Article.findById. cbv beta iota.
      rewrite run_bind.
      match goal with
      | |- context [run ?P ?S] =>
          assert (exists pu, run P S = (Resolved pu, S)) as [pu ->]
      end.
      { destruct (CommentDoc.userId (Comment.with_id (nextId s) NC));
          [rewrite run_await |]; eexists; reflexivity. }
      cbv beta iota. simpl run.
      eexists. eexists. split; [reflexivity |]. right. split; [reflexivity |].
      exists a. eexists. split; [reflexivity |]. split; [reflexivity |].
      split; [exact Hv | reflexivity].
    + simpl. eexists. eexists. split; [reflexivity |]. left.
      split; [discriminate | reflexivity].
  - destruct (String.eqb author "" || String.eqb email "").
    { simpl. eexists. eexists. split; [reflexivity |]. left.
      split; [discriminate | reflexivity]. }
    destruct (negb (Js.test Js.emailRegex email)).
    { simpl. eexists. eexists. split; [reflexivity |]. left.
      split; [discriminate | reflexivity]. }
    cbv beta iota zeta. rewrite run_bind, save_new_comment_run.
    set (NC := commentController.new_Comment (ArticleDoc._id a) None
                 (Js.trim author) (Js.trim (Js.toLowerCase email))
                 (Js.trim content) pid).
    destruct (Comment.validate NC) as [| e es] eqn:Hv.
    + rewrite run_bind, run_await. unfold Article.findById. cbv beta iota.
      rewrite run_bind.
      match goal with
      | |- context [run ?P ?S] =>
          assert (exists pu, run P S = (Resolved pu, S)) as [pu ->]
      end.
      { destruct (CommentDoc.userId (Comment.with_id (nextId s) NC));
          [rewrite run_await |]; eexists; reflexivity. }
      cbv beta iota. simpl run.
      eexists. eexists. split; [reflexivity |]. right. split; [reflexivity |].
      exists a. eexists. split; [reflexivity |]. split; [reflexivity |].
      split; [exact Hv | reflexivity].
    + simpl. eexists. eexists. split; [reflexivity |]. left.
      split; [discriminate | reflexivity].
Qed.

Lemma post_comment_run (jwt_verify : string -> option ObjectId) (dev : bool)
    (authHeader : option string) (slug content : string) (pid : option ObjectId)
    (author email : string) (s : Store) :
  run (commentRoutes.post_comment jwt_verify dev authHeader slug content pid author email) s
  = run (commentController.addComment dev slug content pid author email
           (authenticated jwt_verify authHeader s)) s.
Proof.
  unfold commentRoutes.post_comment. rewrite run_bind, optionalAuth_run. reflexivity.
Qed.

(** X12. A comment request stores one comment or nothing.  Whatever the
    caller sends to [POST /articles/:slug/comments], the request is
    answered; unless the answer is 201 the store is left as it was, and
    with a 201 exactly one comment was appended and nothing else changed:
    the comment has the next fresh identifier, belongs to the published
    article the slug names, keeps the requested parent, is approved, has no
    likes, is not marked edited, and passes the validators of its schema. *)
Theorem comment_request_stores_one_or_nothing
    (jwt_verify : string -> option ObjectId) (dev : bool)
    (authHeader : option string) (slug content : string) (pid : option ObjectId)
    (author email : string) (s : Store) :
  exists r s',
    run (commentRoutes.post_comment jwt_verify dev authHeader slug content pid
           author email) s = (Resolved r, s') /\
    ((status r <> 201 /\ s' = s) \/
     (status r = 201 /\
      exists a c,
        fst (Article.findOne slug true s) = Resolved (Some a) /\
        comments s' = comments s ++ [c] /\
        CommentDoc._id c = nextId s /\
        CommentDoc.articleId c = ArticleDoc._id a /\
        CommentDoc.parentCommentId c = pid /\
        CommentDoc.isApproved c = true /\
        CommentDoc.likesCount c = 0%Z /\
        CommentDoc.isEdited c = false /\
        CommentDoc.content c = Js.trim (Js.trim content) /\
        Comment.validate c = [] /\
        articles s' = articles s /\ users s' = users s /\ likes s' = likes s /\
        nextId s' = N.succ (nextId s))).
Proof.
  rewrite post_comment_run.
  destruct (addComment_effect dev slug content pid author email
              (authenticated jwt_verify authHeader s) s)
    as [r [s' [Hrun [[Hst Hs] | [Hst [a [c [Hf [Hc [Hv Hs]]]]]]]]]].
  - exists r, s'. split; [exact Hrun |]. left. split; assumption.
  - exists r, s'. split; [exact Hrun |]. right. split; [exact Hst |].
    exists a, c. unfold Article.findOne. simpl. rewrite Hf.
    split; [reflexivity |]. rewrite Hs. simpl.
    split; [reflexivity |].
    rewrite Hc in *.
    destruct (authenticated jwt_verify authHeader s);
      repeat (split; [reflexivity |]); (split; [exact Hv |]);
      repeat split; reflexivity.
Qed.

(** X13. A comment carries the identity of its caller.  When a comment
    request is answered 201, the stored comment is bound to the account the
    bearer token authenticates and takes its author name and address from
    that account, whatever [author] and [email] the body holds; a caller
    without a token, with a token that does not verify, or with the token
    of an unknown or disabled account is stored as an anonymous commenter
    with the body's [author] and [email], trimmed and lower-cased. *)
Theorem comment_carries_caller_identity
    (jwt_verify : string -> option ObjectId) (dev : bool)
    (authHeader : option string) (slug content : string) (pid : option ObjectId)
    (author email : string) (s s' : Store) (r : Response) :
  run (commentRoutes.post_comment jwt_verify dev authHeader slug content pid
         author email) s = (Resolved r, s') ->
  status r = 201 ->
  exists c,
    comments s' = comments s ++ [c] /\
    match authenticated jwt_verify authHeader s with
    | Some u =>
        CommentDoc.userId c = Some (UserDoc._id u) /\
        CommentDoc.author c = Js.trim (UserDoc.name u) /\
        CommentDoc.email c = Js.trim (Js.toLowerCase (UserDoc.email u))
    | None =>
        CommentDoc.userId c = None /\
        CommentDoc.author c = Js.trim (Js.trim author) /\
        CommentDoc.email c = Js.trim (Js.toLowerCase (Js.trim (Js.toLowerCase email)))
    end.
Proof.
  rewrite post_comment_run. intros Hrun Hst.
  destruct (addComment_effect dev slug content pid author email
              (authenticated jwt_verify authHeader s) s)
    as [r0 [s0 [Hrun0 [[Hst0 Hs] | [_ [a [c [Hf [Hc [Hv Hs]]]]]]]]]];
    rewrite Hrun0 in Hrun; injection Hrun as -> ->.
  - contradiction.
  - exists c. rewrite Hs. simpl. split; [reflexivity |]. rewrite Hc.
    destruct (authenticated jwt_verify authHeader s); repeat split; reflexivity.
Qed.

Lemma comment_carries_caller_identity_witness :
  exists r s' c,
    run (commentRoutes.post_comment sample_verify false (Some "Bearer token-de-ana")
           "test-slug" "Un comentario de Ana" None "Otro nombre" "otro@x.com")
      commented_blog = (Resolved r, s') /\
    status r = 201 /\
    comments s' = comments commented_blog ++ [c] /\
    CommentDoc.userId c = Some 7%N /\
    CommentDoc.author c = "Ana" /\
    CommentDoc.email c = "ana@x.com".
Proof.
  eexists. eexists.
  destruct (comment_carries_caller_identity sample_verify false
              (Some "Bearer token-de-ana") "test-slug" "Un comentario de Ana" None
              "Otro nombre" "otro@x.com" commented_blog _ _ eq_refl eq_refl)
    as [c [Hc [Hu [Ha He]]]].
  exists c. split; [reflexivity |]. split; [reflexivity |].
  split; [exact Hc |]. split; [exact Hu |]. split; [exact Ha | exact He].
Defined.

(** ** Authentication *)

(** X14. The two authentication middlewares know the same callers.
    [authenticateToken] never writes and always answers: it hands on a user
    exactly when the bearer token verifies and names a stored, active
    account, the same user [optionalAuth] leaves in [req.user]; every other
    caller is turned away with [success: false] and 401, or 500 when
    [jwt.verify] fails with an error that is neither [JsonWebTokenError] nor
    [TokenExpiredError], where [optionalAuth] lets the request through with
    no user. *)
Theorem authenticateToken_agrees_with_optionalAuth
    (verify : string -> auth.JwtError + ObjectId) (authHeader : option string)
    (s : Store) :
  exists x,
    run (auth.authenticateToken verify authHeader) s = (Resolved x, s) /\
    run (auth.optionalAuth (verified verify) authHeader) s =
      (Resolved (match x with inr u => Some u | inl _ => None end), s) /\
    match authenticated (verified verify) authHeader s with
    | Some u => x = inr u
    | None =>
        exists r, x = inl r /\ success r = false /\
                  status r = match auth.bearer_token authHeader with
                             | Some token =>
                                 match verify token with
                                 | inl auth.OtherError => 500
                                 | _ => 401
                                 end
                             | None => 401
                             end
    end.
Proof.
  rewrite optionalAuth_run.
  unfold auth.authenticateToken, authenticated, verified.
  destruct (auth.bearer_token authHeader) as [token |].
  2:{ eexists. split; [reflexivity |]. split; [reflexivity |].
      eexists. split; [reflexivity |]. split; reflexivity. }
  destruct (verify token) as [[| |] | uid].
  1-3: eexists; (split; [reflexivity |]); (split; [reflexivity |]);
       eexists; (split; [reflexivity |]); split; reflexivity.
  simpl. destruct (lookupId UserDoc._id uid (users s)) as [u |].
  2:{ eexists. split; [reflexivity |]. split; [reflexivity |].
      eexists. split; [reflexivity |]. split; reflexivity. }
  simpl. destruct (UserDoc.isActive u); simpl.
  - eexists. split; [reflexivity |]. split; reflexivity.
  - eexists. split; [reflexivity |]. split; [reflexivity |].
    eexists. split; [reflexivity |]. split; reflexivity.
Qed.

(** X15. [verifyToken] and the middleware agree.  For the token a header
    carries, [verifyToken] never writes and reports [valid: true] exactly
    when the caller is authenticated, with the same user and the payload of
    the token; for every other token it reports [valid: false]. *)
Theorem verifyToken_agrees_with_middleware (verify : string -> auth.JwtError + ObjectId)
    (error_message : auth.JwtError -> string) (authHeader : option string)
    (token : string) (s : Store) :
  auth.bearer_token authHeader = Some token ->
  exists y,
    run (auth.verifyToken verify error_message token) s = (Resolved y, s) /\
    match authenticated (verified verify) authHeader s, y with
    | Some u, inr (u', userId) => u' = u /\ verify token = inr userId
    | None, inl _ => True
    | _, _ => False
    end.
Proof.
  intros Hb. unfold auth.verifyToken, authenticated, verified. rewrite Hb.
  destruct (verify token) as [e | uid].
  - eexists. split; [reflexivity | exact Logic.I].
  - simpl. destruct (lookupId UserDoc._id uid (users s)) as [u |].
    + simpl. destruct (UserDoc.isActive u); simpl;
        eexists; (split; [reflexivity |]); [split; reflexivity | exact Logic.I].
    + eexists. split; [reflexivity | exact Logic.I].
Qed.

Lemma verifyToken_agrees_with_middleware_witness :
  auth.bearer_token (Some "Bearer token-de-ana") = Some "token-de-ana" /\
  exists y,
    run (auth.verifyToken sample_jwt_verify (fun _ => "jwt malformed") "token-de-ana")
      blog_with_accounts = (Resolved y, blog_with_accounts) /\
    match authenticated (verified sample_jwt_verify) (Some "Bearer token-de-ana")
            blog_with_accounts, y with
    | Some u, inr (u', userId) => u' = u /\ sample_jwt_verify "token-de-ana" = inr userId
    | None, inl _ => True
    | _, _ => False
    end.
Proof.
  split; [reflexivity |].
  apply (verifyToken_agrees_with_middleware sample_jwt_verify
           (fun _ => "jwt malformed") (Some "Bearer token-de-ana") "token-de-ana"
           blog_with_accounts).
  reflexivity.
Defined.

(** *** Ownership *)

Lemma hex_value_digit (d : N) :
  (d < 16)%N -> Js.hex_value (Js.hex_digit d) = d.
Proof.
  intros H.
  assert (exists n, n < 16 /\ d = N.of_nat n) as [n [Hn ->]].
  { exists (N.to_nat d). split; [lia | rewrite N2Nat.id; reflexivity]. }
  clear H. do 16 (destruct n as [| n]; [reflexivity |]). lia.
Qed.

Lemma hex_onto_digits (n : nat) (v : N) (acc : string) (x : N) :
  Js.hex_onto (Js.hex_digits n v acc) x =
  Js.hex_onto acc (x * 16 ^ N.of_nat n + v mod 16 ^ N.of_nat n)%N.
Proof.
  revert v acc x. induction n as [| n IH]; intros v acc x.
  - simpl. rewrite N.mod_1_r. f_equal. lia.
  - cbn [Js.hex_digits]. rewrite IH. cbn [Js.hex_onto].
    rewrite hex_value_digit by (apply N.mod_upper_bound; discriminate).
    f_equal. rewrite Nat2N.inj_succ, N.pow_succ_r'.
    rewrite (N.Div0.mod_mul_r v 16). lia.
Qed.

Lemma castObjectId_toString (i : ObjectId) :
  (i < 2 ^ 96)%N -> Js.castObjectId (Js.objectIdToString i) = i.
Proof.
  intros H. unfold Js.castObjectId, Js.objectIdToString.
  rewrite hex_onto_digits. cbn [Js.hex_onto].
  change (16 ^ N.of_nat 24)%N with (2 ^ 96)%N.
  rewrite N.mod_small by exact H. lia.
Qed.

Lemma length_hex_digits (n : nat) (v : N) (acc : string) :
  String.length (Js.hex_digits n v acc) = n + String.length acc.
Proof.
  revert v acc. induction n as [| n IH]; intros v acc; [reflexivity |].
  cbn [Js.hex_digits]. rewrite IH. simpl. lia.
Qed.

Lemma objectIdToString_not_empty (i : ObjectId) :
  String.eqb (Js.objectIdToString i) "" = false.
Proof.
  apply String.eqb_neq. intros H.
  apply (f_equal String.length) in H. unfold Js.objectIdToString in H.
  rewrite length_hex_digits in H. discriminate H.
Qed.

(** X16. Ownership is the caller's own identifier.  [requireOwnership]
    turns away a request without a user (401) and lets every admin
    through.  Any other user passes exactly when the resource identifier,
    the path parameter or, when that is missing or empty, the body field,
    is the 24-digit hexadecimal text of their own [_id]: the text of
    another identifier is answered 403, a path parameter that is there
    hides the body field, and a parameter that passes casts back to the
    caller's [_id]. *)
Theorem ownership_is_the_callers_own_id (u : UserDoc.t) (body : option Js.Value) :
  UserDoc.role u <> "admin" ->
  (UserDoc._id u < 2 ^ 96)%N ->
  (forall i, (i < 2 ^ 96)%N ->
     (auth.requireOwnership (Some (Js.objectIdToString i)) body (Some u) = None
      <-> i = UserDoc._id u) /\
     (i <> UserDoc._id u ->
      auth.requireOwnership (Some (Js.objectIdToString i)) body (Some u)
      = Some (auth.forbidden "Solo puedes acceder a tus propios recursos"))) /\
  (forall p, p <> "" ->
     auth.requireOwnership (Some p) body (Some u) = None ->
     Js.castObjectId p = UserDoc._id u) /\
  (forall param, param = None \/ param = Some "" ->
     (auth.requireOwnership param body (Some u) = None
      <-> body = Some (Js.Str (Js.objectIdToString (UserDoc._id u))))) /\
  (forall param admin, UserDoc.role admin = "admin" ->
     auth.requireOwnership param body (Some admin) = None) /\
  (forall param, auth.requireOwnership param body None = Some auth.authentication_required).
Proof.
  intros Hrole Hu.
  assert (String.eqb (UserDoc.role u) "admin" = false) as Hr
    by (apply String.eqb_neq; exact Hrole).
  split; [| split; [| split; [| split]]].
  - intros i Hi.
    assert (String.eqb (Js.objectIdToString i) (Js.objectIdToString (UserDoc._id u)) = true
            <-> i = UserDoc._id u) as Heq.
    { rewrite String.eqb_eq. split; [| intros ->; reflexivity].
      intros H. apply (f_equal Js.castObjectId) in H.
      rewrite !castObjectId_toString in H by assumption. exact H. }
    unfold auth.requireOwnership. rewrite Hr, objectIdToString_not_empty.
    cbn [Js.strict_eq_str].
    destruct (String.eqb (Js.objectIdToString i) (Js.objectIdToString (UserDoc._id u)));
      simpl; split.
    + split; [intros _; apply Heq; reflexivity | reflexivity].
    + intros Hne. exfalso. apply Hne. apply Heq. reflexivity.
    + split; [discriminate |]. intros H. apply Heq in H. discriminate H.
    + reflexivity.
  - intros p Hp. unfold auth.requireOwnership. rewrite Hr.
    apply String.eqb_neq in Hp. rewrite Hp. cbn [Js.strict_eq_str].
    destruct (String.eqb p (Js.objectIdToString (UserDoc._id u))) eqn:E;
      simpl; [| discriminate].
    intros _. apply String.eqb_eq in E. rewrite E.
    apply castObjectId_toString. exact Hu.
  - intros param Hparam. unfold auth.requireOwnership. rewrite Hr.
    assert (match param with
            | Some p => if String.eqb p "" then body else Some (Js.Str p)
            | None => body
            end = body) as -> by (destruct Hparam as [-> | ->]; reflexivity).
    destruct body as [[| b | z | t |] |]; simpl; try (split; discriminate).
    destruct (String.eqb t (Js.objectIdToString (UserDoc._id u))) eqn:E; simpl.
    + apply String.eqb_eq in E. rewrite E. split; reflexivity.
    + apply String.eqb_neq in E. split; [discriminate |].
      intros H. injection H as H. contradiction.
  - intros param admin Ha. unfold auth.requireOwnership. rewrite Ha. reflexivity.
  - reflexivity.
Qed.

Lemma ownership_is_the_callers_own_id_witness :
  UserDoc.role ana <> "admin" /\
  (UserDoc._id ana < 2 ^ 96)%N /\
  auth.requireOwnership (Some "000000000000000000000007") None (Some ana) = None /\
  auth.requireOwnership (Some "000000000000000000000008")
    (Some (Js.Str "000000000000000000000007")) (Some ana)
  = Some (auth.forbidden "Solo puedes acceder a tus propios recursos").
Proof.
  split; [discriminate |]. split; [reflexivity |].
  pose proof (ownership_is_the_callers_own_id ana None
                ltac:(discriminate) eq_refl) as [H _].
  pose proof (ownership_is_the_callers_own_id ana
                (Some (Js.Str "000000000000000000000007"))
                ltac:(discriminate) eq_refl) as [H' _].
  split.
  - apply (proj1 (H 7%N eq_refl)). reflexivity.
  - apply (proj2 (H' 8%N eq_refl)). discriminate.
Defined.

(** ** Registration *)

Section RaceFacts.
Variable E : string.

Lemma fresh_lost (p : Proc authController.Reply) : fresh E p -> lost E p.
Proof.
  destruct p as [r | e | A op k]; simpl; auto.
  intros H s Hs. apply (proj1 (H s)). exact Hs.
Qed.

Lemma lost_holds (p : Proc authController.Reply) : lost E p -> holds E p.
Proof.
  induction p as [r | e | A op k IH]; simpl; auto.
  intros H s Hs. destruct (H s Hs) as [H1 H2]. split; [exact H1 | apply IH; exact H2].
Qed.

Lemma lost_step (p : Proc authController.Reply) (s : Store) :
  lost E p -> has_email E s = true ->
  lost E (fst (step p s)) /\ has_email E (snd (step p s)) = true.
Proof.
  destruct p as [r | e | A op k]; simpl; intros H Hs; try (split; assumption).
  destruct (H s Hs) as [H1 H2]. destruct (op s) as [o s']. split; assumption.
Qed.

Lemma holds_step (p : Proc authController.Reply) (s : Store) :
  holds E p -> has_email E s = true ->
  holds E (fst (step p s)) /\ has_email E (snd (step p s)) = true.
Proof.
  destruct p as [r | e | A op k]; simpl; intros H Hs; try (split; assumption).
  destruct (H s Hs) as [H1 H2]. destruct (op s) as [o s']. split; assumption.
Qed.

Lemma lost_run (p : Proc authController.Reply) (s : Store) :
  lost E p -> has_email E s = true ->
  registered (fst (run p s)) = false /\ has_email E (snd (run p s)) = true.
Proof.
  revert s. induction p as [r | e | A op k IH]; simpl; intros s H Hs.
  - split; assumption.
  - split; [reflexivity | exact Hs].
  - destruct (H s Hs) as [H1 H2]. destruct (op s) as [o s']. apply IH; assumption.
Qed.

Lemma holds_run (p : Proc authController.Reply) (s : Store) :
  holds E p -> has_email E s = true -> has_email E (snd (run p s)) = true.
Proof.
  revert s. induction p as [r | e | A op k IH]; simpl; intros s H Hs; try assumption.
  destruct (H s Hs) as [H1 H2]. destruct (op s) as [o s']. apply IH; assumption.
Qed.

Lemma fresh_run (p : Proc authController.Reply) (s : Store) :
  fresh E p -> has_email E s = false ->
  registered (fst (run p s)) = false \/ has_email E (snd (run p s)) = true.
Proof.
  revert s. induction p as [r | e | A op k IH]; simpl; intros s H Hs.
  - left. exact H.
  - left. reflexivity.
  - destruct (H s) as [_ H2]. specialize (H2 Hs).
    destruct (op s) as [o s']. simpl in H2.
    destruct H2 as [[Hs' Hf] | [Hs' Hh]].
    + apply IH; assumption.
    + right. apply holds_run; assumption.
Qed.

Lemma race_interleave (sched : list bool) (p1 p2 : Proc authController.Reply)
    (s : Store) :
  race_inv E p1 p2 s ->
  registered (fst (fst (interleave sched p1 p2 s)))
  && registered (snd (fst (interleave sched p1 p2 s))) = false.
Proof.
  revert p1 p2 s. induction sched as [| b t IH]; intros p1 p2 s Hinv.
  - simpl. destruct Hinv as [[Hs [H1 H2]] | [[Hs [H1 H2]] | [Hs [H1 H2]]]].
    + pose proof (fresh_run p1 s H1 Hs) as Hr.
      destruct (run p1 s) as [o1 s1]. simpl in Hr.
      destruct (has_email E s1) eqn:Hs1.
      * pose proof (lost_run p2 s1 (fresh_lost p2 H2) Hs1) as [Hr2 _].
        destruct (run p2 s1) as [o2 s2]. simpl in *. rewrite Hr2. apply andb_false_r.
      * destruct Hr as [Hr | Hr]; [| discriminate].
        destruct (run p2 s1) as [o2 s2]. simpl. rewrite Hr. reflexivity.
    + pose proof (lost_run p1 s H1 Hs) as [Hr _].
      destruct (run p1 s) as [o1 s1]. destruct (run p2 s1) as [o2 s2].
      simpl in *. rewrite Hr. reflexivity.
    + pose proof (holds_run p1 s H1 Hs) as Hs1.
      destruct (run p1 s) as [o1 s1]. simpl in Hs1.
      pose proof (lost_run p2 s1 H2 Hs1) as [Hr _].
      destruct (run p2 s1) as [o2 s2]. simpl in *. rewrite Hr. apply andb_false_r.
  - destruct b; simpl.
    + assert (race_inv E (fst (step p1 s)) p2 (snd (step p1 s))) as Hinv'.
      { destruct Hinv as [[Hs [H1 H2]] | [[Hs [H1 H2]] | [Hs [H1 H2]]]].
        - destruct p1 as [r | e | A op k]; simpl.
          + left. auto.
          + left. auto.
          + simpl in H1. destruct (H1 s) as [_ H1']. specialize (H1' Hs).
            destruct (op s) as [o s']. simpl in *.
            destruct H1' as [[Hs' Hf] | [Hs' Hh]].
            * left. auto.
            * right. right. split; [exact Hs' |]. split; [exact Hh |].
              apply fresh_lost. exact H2.
        - destruct (lost_step p1 s H1 Hs) as [H1' Hs']. right. left. auto.
        - destruct (holds_step p1 s H1 Hs) as [H1' Hs']. right. right. auto. }
      destruct (step p1 s) as [p1' s']. apply IH. exact Hinv'.
    + assert (race_inv E p1 (fst (step p2 s)) (snd (step p2 s))) as Hinv'.
      { destruct Hinv as [[Hs [H1 H2]] | [[Hs [H1 H2]] | [Hs [H1 H2]]]].
        - destruct p2 as [r | e | A op k]; simpl.
          + left. auto.
          + left. auto.
          + simpl in H2. destruct (H2 s) as [_ H2']. specialize (H2' Hs).
            destruct (op s) as [o s']. simpl in *.
            destruct H2' as [[Hs' Hf] | [Hs' Hh]].
            * left. auto.
            * right. left. split; [exact Hs' |]. split; [| exact Hh].
              apply fresh_lost. exact H1.
        - destruct (holds_step p2 s H2 Hs) as [H2' Hs']. right. left. auto.
        - destruct (lost_step p2 s H2 Hs) as [H2' Hs']. right. right. auto. }
      destruct (step p2 s) as [p2' s']. apply IH. exact Hinv'.
Qed.
End RaceFacts.

Lemma has_email_set_users_map (e : string) (l : list UserDoc.t) (s : Store) :
  map UserDoc.email l = map UserDoc.email (users s) ->
  has_email e (set_users l s) = has_email e s.
Proof.
  intros H. unfold has_email. simpl.
  rewrite <- (map_id l) at 1.
  transitivity (existsb (fun x => String.eqb x e) (map UserDoc.email l)).
  - rewrite map_id. clear H. induction l as [| u r IH]; simpl; [reflexivity |].
    rewrite IH. reflexivity.
  - rewrite H. generalize (users s). intros r.
    induction r as [| u r IH]; simpl; [reflexivity |]. rewrite IH. reflexivity.
Qed.

Lemma map_email_updateById (i : ObjectId) (now : N) (l : list UserDoc.t) :
  map UserDoc.email (updateById UserDoc._id i (User.with_lastLogin now) l)
  = map UserDoc.email l.
Proof.
  induction l as [| u r IH]; [reflexivity |].
  change (updateById UserDoc._id i (User.with_lastLogin now) (u :: r))
    with (if N.eqb (UserDoc._id u) i then User.with_lastLogin now u :: r
          else u :: updateById UserDoc._id i (User.with_lastLogin now) r).
  destruct (N.eqb (UserDoc._id u) i); simpl; [reflexivity |]. rewrite IH. reflexivity.
Qed.

Section RegisterFacts.
Variable bcrypt_hash : string -> string -> string.
Variable generateToken : UserDoc.t -> string.

Lemma register_fresh (errors : list string) (name email password salt : string)
    (now : N) :
  fresh (registered_email email)
    (authController.register bcrypt_hash generateToken errors name email password
       salt now).
Proof.
  unfold authController.register.
  destruct errors as [| e es]; [| reflexivity].
  set (E := registered_email email).
  set (NU := User.new_User (Js.trim name) (Js.trim (Js.toLowerCase email)) password).
  simpl. intros s. split.
  - intros Hs. split; [exact Hs |].
    destruct (find _ (users s)); [reflexivity |].
    unfold User.save_new. destruct (User.validate NU); [| reflexivity].
    simpl. intros s1 Hs1. change (existsb _ (users s1)) with (has_email E s1).
    rewrite Hs1. split; [exact Hs1 | reflexivity].
  - intros Hs. left. split; [exact Hs |].
    destruct (find _ (users s)); [reflexivity |].
    unfold User.save_new. destruct (User.validate NU); [| reflexivity].
    simpl. intros s1. change (existsb _ (users s1)) with (has_email E s1). split.
    + intros Hs1. rewrite Hs1. split; [exact Hs1 | reflexivity].
    + intros Hs1. rewrite Hs1. right. split.
      * unfold has_email. simpl. rewrite existsb_app. simpl.
        change (Js.trim (Js.toLowerCase (Js.trim (Js.toLowerCase email)))) with E.
        rewrite String.eqb_refl. rewrite orb_true_r. reflexivity.
      * cbn [fst bind try_catch]. unfold User.updateLastLogin.
        destruct (User.validate _); [| exact Logic.I].
        simpl. intros s2 Hs2.
        destruct (lookupId UserDoc._id (nextId s1) (users s2)); simpl.
        -- split; [| exact Logic.I].
           rewrite has_email_set_users_map; [exact Hs2 |].
           apply map_email_updateById.
        -- split; [exact Hs2 | exact Logic.I].
Qed.
End RegisterFacts.

Section Accounts.
Variable bcrypt_hash : string -> string -> string.
Variable bcrypt_compare : string -> string -> bool.
Variable generateToken : UserDoc.t -> string.

(** X17. One address, one account, whatever the race.  Two registrations
    whose addresses are the same once trimmed and lower-cased are never
    both answered 201, for any names, passwords and salts, any store and
    any interleaving of their store operations: the request that comes
    second to the unique index gets the duplicate-key error and answers
    409 like the one that finds the address by its lookup. *)
Theorem no_double_registration (sched : list bool)
    (errors1 errors2 : list string)
    (name1 email1 password1 salt1 name2 email2 password2 salt2 : string)
    (now1 now2 : N) (s : Store) :
  registered_email email1 = registered_email email2 ->
  let out :=
    interleave sched
      (authController.register bcrypt_hash generateToken errors1 name1 email1
         password1 salt1 now1)
      (authController.register bcrypt_hash generateToken errors2 name2 email2
         password2 salt2 now2) s in
  registered (fst (fst out)) && registered (snd (fst out)) = false.
Proof.
  intros He out. unfold out. apply (race_interleave (registered_email email1)).
  pose proof (register_fresh bcrypt_hash generateToken errors1 name1 email1
                password1 salt1 now1) as H1.
  pose proof (register_fresh bcrypt_hash generateToken errors2 name2 email2
                password2 salt2 now2) as H2.
  rewrite <- He in H2.
  destruct (has_email (registered_email email1) s) eqn:Hs.
  - right. left. split; [exact Hs |]. split.
    + apply fresh_lost. exact H1.
    + apply lost_holds. apply fresh_lost. exact H2.
  - left. auto.
Qed.
End Accounts.

Lemma no_double_registration_witness :
  registered_email "Carla@X.com" = registered_email " carla@x.com " /\
  let out :=
    interleave [true; false; true; false]
      (authController.register sample_hash sample_token [] "Carla" "Carla@X.com"
         "secreto1" "salt-1" 10)
      (authController.register sample_hash sample_token [] "Carla" " carla@x.com "
         "secreto2" "salt-2" 11) blog_with_accounts in
  registered (fst (fst out)) && registered (snd (fst out)) = false.
Proof.
  split; [reflexivity |].
  apply (no_double_registration sample_hash sample_token [true; false; true; false]
           [] [] "Carla" "Carla@X.com" "secreto1" "salt-1"
           "Carla" " carla@x.com " "secreto2" "salt-2" 10 11 blog_with_accounts).
  reflexivity.
Defined.

Lemma updateLastLogin_keeps_users_ok (now : N) (this : UserDoc.t) :
  keeps users_ok (User.updateLastLogin now this).
Proof.
  unfold User.updateLastLogin.
  destruct (User.validate this); [| exact Logic.I].
  apply keeps_await. intros s [He Hi].
  destruct (lookupId UserDoc._id (UserDoc._id this) (users s)); simpl;
    [| constructor; assumption].
  constructor; simpl.
  - rewrite map_email_updateById. exact He.
  - intros u Hu. apply In_updateById in Hu.
    destruct Hu as [Hu | [y [Hy [_ ->]]]]; [apply Hi; exact Hu |].
    simpl. apply Hi. exact Hy.
Qed.

Lemma save_new_keeps_users_ok (bcrypt_hash : string -> string -> string)
    (salt : string) (this : UserDoc.t) :
  keeps users_ok (User.save_new bcrypt_hash salt this).
Proof.
  unfold User.save_new.
  destruct (User.validate this); [| exact Logic.I].
  apply keeps_await. intros s [He Hi]. cbv zeta.
  destruct (existsb _ (users s)) eqn:Hex; simpl; [constructor; assumption |].
  constructor; simpl.
  - rewrite map_app. simpl. apply NoDup_snoc; [exact He |].
    intros Hin. apply in_map_iff in Hin. destruct Hin as [x [Hx Hin]].
    assert (existsb (fun u => String.eqb (UserDoc.email u) (UserDoc.email this)) (users s)
            = true) as Ht.
    { apply existsb_exists. exists x. split; [exact Hin |].
      apply String.eqb_eq. exact Hx. }
    simpl in Hex. congruence.
  - intros u Hu. apply in_app_iff in Hu. destruct Hu as [Hu | [<- | []]].
    + apply Hi in Hu. lia.
    + simpl. lia.
Qed.

Section AccountInvariant.
Variable bcrypt_hash : string -> string -> string.
Variable bcrypt_compare : string -> string -> bool.
Variable generateToken : UserDoc.t -> string.

Lemma register_keeps_users_ok (errors : list string)
    (name email password salt : string) (now : N) :
  keeps users_ok
    (authController.register bcrypt_hash generateToken errors name email password
       salt now).
Proof.
  unfold authController.register.
  apply keeps_try_catch.
  - destruct errors; [| exact Logic.I].
    apply keeps_bind; [apply keeps_await; intros s H; exact H |].
    intros [u |]; [exact Logic.I |].
    apply keeps_bind; [apply save_new_keeps_users_ok |].
    intros u. apply keeps_bind; [apply updateLastLogin_keeps_users_ok |].
    intros; exact Logic.I.
  - intros e. destruct e; try exact Logic.I.
    simpl. destruct code as [| p]; [exact Logic.I |].
    repeat (destruct p as [p | p |]; try exact Logic.I).
Qed.

Lemma login_keeps_users_ok (errors : list string) (email password : string) (now : N) :
  keeps users_ok
    (authController.login bcrypt_compare generateToken errors email password now).
Proof.
  unfold authController.login, User.comparePassword.
  apply keeps_try_catch; [| intros; exact Logic.I].
  destruct errors; [| exact Logic.I].
  apply keeps_bind; [apply keeps_await; intros s H; exact H |].
  intros [u |]; [| exact Logic.I].
  destruct (negb (UserDoc.isActive u)); [exact Logic.I |].
  apply keeps_bind; [exact Logic.I |]. intros b.
  destruct (negb b); [exact Logic.I |].
  apply keeps_bind; [apply updateLastLogin_keeps_users_ok |].
  intros; exact Logic.I.
Qed.

(** X18. The accounts stay well formed.  A user collection that holds no
    address twice and only identifiers handed out before [nextId] is left
    as such a collection by any two registrations, a registration and a
    login, or two logins in flight together, under every interleaving of
    their store operations. *)
Theorem accounts_stay_unique (sched : list bool)
    (errors1 errors2 : list string)
    (name1 email1 password1 salt1 name2 email2 password2 salt2 : string)
    (now1 now2 : N) (s : Store) :
  users_ok s ->
  let register1 :=
    authController.register bcrypt_hash generateToken errors1 name1 email1
      password1 salt1 now1 in
  let register2 :=
    authController.register bcrypt_hash generateToken errors2 name2 email2
      password2 salt2 now2 in
  let login1 :=
    authController.login bcrypt_compare generateToken errors1 email1 password1 now1 in
  let login2 :=
    authController.login bcrypt_compare generateToken errors2 email2 password2 now2 in
  users_ok (snd (interleave sched register1 register2 s)) /\
  users_ok (snd (interleave sched register1 login2 s)) /\
  users_ok (snd (interleave sched login1 register2 s)) /\
  users_ok (snd (interleave sched login1 login2 s)).
Proof.
  intros H. cbv zeta.
  split; [| split; [| split]]; apply keeps_interleave;
    first [ exact H | apply register_keeps_users_ok | apply login_keeps_users_ok ].
Qed.
End AccountInvariant.

Lemma users_ok_blog_with_accounts : users_ok blog_with_accounts.
Proof.
  constructor; simpl.
  - repeat constructor; simpl; intuition discriminate.
  - intros u [<- | [<- | []]]; simpl; lia.
Qed.

Lemma accounts_stay_unique_witness :
  users_ok blog_with_accounts /\
  users_ok
    (snd (interleave [true; false; true; false]
            (authController.register sample_hash sample_token [] "Carla" "Carla@X.com"
               "secreto1" "salt-1" 10)
            (authController.register sample_hash sample_token [] "Carla" " carla@x.com "
               "secreto2" "salt-2" 11) blog_with_accounts)).
Proof.
  split; [exact users_ok_blog_with_accounts |].
  exact (proj1 (accounts_stay_unique sample_hash sample_compare sample_token
                  [true; false; true; false] [] [] "Carla" "Carla@X.com" "secreto1"
                  "salt-1" "Carla" " carla@x.com " "secreto2" "salt-2" 10 11
                  blog_with_accounts users_ok_blog_with_accounts)).
Defined.

Section ById2.
Variable D : Type.
Variable id_of : D -> ObjectId.

Lemma lookupId_snoc_fresh (l : list D) (u : D) :
  (forall x, In x l -> (id_of x < id_of u)%N) ->
  lookupId id_of (id_of u) (l ++ [u]) = Some u.
Proof.
  unfold lookupId. induction l as [| d r IH]; simpl; intros H.
  - rewrite N.eqb_refl. reflexivity.
  - assert (N.eqb (id_of d) (id_of u) = false) as ->.
    { apply N.eqb_neq. specialize (H d (or_introl eq_refl)). lia. }
    apply IH. intros x Hx. apply H. right. exact Hx.
Qed.

Lemma updateById_snoc_fresh (f : D -> D) (l : list D) (u : D) :
  (forall x, In x l -> (id_of x < id_of u)%N) ->
  updateById id_of (id_of u) f (l ++ [u]) = l ++ [f u].
Proof.
  induction l as [| d r IH]; intros H.
  - change (updateById id_of (id_of u) f ([] ++ [u]))
      with (if N.eqb (id_of u) (id_of u) then [f u] else [u]).
    rewrite N.eqb_refl. reflexivity.
  - change (updateById id_of (id_of u) f ((d :: r) ++ [u]))
      with (if N.eqb (id_of d) (id_of u) then f d :: (r ++ [u])
            else d :: updateById id_of (id_of u) f (r ++ [u])).
    assert (N.eqb (id_of d) (id_of u) = false) as ->.
    { apply N.eqb_neq. specialize (H d (or_introl eq_refl)). lia. }
    rewrite IH; [reflexivity |]. intros x Hx. apply H. right. exact Hx.
Qed.
End ById2.

Section RegisterRun.
Variable bcrypt_hash : string -> string -> string.
Variable generateToken : UserDoc.t -> string.

Lemma register_run (name email password salt : string) (now : N) (s : Store) :
  run (authController.register bcrypt_hash generateToken [] name email password
         salt now) s =
  match find (fun u => String.eqb (UserDoc.email u) (Js.toLowerCase email)) (users s) with
  | Some _ => (Resolved (authController.Json authController.email_taken), s)
  | None =>
      match User.validate
              (User.new_User (Js.trim name) (Js.trim (Js.toLowerCase email)) password)
      with
      | e :: es =>
          (Resolved (authController.ValidationErrors
                       (map (fun m => (User.path_of_message m, m)) (e :: es))), s)
      | [] =>
          if has_email (registered_email email) s
          then (Resolved (authController.Json authController.email_taken), s)
          else
            let u := new_account bcrypt_hash name email password salt (nextId s) in
            let s1 := bump_nextId (set_users (users s ++ [u]) s) in
            match User.validate u with
            | e :: es =>
                (Resolved (authController.ValidationErrors
                             (map (fun m => (User.path_of_message m, m)) (e :: es))), s1)
            | [] =>
                match lookupId UserDoc._id (nextId s) (users s1) with
                | None =>
                    (Resolved (authController.Json
                                 (mkResponse 500 false (Some "Error interno del servidor")
                                    (Some "Error al registrar usuario") NoData)), s1)
                | Some _ =>
                    (Resolved (authController.Json
                                 (auth_reply 201 "Usuario registrado exitosamente"
                                    (User.with_lastLogin now u) (generateToken u))),
                     set_users (updateById UserDoc._id (nextId s)
                                  (User.with_lastLogin now) (users s1)) s1)
                end
            end
      end
  end.
Proof.
  unfold authController.register.
  rewrite run_try_catch, run_bind, run_await. unfold User.findByEmail. cbv beta iota.
  destruct (find _ (users s)) as [x |]; [reflexivity |].
  cbv beta iota zeta. rewrite run_bind. unfold User.save_new.
  set (NU := User.new_User (Js.trim name) (Js.trim (Js.toLowerCase email)) password).
  destruct (User.validate NU) as [| e es]; [| reflexivity].
  rewrite run_await. cbv beta zeta.
  change (existsb _ (users s)) with (has_email (registered_email email) s).
  destruct (has_email (registered_email email) s); [reflexivity |].
  cbv beta iota.
  set (u := new_account bcrypt_hash name email password salt (nextId s)).
  change (User.with_id (nextId s)
            (User.with_password (bcrypt_hash (UserDoc.password NU) salt) NU)) with u.
  rewrite run_bind. unfold User.updateLastLogin.
  destruct (User.validate u) as [| e es]; [| reflexivity].
  rewrite run_await. cbv beta.
  change (UserDoc._id u) with (nextId s).
  destruct (lookupId UserDoc._id (nextId s) _); reflexivity.
Qed.
End RegisterRun.

Lemma lower_idem (c : ascii) : Js.lower (Js.lower c) = Js.lower c.
Proof.
  destruct c as [[] [] [] [] [] [] [] []]; reflexivity.
Qed.

Lemma toLowerCase_idem (s : string) :
  Js.toLowerCase (Js.toLowerCase s) = Js.toLowerCase s.
Proof.
  induction s as [| c t IH]; simpl; [reflexivity |].
  rewrite lower_idem, IH. reflexivity.
Qed.

Lemma registered_email_clean (email : string) :
  Js.trim (Js.toLowerCase email) = Js.toLowerCase email ->
  registered_email email = Js.toLowerCase email.
Proof.
  intros H. unfold registered_email. rewrite H, toLowerCase_idem. exact H.
Qed.

Lemma split_at_no_sep (c : ascii) (t : string) :
  contains c t = false -> Js.split_at c t = (t, []).
Proof.
  induction t as [| d r IH]; simpl; [reflexivity |].
  intros H. apply orb_false_iff in H. destruct H as [Hd Hr].
  rewrite (IH Hr), Hd. reflexivity.
Qed.

Lemma bearer_token_of (t : string) :
  contains " " t = false -> t <> "" ->
  auth.bearer_token (Some ("Bearer " ++ t)%string) = Some t.
Proof.
  intros Hc Hne. unfold auth.bearer_token, Js.split. simpl.
  rewrite (split_at_no_sep " " t Hc). simpl.
  apply String.eqb_neq in Hne. rewrite Hne. reflexivity.
Qed.

Lemma find_snoc {D} (P : D -> bool) (l : list D) (x : D) :
  find P (l ++ [x]) =
  match find P l with
  | Some y => Some y
  | None => if P x then Some x else None
  end.
Proof.
  induction l as [| d r IH]; simpl; [reflexivity |].
  destruct (P d); [reflexivity | exact IH].
Qed.

Lemma validate_new_account (bcrypt_hash : string -> string -> string)
    (name email password salt : string) (i : ObjectId) :
  User.validate (User.new_User (Js.trim name) (Js.trim (Js.toLowerCase email)) password)
    = [] ->
  6 <= String.length (bcrypt_hash password salt) ->
  User.validate (new_account bcrypt_hash name email password salt i) = [] /\
  forall now,
    User.validate (User.with_lastLogin now
                     (new_account bcrypt_hash name email password salt i)) = [].
Proof.
  intros Hv Hlen.
  assert (User.validate (new_account bcrypt_hash name email password salt i) = []) as H.
  { unfold User.validate in *. simpl in *.
    apply app_eq_nil in Hv. destruct Hv as [Hn Hv].
    apply app_eq_nil in Hv. destruct Hv as [He _].
    rewrite Hn, He. simpl.
    destruct (String.eqb (bcrypt_hash password salt) "") eqn:E.
    - apply String.eqb_eq in E. rewrite E in Hlen. simpl in Hlen. lia.
    - assert (Nat.ltb (String.length (bcrypt_hash password salt)) 6 = false) as ->
        by (apply Nat.ltb_ge; exact Hlen).
      reflexivity. }
  split; [exact H |]. intros now. exact H.
Qed.

Lemma emailExists_run (email : string) (s : Store) :
  run (User.emailExists email) s = (Resolved (has_email (Js.toLowerCase email) s), s).
Proof.
  unfold User.emailExists, has_email. rewrite run_bind, run_await.
  unfold User.findByEmail. cbv beta iota. rewrite find_existsb.
  destruct (find _ (users s)); reflexivity.
Qed.

Section Registration.
Variable bcrypt_hash : string -> string -> string.
Variable generateToken : UserDoc.t -> string.

(** X19. A taken address is refused and nothing is stored.  When the
    address of a registration, lower-cased as the lookup sees it or trimmed
    and lower-cased as it would be stored, belongs to an account, the
    request is never answered 201 and the store is left as it was.  With
    fields that pass the validators of the schema, and whenever
    [User.emailExists] says so, the answer is the 409 "El email ya está
    registrado", whether the lookup found the account or the unique index
    refused the insert. *)
Theorem taken_address_is_refused (name email password salt : string) (now : N)
    (s : Store) :
  has_email (Js.toLowerCase email) s = true \/
  has_email (registered_email email) s = true ->
  exists r,
    run (authController.register bcrypt_hash generateToken [] name email password
           salt now) s = (Resolved r, s) /\
    registered (Resolved r) = false /\
    (User.validate
       (User.new_User (Js.trim name) (Js.trim (Js.toLowerCase email)) password) = [] ->
     r = authController.Json authController.email_taken) /\
    (fst (run (User.emailExists email) s) = Resolved true ->
     r = authController.Json authController.email_taken).
Proof.
  intros H. rewrite emailExists_run. rewrite register_run.
  assert (has_email (Js.toLowerCase email) s =
          match find (fun u => String.eqb (UserDoc.email u) (Js.toLowerCase email))
                  (users s) with
          | Some _ => true
          | None => false
          end) as Hfe by (unfold has_email; apply find_existsb).
  rewrite Hfe in *. clear Hfe.
  destruct (find _ (users s)) as [x |].
  { eexists. split; [reflexivity |]. split; [reflexivity |]. split; reflexivity. }
  destruct H as [H | H]; [discriminate |].
  destruct (User.validate _) as [| e es].
  - rewrite H. eexists. split; [reflexivity |]. split; [reflexivity |].
    split; [reflexivity | discriminate].
  - eexists. split; [reflexivity |]. split; [reflexivity |].
    split; discriminate.
Qed.

Lemma users_fresh_blog_with_accounts :
  forall u, In u (users blog_with_accounts) -> (UserDoc._id u < nextId blog_with_accounts)%N.
Proof. exact (user_ids_old users_ok_blog_with_accounts). Qed.

(** What a registration that goes through leaves behind. *)
Lemma register_success_run (name email password salt : string)
    (now : N) (s : Store) :
  (forall u, In u (users s) -> (UserDoc._id u < nextId s)%N) ->
  has_email (Js.toLowerCase email) s = false ->
  has_email (registered_email email) s = false ->
  User.validate
    (User.new_User (Js.trim name) (Js.trim (Js.toLowerCase email)) password) = [] ->
  6 <= String.length (bcrypt_hash password salt) ->
  let u := new_account bcrypt_hash name email password salt (nextId s) in
  exists s',
    run (authController.register bcrypt_hash generateToken [] name email password
           salt now) s =
    (Resolved (authController.Json
                 (auth_reply 201 "Usuario registrado exitosamente"
                    (User.with_lastLogin now u) (generateToken u))), s') /\
    users s' = users s ++ [User.with_lastLogin now u] /\
    UserDoc._id u = nextId s /\
    UserDoc.name u = Js.trim (Js.trim name) /\
    UserDoc.email u = registered_email email /\
    UserDoc.password u = bcrypt_hash password salt /\
    UserDoc.role u = "user" /\ UserDoc.isActive u = true /\
    nextId s' = N.succ (nextId s) /\
    articles s' = articles s /\ comments s' = comments s /\ likes s' = likes s.
Proof.
  intros Hold Hl He Hv Hlen u. rewrite register_run.
  unfold has_email in Hl. rewrite find_existsb in Hl.
  destruct (find _ (users s)) as [x |]; [discriminate |].
  rewrite Hv, He. cbv zeta. fold u.
  destruct (validate_new_account bcrypt_hash name email password salt (nextId s) Hv Hlen)
    as [Hvu _].
  fold u in Hvu. rewrite Hvu.
  assert (forall x, In x (users s) -> (UserDoc._id x < UserDoc._id u)%N) as Hold'
    by exact Hold.
  cbn [users bump_nextId set_users].
  change (nextId s) with (UserDoc._id u) at 1 2.
  rewrite (lookupId_snoc_fresh _ UserDoc._id (users s) u Hold').
  rewrite (updateById_snoc_fresh _ UserDoc._id (User.with_lastLogin now) (users s) u Hold').
  eexists. split; [reflexivity |]. simpl. repeat split; reflexivity.
Qed.

(** X20. A registration stores one account, hashed.  With an address no
    account has, fields that pass the validators of the schema, and a hash
    of at least six characters, a registration is answered 201 with a token
    for the new account.  Exactly one user was appended: it has the next
    fresh identifier, the trimmed name, the trimmed lower-case address, the
    role ["user"], is active, carries the hash where the password was given,
    and is stamped with its first login; nothing else changed. *)
Theorem registration_stores_one_account (name email password salt : string)
    (now : N) (s : Store) :
  (forall u, In u (users s) -> (UserDoc._id u < nextId s)%N) ->
  has_email (Js.toLowerCase email) s = false ->
  has_email (registered_email email) s = false ->
  User.validate
    (User.new_User (Js.trim name) (Js.trim (Js.toLowerCase email)) password) = [] ->
  6 <= String.length (bcrypt_hash password salt) ->
  let u := new_account bcrypt_hash name email password salt (nextId s) in
  exists s',
    run (authController.register bcrypt_hash generateToken [] name email password
           salt now) s =
    (Resolved (authController.Json
                 (auth_reply 201 "Usuario registrado exitosamente"
                    (User.with_lastLogin now u) (generateToken u))), s') /\
    users s' = users s ++ [User.with_lastLogin now u] /\
    UserDoc._id u = nextId s /\
    UserDoc.name u = Js.trim (Js.trim name) /\
    UserDoc.email u = registered_email email /\
    UserDoc.password u = bcrypt_hash password salt /\
    UserDoc.role u = "user" /\ UserDoc.isActive u = true /\
    nextId s' = N.succ (nextId s) /\
    articles s' = articles s /\ comments s' = comments s /\ likes s' = likes s.
Proof.
  intros Hold Hl He Hv Hlen.
  apply register_success_run; assumption.
Qed.
End Registration.

Lemma registration_stores_one_account_witness :
  (forall u, In u (users blog_with_accounts) ->
             (UserDoc._id u < nextId blog_with_accounts)%N) /\
  has_email (Js.toLowerCase "Carla@X.com") blog_with_accounts = false /\
  has_email (registered_email "Carla@X.com") blog_with_accounts = false /\
  User.validate
    (User.new_User (Js.trim "Carla") (Js.trim (Js.toLowerCase "Carla@X.com"))
       "secreto1") = [] /\
  6 <= String.length (sample_hash "secreto1" "salt-1") /\
  exists s',
    run (authController.register sample_hash sample_token [] "Carla" "Carla@X.com"
           "secreto1" "salt-1" 10) blog_with_accounts =
    (Resolved (authController.Json
                 (auth_reply 201 "Usuario registrado exitosamente"
                    (UserDoc.mk 100 "Carla" "carla@x.com" "$2b$12$hash-of-secreto1"
                       "user" true (Some 10%N))
                    "token-for-carla@x.com")), s') /\
    users s' = users blog_with_accounts
               ++ [UserDoc.mk 100 "Carla" "carla@x.com" "$2b$12$hash-of-secreto1"
                     "user" true (Some 10%N)].
Proof.
  split; [exact users_fresh_blog_with_accounts |].
  split; [reflexivity |]. split; [reflexivity |]. split; [reflexivity |].
  split; [simpl; lia |].
  destruct (registration_stores_one_account sample_hash sample_token
              "Carla" "Carla@X.com" "secreto1" "salt-1" 10 blog_with_accounts
              users_fresh_blog_with_accounts eq_refl eq_refl eq_refl
              ltac:(simpl; lia)) as [s' [H1 [H2 _]]].
  exists s'. split; [exact H1 | exact H2].
Defined.

Lemma taken_address_is_refused_witness :
  has_email (Js.toLowerCase " ANA@x.com ") blog_with_accounts = false /\
  has_email (registered_email " ANA@x.com ") blog_with_accounts = true /\
  run (authController.register sample_hash sample_token [] "Ana" " ANA@x.com "
         "secreto1" "salt-1" 10) blog_with_accounts =
  (Resolved (authController.Json authController.email_taken), blog_with_accounts).
Proof.
  split; [reflexivity |]. split; [reflexivity |].
  destruct (taken_address_is_refused sample_hash sample_token "Ana" " ANA@x.com "
              "secreto1" "salt-1" 10 blog_with_accounts (or_intror eq_refl))
    as [r [Hr [_ [Hv _]]]].
  rewrite Hr. rewrite (Hv eq_refl). reflexivity.
Defined.

(** ** Login *)

Section LoginRun.
Variable bcrypt_compare : string -> string -> bool.
Variable generateToken : UserDoc.t -> string.

Lemma login_run (email password : string) (now : N) (s : Store) :
  run (authController.login bcrypt_compare generateToken [] email password now) s =
  match find (fun u => String.eqb (UserDoc.email u) (Js.toLowerCase email)) (users s) with
  | None => (Resolved authController.invalid_credentials, s)
  | Some u =>
      if negb (UserDoc.isActive u)
      then (Resolved authController.account_disabled, s)
      else if negb (bcrypt_compare password (UserDoc.password u))
      then (Resolved authController.invalid_credentials, s)
      else
        let failed :=
          mkResponse 500 false (Some "Error interno del servidor")
            (Some "Error al iniciar sesión") NoData in
        match User.validate u with
        | _ :: _ => (Resolved failed, s)
        | [] =>
            match lookupId UserDoc._id (UserDoc._id u) (users s) with
            | None => (Resolved failed, s)
            | Some _ =>
                (Resolved (auth_reply 200 "Login exitoso" (User.with_lastLogin now u)
                             (generateToken u)),
                 set_users (updateById UserDoc._id (UserDoc._id u)
                              (User.with_lastLogin now) (users s)) s)
            end
        end
  end.
Proof.
  unfold authController.login.
  rewrite run_try_catch, run_bind, run_await. unfold User.findByEmail. cbv beta iota.
  destruct (find _ (users s)) as [u |]; [| reflexivity].
  cbv beta iota. destruct (negb (UserDoc.isActive u)); [reflexivity |].
  rewrite run_bind. unfold User.comparePassword. cbn [run].
  destruct (negb (bcrypt_compare password (UserDoc.password u))); [reflexivity |].
  cbv zeta. rewrite run_bind. unfold User.updateLastLogin.
  destruct (User.validate u) as [| e es]; [| reflexivity].
  rewrite run_await. cbv beta.
  destruct (lookupId UserDoc._id (UserDoc._id u) (users s)); reflexivity.
Qed.

(** X21. A login stamps the account and nothing else.  For the address
    of a stored, active account whose documents pass the validators, in any
    letter case, and the password [bcrypt.compare] accepts, the login is
    answered 200 with a token for the account; afterwards the account is
    what it was with [lastLogin] set to the time of the request, its
    password and every other account are untouched, and so is the rest of
    the store. *)
Theorem login_stamps_lastLogin (email password : string) (now : N)
    (u : UserDoc.t) (s : Store) :
  NoDup (map UserDoc._id (users s)) ->
  In u (users s) ->
  fst (User.findByEmail email s) = Resolved (Some u) ->
  UserDoc.isActive u = true ->
  bcrypt_compare password (UserDoc.password u) = true ->
  User.validate u = [] ->
  exists s',
    (forall email',
        Js.toLowerCase email' = Js.toLowerCase email ->
        run (authController.login bcrypt_compare generateToken [] email' password now) s
        = (Resolved (auth_reply 200 "Login exitoso" (User.with_lastLogin now u)
                       (generateToken u)), s')) /\
    lookupId UserDoc._id (UserDoc._id u) (users s') = Some (User.with_lastLogin now u) /\
    UserDoc.password (User.with_lastLogin now u) = UserDoc.password u /\
    (forall i, i <> UserDoc._id u ->
               lookupId UserDoc._id i (users s') = lookupId UserDoc._id i (users s)) /\
    map UserDoc.email (users s') = map UserDoc.email (users s) /\
    articles s' = articles s /\ comments s' = comments s /\ likes s' = likes s /\
    nextId s' = nextId s.
Proof.
  intros Hnd Hin Hf Ha Hc Hv.
  unfold User.findByEmail in Hf. simpl in Hf. injection Hf as Hf.
  pose proof (lookupId_unique _ UserDoc._id (users s) u Hnd Hin) as Hl.
  exists (set_users (updateById UserDoc._id (UserDoc._id u)
                       (User.with_lastLogin now) (users s)) s).
  split; [| split; [| split; [| split; [| split]]]].
  - intros email' He. rewrite login_run, He, Hf, Ha, Hc, Hv, Hl. reflexivity.
  - simpl. rewrite lookupId_updateById by reflexivity. rewrite Hl. reflexivity.
  - reflexivity.
  - intros i Hi. simpl. apply lookupId_updateById_other; [reflexivity | exact Hi].
  - simpl. apply map_email_updateById.
  - repeat split; reflexivity.
Qed.
End LoginRun.

Lemma login_stamps_lastLogin_witness :
  NoDup (map UserDoc._id (users blog_with_accounts)) /\
  In ana (users blog_with_accounts) /\
  fst (User.findByEmail "ana@x.com" blog_with_accounts) = Resolved (Some ana) /\
  UserDoc.isActive ana = true /\
  sample_compare "secret" (UserDoc.password ana) = true /\
  User.validate ana = [] /\
  exists s',
    run (authController.login sample_compare sample_token [] "Ana@X.COM" "secret" 5)
      blog_with_accounts
    = (Resolved (auth_reply 200 "Login exitoso" (User.with_lastLogin 5 ana)
                   (sample_token ana)), s') /\
    lookupId UserDoc._id 7 (users s') = Some (User.with_lastLogin 5 ana).
Proof.
  assert (NoDup (map UserDoc._id (users blog_with_accounts))) as Hnd.
  { simpl. repeat constructor; simpl; intuition discriminate. }
  split; [exact Hnd |]. split; [left; reflexivity |].
  split; [reflexivity |]. split; [reflexivity |]. split; [reflexivity |].
  split; [reflexivity |].
  destruct (login_stamps_lastLogin sample_compare sample_token "ana@x.com" "secret" 5
              ana blog_with_accounts Hnd (or_introl eq_refl) eq_refl eq_refl eq_refl
              eq_refl) as [s' [H1 [H2 _]]].
  exists s'. split; [apply H1; reflexivity | exact H2].
Defined.

(** ** From registration to an authenticated request *)

Section RoundTrip.
Variable bcrypt_hash : string -> string -> string.
Variable bcrypt_compare : string -> string -> bool.
Variable jwt_sign : ObjectId * string * string -> string.
Variable verify : string -> auth.JwtError + ObjectId.

(** X22. Register, log in, be recognised.  Let [bcrypt.compare] accept
    the password against the hash that was stored for it, let that hash have
    six characters or more, and let the token signed for the new account be
    non-empty, free of spaces and verified by [jwt.verify] to its [userId].
    Then, for an address without surrounding white space that no account
    has and fields that pass the validators, a registration is answered
    201; a login with the same address and password on the store it leaves
    is answered 200; and the token of either answer, sent as [Bearer] token
    afterwards, makes [authenticateToken] hand on the stored account: the
    one with the identifier and address of the registration, stamped with
    the time of the login. *)
Theorem register_login_authenticate (name email password salt : string)
    (now1 now2 : N) (s : Store) :
  bcrypt_compare password (bcrypt_hash password salt) = true ->
  6 <= String.length (bcrypt_hash password salt) ->
  verify (auth.generateToken jwt_sign
            (new_account bcrypt_hash name email password salt (nextId s)))
    = inr (nextId s) ->
  contains " " (auth.generateToken jwt_sign
                  (new_account bcrypt_hash name email password salt (nextId s)))
    = false ->
  auth.generateToken jwt_sign
    (new_account bcrypt_hash name email password salt (nextId s)) <> "" ->
  (forall u, In u (users s) -> (UserDoc._id u < nextId s)%N) ->
  Js.trim (Js.toLowerCase email) = Js.toLowerCase email ->
  has_email (Js.toLowerCase email) s = false ->
  User.validate
    (User.new_User (Js.trim name) (Js.trim (Js.toLowerCase email)) password) = [] ->
  let generateToken := auth.generateToken jwt_sign in
  let u := new_account bcrypt_hash name email password salt (nextId s) in
  let token := generateToken u in
  exists s1 s2,
    run (authController.register bcrypt_hash generateToken [] name email password
           salt now1) s =
      (Resolved (authController.Json
                   (auth_reply 201 "Usuario registrado exitosamente"
                      (User.with_lastLogin now1 u) token)), s1) /\
    run (authController.login bcrypt_compare generateToken [] email password now2) s1 =
      (Resolved (auth_reply 200 "Login exitoso" (User.with_lastLogin now2 u) token), s2) /\
    run (auth.authenticateToken verify (Some ("Bearer " ++ token)%string)) s2 =
      (Resolved (inr (User.with_lastLogin now2 u)), s2) /\
    UserDoc._id u = nextId s /\
    UserDoc.email u = Js.toLowerCase email.
Proof.
  intros Hcmp Hlen Hver Hsp Hne Hold Hclean Hfree Hv generateToken u token.
  fold u in Hver, Hsp, Hne. fold generateToken in Hver, Hsp, Hne.
  fold token in Hver, Hsp, Hne.
  pose proof (registered_email_clean email Hclean) as HE.
  assert (has_email (registered_email email) s = false) as Hfree'
    by (rewrite HE; exact Hfree).
  destruct (register_success_run bcrypt_hash generateToken name email
              password salt now1 s Hold Hfree Hfree' Hv Hlen)
    as [s1 [Hreg [Hu1 [Hid [_ [Hem [Hpw [_ [Hact _]]]]]]]]].
  fold u in Hreg, Hu1, Hid, Hem, Hpw, Hact.
  set (u1 := User.with_lastLogin now1 u) in *.
  assert (forall x, In x (users s) -> (UserDoc._id x < UserDoc._id u1)%N) as Hold1
    by (intros x Hx; change (UserDoc._id u1) with (UserDoc._id u); rewrite Hid;
        apply Hold; exact Hx).
  assert (find (fun x => String.eqb (UserDoc.email x) (Js.toLowerCase email)) (users s1)
          = Some u1) as Hfind.
  { rewrite Hu1, find_snoc. unfold has_email in Hfree. rewrite find_existsb in Hfree.
    destruct (find _ (users s)); [discriminate |].
    change (UserDoc.email u1) with (UserDoc.email u). rewrite Hem, HE.
    rewrite String.eqb_refl. reflexivity. }
  assert (lookupId UserDoc._id (UserDoc._id u1) (users s1) = Some u1) as Hl1
    by (rewrite Hu1; apply lookupId_snoc_fresh; exact Hold1).
  destruct (validate_new_account bcrypt_hash name email password salt (nextId s) Hv
              Hlen) as [_ Hv1].
  specialize (Hv1 now1). fold u in Hv1. fold u1 in Hv1.
  exists s1.
  exists (set_users (updateById UserDoc._id (UserDoc._id u1)
                       (User.with_lastLogin now2) (users s1)) s1).
  split; [exact Hreg |]. split; [| split; [| split; [exact Hid |]]].
  - rewrite login_run, Hfind.
    change (UserDoc.isActive u1) with (UserDoc.isActive u). rewrite Hact.
    change (UserDoc.password u1) with (UserDoc.password u). rewrite Hpw, Hcmp.
    rewrite Hv1, Hl1. reflexivity.
  - unfold auth.authenticateToken.
    assert (auth.bearer_token (Some ("Bearer " ++ token)%string) = Some token) as ->
      by (apply bearer_token_of; assumption).
    rewrite Hver.
    rewrite run_try_catch, run_bind, run_await. unfold User.findById. cbv beta iota.
    cbn [users set_users]. rewrite <- Hid.
    change (UserDoc._id u) with (UserDoc._id u1).
    rewrite lookupId_updateById by reflexivity. rewrite Hl1. reflexivity.
  - rewrite Hem. exact HE.
Qed.
End RoundTrip.

Lemma register_login_authenticate_witness :
  let verify := sample_jwt_verify in
  let sign (payload : ObjectId * string * string) := "token-de-ana" in
  let s := mkStore [test_article] [] [] [] 7 in
  let u := new_account sample_hash "Ana" "Ana@X.com" "secret" "salt-1" 7 in
  sample_compare "secret" (sample_hash "secret" "salt-1") = true /\
  6 <= String.length (sample_hash "secret" "salt-1") /\
  verify (auth.generateToken sign u) = inr 7%N /\
  contains " " (auth.generateToken sign u) = false /\
  auth.generateToken sign u <> "" /\
  Js.trim (Js.toLowerCase "Ana@X.com") = Js.toLowerCase "Ana@X.com" /\
  has_email (Js.toLowerCase "Ana@X.com") s = false /\
  User.validate (User.new_User (Js.trim "Ana") (Js.trim (Js.toLowerCase "Ana@X.com"))
                   "secret") = [] /\
  exists s1 s2,
    run (authController.register sample_hash (auth.generateToken sign) [] "Ana"
           "Ana@X.com" "secret" "salt-1" 1) s =
      (Resolved (authController.Json
                   (auth_reply 201 "Usuario registrado exitosamente"
                      (User.with_lastLogin 1 u) "token-de-ana")), s1) /\
    run (authController.login sample_compare (auth.generateToken sign) [] "Ana@X.com"
           "secret" 2) s1 =
      (Resolved (auth_reply 200 "Login exitoso" (User.with_lastLogin 2 u) "token-de-ana"),
       s2) /\
    run (auth.authenticateToken verify (Some "Bearer token-de-ana")) s2 =
      (Resolved (inr (User.with_lastLogin 2 u)), s2).
Proof.
  intros verify sign s u.
  split; [reflexivity |]. split; [simpl; lia |]. split; [reflexivity |].
  split; [reflexivity |]. split; [discriminate |]. split; [reflexivity |].
  split; [reflexivity |]. split; [reflexivity |].
  destruct (register_login_authenticate sample_hash sample_compare sign verify
              "Ana" "Ana@X.com" "secret" "salt-1" 1 2 s
              eq_refl ltac:(simpl; lia) eq_refl eq_refl ltac:(discriminate)
              ltac:(intros x []) eq_refl eq_refl eq_refl)
    as [s1 [s2 [H1 [H2 [H3 _]]]]].
  exists s1, s2. split; [exact H1 |]. split; [exact H2 | exact H3].
Defined.

(** ** Roles *)

(** X23. Roles and ownership fit together.  [requireRole] lets a request
    through exactly when it has a user whose role is one of the listed
    ones; without a user it answers 401, with a user of another role 403.
    Whoever passes [requireRole('admin')] passes [requireOwnership] for
    every resource, whatever identifier the path or the body names. *)
Theorem admin_role_opens_every_resource (roles : list string)
    (user : option UserDoc.t) :
  (auth.requireRole roles user = None <->
   exists u, user = Some u /\ In (UserDoc.role u) roles) /\
  (user = None -> auth.requireRole roles user = Some auth.authentication_required) /\
  (forall u, user = Some u -> ~ In (UserDoc.role u) roles ->
     auth.requireRole roles user
     = Some (auth.forbidden "No tienes permisos para acceder a este recurso")) /\
  status auth.authentication_required = 401 /\
  status (auth.forbidden "No tienes permisos para acceder a este recurso") = 403 /\
  (auth.requireRole ["admin"] user = None ->
   forall param body, auth.requireOwnership param body user = None).
Proof.
  assert (forall u, existsb (String.eqb (UserDoc.role u)) roles = true
                    <-> In (UserDoc.role u) roles) as Hex.
  { intros u. rewrite existsb_exists. split.
    - intros [x [Hx He]]. apply String.eqb_eq in He. subst. exact Hx.
    - intros H. exists (UserDoc.role u). split; [exact H | apply String.eqb_refl]. }
  split; [| split; [| split; [| split; [| split]]]].
  - unfold auth.requireRole. destruct user as [u |].
    + destruct (existsb (String.eqb (UserDoc.role u)) roles) eqn:E; simpl; split.
      * intros _. exists u. split; [reflexivity | apply Hex; exact E].
      * reflexivity.
      * discriminate.
      * intros [v [Hv Hin]]. injection Hv as <-. apply Hex in Hin. congruence.
    + split; [discriminate |]. intros [u [Hu _]]. discriminate.
  - intros ->. reflexivity.
  - intros u -> Hn. unfold auth.requireRole.
    destruct (existsb (String.eqb (UserDoc.role u)) roles) eqn:E; [| reflexivity].
    exfalso. apply Hn. apply Hex. exact E.
  - reflexivity.
  - reflexivity.
  - unfold auth.requireRole, auth.requireOwnership. destruct user as [u |];
      [| discriminate].
    simpl. rewrite orb_false_r.
    destruct (String.eqb (UserDoc.role u) "admin"); [reflexivity | discriminate].
Qed.

(** ** The Article model *)

Lemma length_split_at (c : ascii) (s : string) :
  List.length (snd (Js.split_at c s)) = count_char c s.
Proof.
  induction s as [| d t IH]; simpl; [reflexivity |].
  destruct (Js.split_at c t) as [piece pieces]. simpl in IH.
  destruct (Ascii.eqb d c); simpl; rewrite IH; reflexivity.
Qed.

Lemma length_split (c : ascii) (s : string) :
  List.length (Js.split c s) = S (count_char c s).
Proof.
  unfold Js.split. pose proof (length_split_at c s) as H.
  destruct (Js.split_at c s) as [piece pieces]. simpl in *. rewrite H. reflexivity.
Qed.

(** X24. The reading time counts spaces.  The virtual [readingTime] is 0
    for an empty content and at least one minute for any other; for a
    content that is not empty it is the number of its space characters,
    plus one, over 200 words a minute, rounded up: consecutive spaces count
    as words, line breaks and tabs separate none. *)
Theorem readingTime_counts_spaces (content : string) :
  content <> "" ->
  Article.readingTime content
    = ((Z.of_nat (count_char " " content) + 200) / 200)%Z /\
  (1 <= Article.readingTime content)%Z /\
  Article.readingTime "" = 0%Z.
Proof.
  intros Hne. apply String.eqb_neq in Hne.
  assert (Article.readingTime content
          = ((Z.of_nat (count_char " " content) + 200) / 200)%Z) as H.
  { unfold Article.readingTime. rewrite Hne, length_split.
    cbv zeta. f_equal. lia. }
  split; [exact H |]. split; [| reflexivity].
  rewrite H. apply Z.div_le_lower_bound; lia.
Qed.

Lemma readingTime_counts_spaces_witness :
  "uno dos  tres" <> "" /\
  Article.readingTime "uno dos  tres"
    = ((Z.of_nat (count_char " " "uno dos  tres") + 200) / 200)%Z /\
  count_char " " "uno dos  tres" = 3.
Proof.
  split; [discriminate |].
  split; [| reflexivity].
  apply (readingTime_counts_spaces "uno dos  tres"). discriminate.
Defined.

Lemma length_append (a b : string) :
  String.length (a ++ b)%string = String.length a + String.length b.
Proof.
  induction a as [| c t IH]; simpl; [reflexivity |]. rewrite IH. reflexivity.
Qed.

Lemma length_take (n : nat) (s : string) : String.length (Js.take n s) <= n.
Proof.
  revert s. induction n as [| n IH]; intros s; [reflexivity |].
  destruct s as [| c t]; simpl; [lia |]. specialize (IH t). lia.
Qed.

Lemma length_trimStart (s : string) :
  String.length (Js.trimStart s) <= String.length s.
Proof.
  induction s as [| c t IH]; simpl; [lia |].
  destruct (Js.is_space c); simpl; lia.
Qed.

Lemma length_rev_onto (s acc : string) :
  String.length (Js.rev_onto s acc) = String.length s + String.length acc.
Proof.
  revert acc. induction s as [| c t IH]; intros acc; simpl; [reflexivity |].
  rewrite IH. simpl. lia.
Qed.

Lemma length_trim (s : string) : String.length (Js.trim s) <= String.length s.
Proof.
  unfold Js.trim. rewrite length_rev_onto. simpl.
  pose proof (length_trimStart (Js.rev_onto (Js.trimStart s) "")) as H1.
  rewrite length_rev_onto in H1. simpl in H1.
  pose proof (length_trimStart s) as H2. lia.
Qed.

Lemma ends_with_append (x suffix : string) :
  ends_with suffix (x ++ suffix)%string = true.
Proof.
  induction x as [| c t IH].
  - destruct suffix; simpl; rewrite ?Ascii.eqb_refl, ?String.eqb_refl; reflexivity.
  - change (ends_with suffix (String c t ++ suffix)%string)
      with (String.eqb (String c (t ++ suffix)%string) suffix
            || ends_with suffix (t ++ suffix)%string).
    rewrite IH. apply orb_true_r.
Qed.

Lemma rev_onto_rev_onto (t a b : string) :
  Js.rev_onto (Js.rev_onto t a) b = Js.rev_onto a (t ++ b)%string.
Proof.
  revert a b. induction t as [| c t IH]; intros a b; [reflexivity |].
  simpl. rewrite IH. reflexivity.
Qed.

Lemma rev_onto_append (a b acc : string) :
  Js.rev_onto (a ++ b)%string acc = Js.rev_onto b (Js.rev_onto a acc).
Proof.
  revert acc. induction a as [| c t IH]; intros acc; [reflexivity |].
  simpl. apply IH.
Qed.

Lemma append_assoc (a b c : string) :
  ((a ++ b) ++ c)%string = (a ++ (b ++ c))%string.
Proof.
  induction a as [| x t IH]; simpl; [reflexivity |]. rewrite IH. reflexivity.
Qed.

Lemma rev_onto_acc (t acc : string) :
  Js.rev_onto t acc = (Js.rev_onto t "" ++ acc)%string.
Proof.
  revert acc. induction t as [| c t IH]; intros acc; [reflexivity |].
  simpl. rewrite (IH (String c acc)), (IH (String c "")), append_assoc. reflexivity.
Qed.

Lemma trimStart_append_clean (p suffix : string) :
  match suffix with String d _ => Js.is_space d = false | EmptyString => False end ->
  Js.trimStart (p ++ suffix)%string = (Js.trimStart p ++ suffix)%string.
Proof.
  intros H. induction p as [| c t IH].
  - destruct suffix as [| d r]; [contradiction |]. simpl. rewrite H. reflexivity.
  - simpl. destruct (Js.is_space c); [exact IH | reflexivity].
Qed.

(** The first character of a string, if it has one, is no blank. *)
Lemma trimStart_fixed (s : string) :
  match s with String c _ => Js.is_space c = false | EmptyString => True end ->
  Js.trimStart s = s.
Proof.
  destruct s as [| c t]; [reflexivity |]. simpl. intros ->. reflexivity.
Qed.

Lemma trimStart_head (s : string) :
  match Js.trimStart s with
  | String c _ => Js.is_space c = false
  | EmptyString => True
  end.
Proof.
  induction s as [| c t IH]; simpl; [exact Logic.I |].
  destruct (Js.is_space c) eqn:E; [exact IH | simpl; exact E].
Qed.

Lemma trim_head (y : string) :
  match Js.trim y with String c _ => Js.is_space c = false | EmptyString => True end.
Proof.
  unfold Js.trim.
  assert (Js.rev_onto (Js.trimStart y) "" = ""
          \/ exists p d, Js.rev_onto (Js.trimStart y) "" = (p ++ String d "")%string
                         /\ Js.is_space d = false) as Hr.
  { pose proof (trimStart_head y) as H. destruct (Js.trimStart y) as [| c t].
    - left. reflexivity.
    - right. exists (Js.rev_onto t ""), c. split; [| exact H].
      simpl. apply rev_onto_acc. }
  destruct Hr as [-> | [p [d [-> Hd]]]]; [exact Logic.I |].
  rewrite trimStart_append_clean by exact Hd.
  rewrite rev_onto_append. simpl. exact Hd.
Qed.

Lemma trim_append_dots (y : string) :
  Js.trim (Js.trim y ++ "...")%string = (Js.trim y ++ "...")%string.
Proof.
  unfold Js.trim at 1.
  rewrite trimStart_append_clean by reflexivity.
  rewrite (trimStart_fixed (Js.trim y)) by apply trim_head.
  rewrite rev_onto_append. cbn [Js.rev_onto].
  rewrite (trimStart_fixed (String "." _)) by reflexivity.
  cbn [Js.rev_onto]. rewrite rev_onto_rev_onto. reflexivity.
Qed.

(** X25. The excerpt is derived once.  For an excerpt and a content of
    ASCII characters: the document holds the excerpt trimmed; when that is
    not empty [pre('save')] keeps it, and when the article has no content
    either it stays empty.  For an article with content whose excerpt is
    empty or blank the hook stores the first 150 characters of the content,
    trimmed, followed by three dots: a text of 3 to 153 characters that
    ends in ["..."] and that later saves, with whatever content, no longer
    change. *)
Theorem excerpt_is_derived_once (excerpt content : string) :
  ascii_only excerpt = true ->
  ascii_only content = true ->
  let given := Article.set_excerpt excerpt in
  let e := Article.pre_save_excerpt given content in
  (given <> "" -> e = given) /\
  (given = "" -> content = "" -> e = "") /\
  (given = "" -> content <> "" ->
   e = (Js.trim (Js.take 150 content) ++ "...")%string /\
   ends_with "..." e = true /\
   3 <= String.length e <= 153 /\
   forall content', Article.pre_save_excerpt e content' = e).
Proof.
  intros _ _ given e. split; [| split].
  - intros H. apply String.eqb_neq in H. unfold e, Article.pre_save_excerpt.
    rewrite H. reflexivity.
  - intros Hg Hc. unfold e. rewrite Hg, Hc. reflexivity.
  - intros Hg H. apply String.eqb_neq in H.
    assert (e = (Js.trim (Js.take 150 content) ++ "...")%string) as He.
    { unfold e, Article.pre_save_excerpt, Article.set_excerpt. rewrite Hg, H.
      simpl. apply trim_append_dots. }
    assert (3 <= String.length e <= 153) as Hlen.
    { rewrite He, length_append. simpl String.length at 2 4.
      pose proof (length_trim (Js.take 150 content)) as H1.
      pose proof (length_take 150 content) as H2. lia. }
    split; [exact He |]. split; [rewrite He; apply ends_with_append |].
    split; [exact Hlen |].
    intros content'. unfold Article.pre_save_excerpt.
    destruct (String.eqb e "") eqn:E; [| reflexivity].
    apply String.eqb_eq in E. rewrite E in Hlen. simpl in Hlen. lia.
Qed.

Lemma excerpt_is_derived_once_witness :
  ascii_only "   " = true /\
  ascii_only "  Un texto de prueba  " = true /\
  Article.set_excerpt "   " = "" /\
  Article.pre_save_excerpt (Article.set_excerpt "   ") "  Un texto de prueba  "
    = "Un texto de prueba...".
Proof.
  split; [reflexivity |]. split; [reflexivity |]. split; [reflexivity |].
  destruct (excerpt_is_derived_once "   " "  Un texto de prueba  " eq_refl eq_refl)
    as [_ [_ H]].
  destruct (H eq_refl ltac:(discriminate)) as [He _].
  rewrite He. reflexivity.
Defined.

(** ** Articles that cannot be reached *)


Section Unreachable.
Variable jwt_verify : string -> option ObjectId.

End Unreachable.


(** X27. An identifier is not a slug.  A like request whose parameter,
    trimmed, is 24 hexadecimal digits never likes anything in a store where
    every article has a slug: it is answered 404 when no article has that
    identifier and 400 "Use el slug" when one has, with [success: false],
    and the store is left as it was, even when a published article has
    exactly that text as its slug. *)
Theorem identifier_is_not_a_slug (dev : bool) (slug : string)
    (body_action : option Js.Value) (s : Store) :
  Js.test Js.objectIdRegex (Js.trim slug) = true ->
  (forall a, In a (articles s) -> ArticleDoc.slug a <> "") ->
  exists r,
    run (articleController.toggleLike dev slug body_action) s = (Resolved r, s) /\
    success r = false /\
    status r = match lookupId ArticleDoc._id (Js.castObjectId (Js.trim slug)) (articles s) with
               | Some _ => 400
               | None => 404
               end.
Proof.
  intros Hshape Hslugs. unfold articleController.toggleLike.
  rewrite run_try_catch, run_bind.
  assert (exists r, run (articleController.resolve dev slug) s = (Resolved (inl r), s)
                    /\ success r = false
                    /\ status r =
                       match lookupId ArticleDoc._id (Js.castObjectId (Js.trim slug))
                               (articles s) with
                       | Some _ => 400
                       | None => 404
                       end) as [r [-> [Hsu Hst]]].
  { unfold articleController.resolve. cbv zeta. rewrite Hshape. cbv iota.
    unfold Article.findById. cbn [run bind await].
    destruct (lookupId ArticleDoc._id (Js.castObjectId (Js.trim slug)) (articles s))
      as [a |] eqn:Hl.
    - pose proof (lookupId_In _ _ _ _ _ Hl) as [Hin _].
      pose proof (Hslugs a Hin) as Hne. apply String.eqb_neq in Hne.
      rewrite Hne. cbn [negb run bind].
      eexists. split; [reflexivity |]. split; reflexivity.
    - cbn [run bind]. eexists. split; [reflexivity |]. split; reflexivity. }
  cbv beta iota. exists r. split; [reflexivity |]. split; assumption.
Qed.

Lemma identifier_is_not_a_slug_witness :
  Js.test Js.objectIdRegex (Js.trim "0123456789abcdef01234567") = true /\
  (forall a, In a (articles blog_with_hex_slug) -> ArticleDoc.slug a <> "") /\
  fst (Article.findOne "0123456789abcdef01234567" true blog_with_hex_slug)
    = Resolved (Some hex_slug_article) /\
  exists r,
    run (articleController.toggleLike false "0123456789abcdef01234567" None)
      blog_with_hex_slug = (Resolved r, blog_with_hex_slug) /\
    success r = false /\ status r = 404.
Proof.
  assert (forall a, In a (articles blog_with_hex_slug) -> ArticleDoc.slug a <> "") as H.
  { intros a [<- | [<- | []]]; discriminate. }
  split; [reflexivity |]. split; [exact H |]. split; [reflexivity |].
  exact (identifier_is_not_a_slug false "0123456789abcdef01234567" None
           blog_with_hex_slug eq_refl H).
Defined.
